(** * api_framework: the logging and reporting pipeline

    A shallow embedding of [api_framework/reporting.py],
    [api_framework/logger.py] and [api_framework/assertions.py], and of the
    client of [api_framework/client.py] on a loaded configuration.

    Conventions of the embedding:
    - a Python [str] is a [string], a sequence of code points below 256;
    - a Python [float] is a binary64 primitive float, a Python [int] is a [Z];
    - a Python [dict] read as a map is a [gmap]; a dict whose order reaches
      the output (headers, JSON bodies, CSV rows) is an association list;
    - an operation that can raise returns a [result];
    - the clock and the file system are explicit inputs and states. *)

From Stdlib Require Import ZArith Floats Uint63 String Ascii List Lia.
From stdpp Require Import gmap strings list pretty.

Local Open Scope string_scope.
Local Open Scope Z_scope.
Local Open Scope list_scope.

(** ** Python values used by the modules *)

Inductive exn :=
  | ValueError (msg : string)
  | AssertionError (msg : string)
  | ZeroDivisionError
  | FileNotFoundError (path : string)
  | FileExistsError (path : string)
  | NotADirectoryError (path : string)
  | IsADirectoryError (path : string)
  | JSONDecodeError (msg : string)
  | ValidationError (message : string)
  | OtherError (msg : string).

Inductive result (A : Type) :=
  | Ok (a : A)
  | Raise (e : exn).
Arguments Ok {A} a.
Arguments Raise {A} e.

(** The value returned, if any. *)
Definition result_to_option {A} (r : result A) : option A :=
  match r with
  | Ok a => Some a
  | Raise _ => None
  end.

(** [isinstance(e, OSError)]; [IOError] is an alias of [OSError]. *)
Definition is_IOError (e : exn) : bool :=
  match e with
  | FileNotFoundError _ | FileExistsError _
  | NotADirectoryError _ | IsADirectoryError _ => true
  | _ => false
  end.

Definition is_AssertionError (e : exn) : bool :=
  match e with AssertionError _ => true | _ => false end.

(** [str(e)] for the exceptions above. *)
Definition exn_str (e : exn) : string :=
  match e with
  | ValueError m | AssertionError m | OtherError m => m
  | JSONDecodeError m | ValidationError m => m
  | ZeroDivisionError => "division by zero"
  | FileNotFoundError p => "[Errno 2] No such file or directory: '" +:+ p +:+ "'"
  | FileExistsError p => "[Errno 17] File exists: '" +:+ p +:+ "'"
  | NotADirectoryError p => "[Errno 20] Not a directory: '" +:+ p +:+ "'"
  | IsADirectoryError p => "[Errno 21] Is a directory: '" +:+ p +:+ "'"
  end.

(** Python numbers: the result of [/] is always a float, [sum] of an empty
    list is the int [0]. *)
Inductive pynum :=
  | PyInt (z : Z)
  | PyFloat (f : float).

(** [float(z)]; exact for [|z| <= 2^53], which no counter of a run leaves. *)
Definition float_of_Z (z : Z) : float :=
  match z with
  | Z0 => 0%float
  | Zpos _ => PrimFloat.of_uint63 (Uint63.of_Z z)
  | Zneg _ => PrimFloat.opp (PrimFloat.of_uint63 (Uint63.of_Z (- z)))
  end.

Definition to_float (x : pynum) : float :=
  match x with
  | PyInt z => float_of_Z z
  | PyFloat f => f
  end.

Definition py_add (x y : pynum) : pynum :=
  match x, y with
  | PyInt a, PyInt b => PyInt (a + b)
  | _, _ => PyFloat (PrimFloat.add (to_float x) (to_float y))
  end.

Definition py_mul (x y : pynum) : pynum :=
  match x, y with
  | PyInt a, PyInt b => PyInt (a * b)
  | _, _ => PyFloat (PrimFloat.mul (to_float x) (to_float y))
  end.

Definition py_is_zero (x : pynum) : bool :=
  match x with
  | PyInt z => z =? 0
  | PyFloat f => PrimFloat.eqb f 0%float
  end.

(** An int as the operand of a division that rounds once: the integer
    itself, with the exponent 0 and a mantissa of any length. *)
Definition int_to_SF (z : Z) : spec_float :=
  match z with
  | Z0 => S754_zero false
  | Zpos p => S754_finite false p 0
  | Zneg p => S754_finite true p 0
  end.

(** [a / b] on two ints: the exact quotient of the integers rounded once to
    the nearest float, ties to even; [OverflowError] when the quotient is
    beyond the floats. *)
Definition int_truediv (a b : Z) : result float :=
  if b =? 0 then Raise ZeroDivisionError
  else
    match SFdiv prec emax (int_to_SF a) (int_to_SF b) with
    | S754_infinity _ => Raise (OtherError "integer division result too large for a float")
    | q => Ok (SF2Prim q)
    end.

(** [x / y]: true division, [ZeroDivisionError] on a zero divisor.  Two ints
    are divided as integers; otherwise the int operand is converted and the
    floats are divided. *)
Definition py_truediv (x y : pynum) : result pynum :=
  if py_is_zero y then Raise ZeroDivisionError
  else
    match x, y with
    | PyInt a, PyInt b =>
        match int_truediv a b with
        | Raise e => Raise e
        | Ok q => Ok (PyFloat q)
        end
    | _, _ => Ok (PyFloat (PrimFloat.div (to_float x) (to_float y)))
    end.

(** The place of an integer [N] between two consecutive multiples of a unit
    [U], as the rounding of [SpecFloat] records it while it shifts a
    mantissa to the right: [m] is the quotient of [N] by [U], the bit [r]
    tells whether the remainder reaches half a unit, the bit [s] whether it
    is neither zero nor the half. *)
Definition located (N U m : Z) (r s : bool) : Prop :=
  exists rem,
    N = m * U + rem /\ 0 <= rem < U
    /\ r = (U <=? 2 * rem) /\ s = negb (rem =? 0) && negb (2 * rem =? U).

Definition located_record (N U : Z) (mrs : shr_record) : Prop :=
  located N U (shr_m mrs) (shr_r mrs) (shr_s mrs) /\ 0 <= shr_m mrs.

(** [sum(times)]: starts from the int [0] and adds from the left. *)
Definition py_sum (times : list float) : pynum :=
  fold_left (fun acc t => py_add acc (PyFloat t)) times (PyInt 0).

(** The two conversions of the interpreter that the modules reach and that
    are not modelled digit by digit: [repr] of a float (the shortest
    decimal that reads back as the same float) and [repr] of a str. *)
Class PyRuntime := {
  float_repr : float -> string;
  str_repr : string -> string }.

(** The runtime of the closed examples below.  Its [str_repr] is [repr] on
    the strs without quotes, backslashes and unprintable characters, which
    are the only ones the examples render; none of them renders a float. *)
Definition example_runtime : PyRuntime := {|
  float_repr := fun _ => "0.0";
  str_repr := fun s => "'" +:+ s +:+ "'" |}.

(** [s.startswith(p)] *)
Fixpoint startswith (p s : string) : bool :=
  match p, s with
  | EmptyString, _ => true
  | String a p', String b s' => Ascii.eqb a b && startswith p' s'
  | _, _ => false
  end.

(** [needle in s] *)
Fixpoint containsb (needle s : string) : bool :=
  startswith needle s ||
  match s with
  | EmptyString => false
  | String _ rest => containsb needle rest
  end.


(** The character [c] occurs in [s]. *)
Fixpoint has_char (c : ascii) (s : string) : bool :=
  match s with
  | EmptyString => false
  | String a rest => Ascii.eqb a c || has_char c rest
  end.



(** [sep.join(parts)] *)
Fixpoint str_join (sep : string) (parts : list string) : string :=
  match parts with
  | [] => ""
  | [p] => p
  | p :: rest => p +:+ sep +:+ str_join sep rest
  end.

(** [str.lower()] on the code points below 256: the ASCII capitals and the
    Latin-1 capitals other than the multiplication sign. *)
Definition lower_char (c : ascii) : ascii :=
  let n := N_of_ascii c in
  if ((65 <=? n) && (n <=? 90))%N then ascii_of_N (n + 32)
  else if ((192 <=? n) && (n <=? 222) && negb (n =? 215))%N then ascii_of_N (n + 32)
  else c.

Fixpoint lower (s : string) : string :=
  match s with
  | EmptyString => EmptyString
  | String c rest => String (lower_char c) (lower rest)
  end.

(** [datetime]: the fields of a naive UTC instant. *)
Record datetime := {
  year : Z; month : Z; day : Z;
  hour : Z; minute : Z; second : Z; microsecond : Z }.

(** ["%0<width>d" % n] for [n >= 0] *)
Definition zero_pad (width : nat) (n : Z) : string :=
  let digits := pretty (Z.to_N n) in
  string_of_list_ascii
    (replicate (width - String.length digits) "0"%char) +:+ digits.

(** [datetime.isoformat(sep)] of a naive datetime *)
Definition isoformat_sep (sep : string) (d : datetime) : string :=
  zero_pad 4 (year d) +:+ "-" +:+ zero_pad 2 (month d) +:+ "-" +:+ zero_pad 2 (day d)
  +:+ sep +:+
  zero_pad 2 (hour d) +:+ ":" +:+ zero_pad 2 (minute d) +:+ ":" +:+ zero_pad 2 (second d)
  +:+ (if microsecond d =? 0 then "" else "." +:+ zero_pad 6 (microsecond d)).

Definition isoformat : datetime -> string := isoformat_sep "T".

(** ** reporting.py *)

Module TestResult.

(** [@dataclass class TestResult] *)
Record t := {
  test_name : string;
  test_class : string;
  status : string;
  execution_time : float;
  timestamp : datetime;
  endpoint : string;
  method : string;
  response_code : option Z;
  error_message : option string;
  request_headers : option (list (string * string));
  response_headers : option (list (string * string));
  validation_errors : option (list string) }.

End TestResult.

Module MetricsCollector.
Import TestResult.

(** [class MetricsCollector]; the lock serialises [add_result] and
    [get_metrics], each of which is one atomic transition here. *)
Record MetricsCollector := {
  total_tests : Z;
  passed_tests : Z;
  failed_tests : Z;
  error_tests : Z;
  total_execution_time : float;
  response_times : gmap string (list float);
  status_codes : gmap Z Z }.

(** [MetricsCollector.__init__] *)
Definition init : MetricsCollector := {|
  total_tests := 0;
  passed_tests := 0;
  failed_tests := 0;
  error_tests := 0;
  total_execution_time := 0%float;
  response_times := ∅;
  status_codes := ∅ |}.

(** [f"{result.method} {result.endpoint}"] *)
Definition endpoint_key (r : TestResult.t) : string :=
  method r +:+ " " +:+ endpoint r.

(** [MetricsCollector.add_result] *)
Definition add_result (r : TestResult.t) (mc : MetricsCollector) : MetricsCollector :=
  let passed :=
    if String.eqb (status r) "SUCCESS" then passed_tests mc + 1 else passed_tests mc in
  let failed :=
    if String.eqb (status r) "SUCCESS" then failed_tests mc
    else if String.eqb (status r) "FAILED" then failed_tests mc + 1
    else failed_tests mc in
  let errors :=
    if String.eqb (status r) "SUCCESS" then error_tests mc
    else if String.eqb (status r) "FAILED" then error_tests mc
    else error_tests mc + 1 in
  let times : list float := default [] (response_times mc !! endpoint_key r) in
  let codes :=
    match response_code r with
    | Some c =>
        if c =? 0 then status_codes mc
        else <[c := default 0 (status_codes mc !! c) + 1]> (status_codes mc)
    | None => status_codes mc
    end in
  {| total_tests := total_tests mc + 1;
     passed_tests := passed;
     failed_tests := failed;
     error_tests := errors;
     total_execution_time :=
       PrimFloat.add (total_execution_time mc) (execution_time r);
     response_times := <[endpoint_key r := times ++ [execution_time r]]> (response_times mc);
     status_codes := codes |}.

(** The dict returned by [get_metrics]. *)
Record Metrics := {
  m_total_tests : Z;
  m_passed_tests : Z;
  m_failed_tests : Z;
  m_error_tests : Z;
  m_success_rate : pynum;
  m_total_execution_time : float;
  m_average_response_times : gmap string pynum;
  m_status_code_distribution : gmap Z Z }.

(** [sum(times) / len(times)] *)
Definition average (times : list float) : result pynum :=
  py_truediv (py_sum times) (PyInt (Z.of_nat (length times))).

(** The dict comprehension over [response_times.items()]: the first empty
    list of samples raises. *)
Fixpoint averages (items : list (string * list float)) : result (list (string * pynum)) :=
  match items with
  | [] => Ok []
  | (k, times) :: rest =>
      match average times with
      | Raise e => Raise e
      | Ok a =>
          match averages rest with
          | Raise e => Raise e
          | Ok l => Ok ((k, a) :: l)
          end
      end
  end.

(** [(passed / total * 100) if total > 0 else 0] *)
Definition success_rate (mc : MetricsCollector) : result pynum :=
  if 0 <? total_tests mc then
    match py_truediv (PyInt (passed_tests mc)) (PyInt (total_tests mc)) with
    | Raise e => Raise e
    | Ok q => Ok (py_mul q (PyInt 100))
    end
  else Ok (PyInt 0).

(** [MetricsCollector.get_metrics] *)
Definition get_metrics (mc : MetricsCollector) : result Metrics :=
  match success_rate mc with
  | Raise e => Raise e
  | Ok rate =>
      match averages (map_to_list (response_times mc)) with
      | Raise e => Raise e
      | Ok avgs =>
          Ok {| m_total_tests := total_tests mc;
                m_passed_tests := passed_tests mc;
                m_failed_tests := failed_tests mc;
                m_error_tests := error_tests mc;
                m_success_rate := rate;
                m_total_execution_time := total_execution_time mc;
                m_average_response_times := list_to_map avgs;
                m_status_code_distribution := status_codes mc |}
      end
  end.

(** The float [rate] is within 0.005 of the exact quotient
    [100 * passed / total], for [total > 0]. *)
Definition within_two_decimals (rate : float) (passed total : Z) : bool :=
  match Prim2SF rate with
  | S754_zero _ => Z.abs (20000 * passed) <=? total
  | S754_finite s m e =>
      let num := if s then Z.neg m else Z.pos m in
      if 0 <=? e
      then Z.abs (200 * total * num * 2 ^ e - 20000 * passed) <=? total
      else Z.abs (200 * total * num - 20000 * passed * 2 ^ (- e)) <=? total * 2 ^ (- e)
  | _ => false
  end.

(** A collector with the given counters and nothing else. *)
Definition with_counts (passed total : Z) : MetricsCollector :=
  {| total_tests := total;
     passed_tests := passed;
     failed_tests := total - passed;
     error_tests := 0;
     total_execution_time := 0%float;
     response_times := ∅;
     status_codes := ∅ |}.

(** The invariant of the sample lists: every endpoint key holds at least
    one sample. *)
Definition samples_nonempty (mc : MetricsCollector) : Prop :=
  forall key times, response_times mc !! key = Some times -> times <> [].

End MetricsCollector.

(** ** The file system and the [os] functions the modules call

    Paths are taken as written: the model does not resolve ".", ".." or
    repeated separators.  A path with no separator names an entry of the
    current directory, which always exists. *)

Module os.

Definition sep : ascii := "/"%char.

(** [(p[:i], p[i:])] with [i = p.rfind('/') + 1]. *)
Fixpoint split_at_last_sep (p : string) : string * string :=
  match p with
  | EmptyString => (EmptyString, EmptyString)
  | String c rest =>
      let '(h, t) := split_at_last_sep rest in
      match h with
      | EmptyString =>
          if Ascii.eqb c sep then (String c EmptyString, t)
          else (EmptyString, String c t)
      | _ => (String c h, t)
      end
  end.

(** [head == sep * len(head)] *)
Fixpoint all_sep (s : string) : bool :=
  match s with
  | EmptyString => true
  | String c rest => Ascii.eqb c sep && all_sep rest
  end.

(** [head.rstrip(sep)] *)
Fixpoint rstrip_sep (s : string) : string :=
  match s with
  | EmptyString => EmptyString
  | String c rest =>
      match rstrip_sep rest with
      | EmptyString => if Ascii.eqb c sep then EmptyString else String c EmptyString
      | r => String c r
      end
  end.

Definition is_empty (s : string) : bool :=
  match s with EmptyString => true | _ => false end.

(** [posixpath.split] *)
Definition split (p : string) : string * string :=
  let '(head, tail) := split_at_last_sep p in
  (if negb (is_empty head) && negb (all_sep head) then rstrip_sep head else head, tail).

(** [posixpath.dirname] *)
Definition dirname (p : string) : string := fst (split p).

Definition startswith_sep (s : string) : bool :=
  match s with String c _ => Ascii.eqb c sep | EmptyString => false end.

Fixpoint endswith_sep (s : string) : bool :=
  match s with
  | EmptyString => false
  | String c EmptyString => Ascii.eqb c sep
  | String _ rest => endswith_sep rest
  end.

(** [posixpath.join(a, b)] *)
Definition join (a b : string) : string :=
  if startswith_sep b then b
  else if is_empty a || endswith_sep a then a +:+ b
  else a +:+ "/" +:+ b.

(** The state of the file system: the directories and the regular files
    with their contents. *)
Record fs := {
  dirs : gset string;
  files : gmap string string }.

(** [os.path.isdir], [os.path.isfile], [os.path.exists]; the empty path
    names nothing. *)
Definition isdir (s : fs) (p : string) : bool :=
  negb (is_empty p) && bool_decide (p ∈ dirs s).
Definition isfile (s : fs) (p : string) : bool :=
  negb (is_empty p) && bool_decide (is_Some (files s !! p)).
Definition exists_ (s : fs) (p : string) : bool := isdir s p || isfile s p.

(** The directory an entry is created in exists: the current directory for
    a bare name, otherwise the directory named by [dirname]. *)
Definition parent_check (s : fs) (p : string) : result unit :=
  let d := dirname p in
  if is_empty d then Ok tt
  else if isdir s d then Ok tt
  else if isfile s d then Raise (NotADirectoryError p)
  else Raise (FileNotFoundError p).

(** [os.mkdir(p)] *)
Definition mkdir (p : string) (s : fs) : result fs :=
  if is_empty p then Raise (FileNotFoundError p)
  else if exists_ s p then Raise (FileExistsError p)
  else
    match parent_check s p with
    | Raise e => Raise e
    | Ok _ => Ok {| dirs := {[p]} ∪ dirs s; files := files s |}
    end.

(** [os.makedirs(name, exist_ok=exist_ok)]; every recursive call is on a
    strictly shorter path, so [fuel] above the length of [name] is never
    exhausted. *)
Fixpoint makedirs_rec (fuel : nat) (name : string) (exist_ok : bool) (s : fs)
  : fs * result unit :=
  match fuel with
  | O => (s, Raise (OtherError "maximum recursion depth exceeded"))
  | S fuel' =>
      let '(head, tail) := split name in
      let '(head, tail) := if is_empty tail then split head else (head, tail) in
      let mk (s1 : fs) : fs * result unit :=
        match mkdir name s1 with
        | Ok s2 => (s2, Ok tt)
        | Raise e =>
            if is_IOError e && negb (negb exist_ok || negb (isdir s1 name))
            then (s1, Ok tt) else (s1, Raise e)
        end in
      if negb (is_empty head) && negb (is_empty tail) && negb (exists_ s head) then
        match makedirs_rec fuel' head exist_ok s with
        | (s1, Raise (FileExistsError _)) | (s1, Ok _) =>
            if String.eqb tail "." then (s1, Ok tt) else mk s1
        | (s1, Raise e) => (s1, Raise e)
        end
      else mk s
  end.

Definition makedirs (name : string) (exist_ok : bool) (s : fs) : fs * result unit :=
  makedirs_rec (S (String.length name)) name exist_ok s.

Inductive mode := W | A.

(** [open(p, mode)] followed by the writes of [content] and [close]: mode
    ['w'] truncates, mode ['a'] appends. *)
Definition open_check (p : string) (s : fs) : result unit :=
  if is_empty p then Raise (FileNotFoundError p)
  else if isdir s p then Raise (IsADirectoryError p)
  else parent_check s p.

Definition write_file (p : string) (m : mode) (content : string) (s : fs) : fs :=
  let old := match m with W => "" | A => default "" (files s !! p) end in
  {| dirs := dirs s; files := <[p := old +:+ content]> (files s) |}.

End os.

(** ** The worker loop

    [ReportGenerator._process_queue] and [APILogger._log_writer] are the same
    loop around a different body:
<<
    while not self._stop_event.is_set() or not self._queue.empty():
        try:
            item = self._queue.get(timeout=1.0)
            ... body(item) ...
            self._queue.task_done()
        except Exception:
            continue
>>
    The worker thread alternates between the loop test and the blocking
    [get]; other threads [put] items and set the stop event between any two
    of its actions. *)

Inductive pc := AtTest | AtGet | Returned.

Section worker.
Context {Item Data : Type}.
Variable body : Item -> Data -> Data.

Record worker := {
  queue : list Item;
  stop_event : bool;
  at_pc : pc;
  data : Data }.

(** [Queue.empty()] *)
Definition empty (q : list Item) : bool :=
  match q with [] => true | _ => false end.

(** One action of the worker thread: the loop test, or [get] with the
    body.  A [get] on an empty queue times out with [queue.Empty], which
    [except Exception: continue] turns into the next loop test. *)
Definition worker_step (w : worker) : worker :=
  match at_pc w with
  | AtTest =>
      {| queue := queue w; stop_event := stop_event w; data := data w;
         at_pc := if negb (stop_event w) || negb (empty (queue w))
                  then AtGet else Returned |}
  | AtGet =>
      match queue w with
      | item :: q =>
          {| queue := q; stop_event := stop_event w; at_pc := AtTest;
             data := body item (data w) |}
      | [] =>
          {| queue := []; stop_event := stop_event w; at_pc := AtTest;
             data := data w |}
      end
  | Returned => w
  end.

(** [Queue.put(item)], from any thread *)
Definition put (item : Item) (w : worker) : worker :=
  {| queue := queue w ++ [item]; stop_event := stop_event w;
     at_pc := at_pc w; data := data w |}.

(** [Event.set()] *)
Definition set_stop (w : worker) : worker :=
  {| queue := queue w; stop_event := true; at_pc := at_pc w; data := data w |}.

(** A schedule interleaves the producers' [put]s with worker actions. *)
Inductive action := Put (item : Item) | Step.

Definition act (w : worker) (a : action) : worker :=
  match a with
  | Put item => put item w
  | Step => worker_step w
  end.

Definition run (schedule : list action) (w : worker) : worker :=
  fold_left act schedule w.

(** The items a schedule enqueues, in order. *)
Fixpoint puts (schedule : list action) : list Item :=
  match schedule with
  | [] => []
  | Put item :: rest => item :: puts rest
  | Step :: rest => puts rest
  end.

(** [Thread.join()]: the worker runs alone until its loop returns;
    [None] when it has not returned within [fuel] actions. *)
Fixpoint join_thread (fuel : nat) (w : worker) : option worker :=
  match at_pc w with
  | Returned => Some w
  | _ =>
      match fuel with
      | O => None
      | S fuel' => join_thread fuel' (worker_step w)
      end
  end.

(** [__del__]: set the stop event, then join the thread. *)
Definition shutdown (fuel : nat) (w : worker) : option worker :=
  join_thread fuel (set_stop w).

(** The bodies run on a list of items, first to last. *)
Definition handle_all (items : list Item) (d : Data) : Data :=
  fold_left (fun d item => body item d) items d.

(** What the data becomes once the queue has been handled. *)
Definition pending (w : worker) : Data :=
  handle_all (queue w) (data w).

(** A started thread on an empty queue. *)
Definition start (d : Data) : worker :=
  {| queue := []; stop_event := false; at_pc := AtTest; data := d |}.
End worker.

Arguments worker : clear implicits.

(** ** [csv.DictWriter] with the default dialect *)

Module csv.

(** The values a row dict of [export_csv] holds. *)
Inductive value :=
  | VNone
  | VStr (s : string)
  | VInt (z : Z)
  | VFloat (f : float)
  | VDatetime (d : datetime)
  | VDict (d : list (string * string))
  | VList (l : list string).

(** [str(v)] *)
Definition str `{PyRuntime} (v : value) : string :=
  match v with
  | VNone => "None"
  | VStr s => s
  | VInt z => pretty z
  | VFloat f => float_repr f
  | VDatetime d => isoformat_sep " " d
  | VDict d =>
      "{" +:+ str_join ", " (map (fun kv => str_repr (fst kv) +:+ ": " +:+ str_repr (snd kv)) d) +:+ "}"
  | VList l => "[" +:+ str_join ", " (map str_repr l) +:+ "]"
  end.

(** The text of a field: [None] is written as the empty string, a str as
    it is, anything else through [str]. *)
Definition field_text `{PyRuntime} (v : value) : string :=
  match v with
  | VNone => ""
  | _ => str v
  end.

Definition DQUOTE : ascii := "034"%char.
Definition CR : ascii := "013"%char.
Definition LF : ascii := "010"%char.
Definition lineterminator : string := String CR (String LF EmptyString).

(** [QUOTE_MINIMAL]: a field is quoted when it holds the delimiter, the
    quote character or a character of the line terminator. *)
Fixpoint needs_quotes (s : string) : bool :=
  match s with
  | EmptyString => false
  | String c rest =>
      Ascii.eqb c ","%char || Ascii.eqb c DQUOTE || Ascii.eqb c CR || Ascii.eqb c LF
      || needs_quotes rest
  end.

(** [doublequote]: a quote character inside a field is written twice. *)
Fixpoint double_quotes (s : string) : string :=
  match s with
  | EmptyString => EmptyString
  | String c rest =>
      if Ascii.eqb c DQUOTE then String c (String c (double_quotes rest))
      else String c (double_quotes rest)
  end.

Definition quote_field (s : string) : string :=
  if needs_quotes s then String DQUOTE (double_quotes s) +:+ String DQUOTE EmptyString
  else s.

(** [writer.writerow(fields)] *)
Definition format_row (fields : list string) : string :=
  str_join "," (map quote_field fields) +:+ lineterminator.

Record DictWriter := {
  fieldnames : list string;
  restval : string;
  extrasaction : string }.

(** [rowdict.get(key, restval)] *)
Fixpoint get (rowdict : list (string * value)) (key : string) : option value :=
  match rowdict with
  | [] => None
  | (k, v) :: rest => if String.eqb k key then Some v else get rest key
  end.

(** [rowdict[key] = v] on a dict that holds [key] or not. *)
Fixpoint setitem (rowdict : list (string * value)) (key : string) (v : value)
  : list (string * value) :=
  match rowdict with
  | [] => [(key, v)]
  | (k, old) :: rest =>
      if String.eqb k key then (k, v) :: rest else (k, old) :: setitem rest key v
  end.

Definition mem (key : string) (names : list string) : bool :=
  existsb (String.eqb key) names.

(** [rowdict.keys() - self.fieldnames] *)
Definition wrong_fields (w : DictWriter) (rowdict : list (string * value)) : list string :=
  filter (fun k => negb (mem k (fieldnames w))) (map fst rowdict).

(** [DictWriter._dict_to_list] *)
Definition _dict_to_list `{PyRuntime} (w : DictWriter) (rowdict : list (string * value))
  : result (list string) :=
  if String.eqb (extrasaction w) "raise" && negb (empty (wrong_fields w rowdict)) then
    Raise (ValueError ("dict contains fields not in fieldnames: "
                       +:+ str_join ", " (map str_repr (wrong_fields w rowdict))))
  else
    Ok (map (fun key => match get rowdict key with
                        | Some v => field_text v
                        | None => restval w
                        end) (fieldnames w)).

(** [DictWriter.writerow]: the text appended to the file, or the exception. *)
Definition writerow `{PyRuntime} (w : DictWriter) (rowdict : list (string * value))
  : result string :=
  match _dict_to_list w rowdict with
  | Raise e => Raise e
  | Ok fields => Ok (format_row fields)
  end.

(** [DictWriter.writeheader] *)
Definition writeheader `{PyRuntime} (w : DictWriter) : result string :=
  writerow w (map (fun name => (name, VStr name)) (fieldnames w)).

End csv.

Module ReportGenerator.
Import TestResult MetricsCollector.

(** What the worker thread owns: [self.results] and [self.metrics]. *)
Record history := {
  results : list TestResult.t;
  metrics : MetricsCollector }.

(** The body of the loop of [_process_queue]. *)
Definition consume (r : TestResult.t) (h : history) : history :=
  {| results := results h ++ [r];
     metrics := MetricsCollector.add_result r (metrics h) |}.

Record ReportGenerator := {
  output_dir : string;
  thread : worker TestResult.t history }.

(** [ReportGenerator.__init__] *)
Definition new (output_dir : string) : ReportGenerator :=
  {| output_dir := output_dir;
     thread := start {| results := []; metrics := MetricsCollector.init |} |}.

(** [ReportGenerator._process_queue], one action at a time *)
Definition _process_queue : worker TestResult.t history -> worker TestResult.t history :=
  worker_step consume.

(** [ReportGenerator.add_result] *)
Definition add_result (r : TestResult.t) (self : ReportGenerator) : ReportGenerator :=
  {| output_dir := output_dir self; thread := put r (thread self) |}.

Definition opt {A} (f : A -> csv.value) (o : option A) : csv.value :=
  match o with
  | Some a => f a
  | None => csv.VNone
  end.

(** [dataclasses.asdict(result)] *)
Definition asdict (r : TestResult.t) : list (string * csv.value) :=
  [ ("test_name", csv.VStr (test_name r));
    ("test_class", csv.VStr (test_class r));
    ("status", csv.VStr (status r));
    ("execution_time", csv.VFloat (execution_time r));
    ("timestamp", csv.VDatetime (timestamp r));
    ("endpoint", csv.VStr (endpoint r));
    ("method", csv.VStr (method r));
    ("response_code", opt csv.VInt (response_code r));
    ("error_message", opt csv.VStr (error_message r));
    ("request_headers", opt csv.VDict (request_headers r));
    ("response_headers", opt csv.VDict (response_headers r));
    ("validation_errors", opt csv.VList (validation_errors r)) ].

Definition csv_fieldnames : list string :=
  [ "test_name"; "test_class"; "status";
    "execution_time"; "timestamp"; "endpoint";
    "method"; "response_code"; "error_message" ].

(** [csv.DictWriter(f, fieldnames=[...])]: the other arguments default. *)
Definition csv_writer : csv.DictWriter :=
  {| csv.fieldnames := csv_fieldnames; csv.restval := ""; csv.extrasaction := "raise" |}.

(** The line [writeheader] writes. *)
Definition header_row : string :=
  "test_name,test_class,status,execution_time,timestamp,endpoint,method,response_code,error_message"
  +:+ csv.lineterminator.

(** The rows of the [for] loop of [export_csv]: the text written so far and
    how the loop ended. *)
Fixpoint write_rows `{PyRuntime} (w : csv.DictWriter) (rs : list TestResult.t) (written : string)
  : string * result unit :=
  match rs with
  | [] => (written, Ok tt)
  | r :: rest =>
      let row := asdict r in
      let row := csv.setitem row "timestamp" (csv.VStr (isoformat (timestamp r))) in
      match csv.writerow w row with
      | Raise e => (written, Raise e)
      | Ok line => write_rows w rest (written +:+ line)
      end
  end.

(** [ReportGenerator.export_csv]: the file system afterwards and the value
    returned or the exception raised.  The [with] block closes the file on
    both ways out, so whatever was written reaches the file. *)
Definition export_csv `{PyRuntime} (self : ReportGenerator) (filename : string) (s : os.fs)
  : os.fs * result string :=
  match os.makedirs (output_dir self) true s with
  | (s1, Raise e) => (s1, Raise e)
  | (s1, Ok _) =>
      let filepath := os.join (output_dir self) filename in
      match os.open_check filepath s1 with
      | Raise e => (s1, Raise e)
      | Ok _ =>
          let w := csv_writer in
          match csv.writeheader w with
          | Raise e => (os.write_file filepath os.W "" s1, Raise e)
          | Ok header =>
              let '(written, r) := write_rows w (results (data (thread self))) header in
              (os.write_file filepath os.W written s1,
               match r with
               | Ok _ => Ok filepath
               | Raise e => Raise e
               end)
          end
      end
  end.

End ReportGenerator.

(** ** JSON-like values and [json.dumps(obj, indent=2)] *)

Inductive json :=
  | JNull
  | JBool (b : bool)
  | JInt (z : Z)
  | JFloat (f : float)
  | JStr (s : string)
  | JList (items : list json)
  | JDict (items : list (string * json)).

Module Json.

(** Python truthiness: [if body:] *)
Definition truthy (j : json) : bool :=
  match j with
  | JNull => false
  | JBool b => b
  | JInt z => negb (z =? 0)
  | JFloat f => negb (PrimFloat.eqb f 0%float)
  | JStr s => negb (os.is_empty s)
  | JList items => negb (empty items)
  | JDict items => negb (empty items)
  end.

Definition hex_digit (n : N) : ascii :=
  match n with
  | 0 => "0" | 1 => "1" | 2 => "2" | 3 => "3" | 4 => "4"
  | 5 => "5" | 6 => "6" | 7 => "7" | 8 => "8" | 9 => "9"
  | 10 => "a" | 11 => "b" | 12 => "c" | 13 => "d" | 14 => "e"
  | _ => "f"
  end%N%char.

(** ['\\u{0:04x}'.format(n)] for a code point below 256 *)
Definition u_escape (c : ascii) : string :=
  let n := N_of_ascii c in
  "\u00" +:+ String (hex_digit (n / 16)) (String (hex_digit (n mod 16)) EmptyString).

(** [ESCAPE_DCT] with the fallback of [py_encode_basestring_ascii]:
    everything outside [' '..'~'] is escaped. *)
Definition escape_char (c : ascii) : string :=
  let n := N_of_ascii c in
  if Ascii.eqb c "\"%char then "\\"
  else if Ascii.eqb c "034"%char then String "\"%char (String "034"%char EmptyString)
  else if Ascii.eqb c "008"%char then "\b"
  else if Ascii.eqb c "012"%char then "\f"
  else if Ascii.eqb c "010"%char then "\n"
  else if Ascii.eqb c "013"%char then "\r"
  else if Ascii.eqb c "009"%char then "\t"
  else if ((32 <=? n) && (n <=? 126))%N then String c EmptyString
  else u_escape c.

Fixpoint escape (s : string) : string :=
  match s with
  | EmptyString => EmptyString
  | String c rest => escape_char c +:+ escape rest
  end.

(** [encode_basestring_ascii(s)] *)
Definition encode_str (s : string) : string :=
  String "034"%char (escape s) +:+ String "034"%char EmptyString.

(** [floatstr] of the encoder *)
Definition floatstr `{PyRuntime} (f : float) : string :=
  if PrimFloat.is_nan f then "NaN"
  else if PrimFloat.eqb f PrimFloat.infinity then "Infinity"
  else if PrimFloat.eqb f PrimFloat.neg_infinity then "-Infinity"
  else float_repr f.

(** ['\n' + ' ' * (indent * level)] with [indent = 2] *)
Definition newline_indent (level : nat) : string :=
  String "010"%char (string_of_list_ascii (replicate (2 * level) " "%char)).

(** [_iterencode] at nesting depth [level], joined *)
Fixpoint encode `{PyRuntime} (level : nat) (j : json) : string :=
  match j with
  | JNull => "null"
  | JBool true => "true"
  | JBool false => "false"
  | JInt z => pretty z
  | JFloat f => floatstr f
  | JStr s => encode_str s
  | JList [] => "[]"
  | JList items =>
      "[" +:+ newline_indent (S level)
      +:+ str_join ("," +:+ newline_indent (S level)) (map (encode (S level)) items)
      +:+ newline_indent level +:+ "]"
  | JDict [] => "{}"
  | JDict items =>
      "{" +:+ newline_indent (S level)
      +:+ str_join ("," +:+ newline_indent (S level))
            (map (fun kv => encode_str (fst kv) +:+ ": " +:+ encode (S level) (snd kv)) items)
      +:+ newline_indent level +:+ "}"
  end.

(** [json.dumps(obj, indent=2)] *)
Definition dumps `{PyRuntime} (obj : json) : string := encode 0 obj.

(** [repr(obj)]: how an f-string renders a dict or a list *)
Fixpoint repr `{PyRuntime} (obj : json) : string :=
  match obj with
  | JNull => "None"
  | JBool true => "True"
  | JBool false => "False"
  | JInt z => pretty z
  | JFloat f => float_repr f
  | JStr s => str_repr s
  | JList items => "[" +:+ str_join ", " (map repr items) +:+ "]"
  | JDict items =>
      "{" +:+ str_join ", "
                (map (fun kv => str_repr (fst kv) +:+ ": " +:+ repr (snd kv)) items)
      +:+ "}"
  end.

(** [str(obj)] *)
Definition str `{PyRuntime} (obj : json) : string :=
  match obj with
  | JNull => "None"
  | JBool true => "True"
  | JBool false => "False"
  | JInt z => pretty z
  | JFloat f => float_repr f
  | JStr s => s
  | _ => repr obj
  end.

(** [key in d], [d[key] = v] on the items of a dict *)
Fixpoint contains_key {V} (items : list (string * V)) (key : string) : bool :=
  match items with
  | [] => false
  | (k, _) :: rest => String.eqb k key || contains_key rest key
  end.

Fixpoint setitem {V} (items : list (string * V)) (key : string) (v : V) : list (string * V) :=
  match items with
  | [] => [(key, v)]
  | (k, old) :: rest =>
      if String.eqb k key then (k, v) :: rest else (k, old) :: setitem rest key v
  end.

Fixpoint getitem {V} (items : list (string * V)) (key : string) : option V :=
  match items with
  | [] => None
  | (k, v) :: rest => if String.eqb k key then Some v else getitem rest key
  end.

End Json.

(** ** logger.py *)

Module APILogger.

Definition sensitive_headers : list string := ["authorization"; "cookie"; "x-api-key"].
Definition sensitive_fields : list string := ["password"; "token"; "api_key"].
Definition MASK : string := "*****".

(** [key.lower() in {'authorization', 'cookie', 'x-api-key'}] *)
Definition is_sensitive (key : string) : bool :=
  csv.mem (lower key) sensitive_headers.

(** The line of one header: [f"{key}: {value}"] after the masking. *)
Definition format_header (kv : string * string) : string :=
  let '(key, value) := kv in
  let value := if is_sensitive key then MASK else value in
  key +:+ ": " +:+ value.

(** [APILogger._format_headers] *)
Definition _format_headers (headers : list (string * string)) : string :=
  str_join (String "010"%char EmptyString) (map format_header headers).

(** The header map in which the value of every sensitive header is the
    marker. *)
Definition redact (headers : list (string * string)) : list (string * string) :=
  map (fun kv => (fst kv, if is_sensitive (fst kv) then MASK else snd kv)) headers.

(** The loop [for key in ['password', 'token', 'api_key']] over the copy *)
Definition mask_fields (items : list (string * json)) : list (string * json) :=
  fold_left
    (fun body key =>
       if Json.contains_key body key then Json.setitem body key (JStr MASK) else body)
    sensitive_fields items.


(** A field of a dict with the value at [key] replaced by [v]. *)
Definition set_if (key : string) (v : json) (kv : string * json) : string * json :=
  (fst kv, if String.eqb (fst kv) key then v else snd kv).

(** A field of a dict with the value of a sensitive field replaced by the
    marker. *)
Definition mask_field (kv : string * json) : string * json :=
  (fst kv, if csv.mem (fst kv) sensitive_fields then JStr MASK else snd kv).

(** [APILogger._format_body] *)
Definition _format_body `{PyRuntime} (body : json) : string :=
  if negb (Json.truthy body) then ""
  else
    match body with
    | JDict items => Json.dumps (JDict (mask_fields items))
    | JList _ => Json.dumps body
    | _ => Json.str body
    end.

Definition NL : string := String "010"%char EmptyString.

(** [if headers:] with [headers] an optional dict *)
Definition headers_truthy (headers : option (list (string * string))) : bool :=
  match headers with
  | Some (_ :: _) => true
  | _ => false
  end.

Definition headers_part (headers : option (list (string * string))) : string :=
  match headers with
  | Some (h :: hs) => _format_headers (h :: hs) +:+ NL
  | _ => ""
  end.

Definition body_part `{PyRuntime} (body : json) : string :=
  if Json.truthy body then "Body: " +:+ _format_body body +:+ NL else "".

(** The entry [log_request] builds; [timestamp] is [datetime.utcnow()]. *)
Definition request_entry `{PyRuntime} (timestamp : datetime) (method url : string)
    (headers : option (list (string * string))) (body : json) : string :=
  "[" +:+ isoformat timestamp +:+ "Z] REQUEST:" +:+ NL
  +:+ method +:+ " " +:+ url +:+ NL
  +:+ headers_part headers
  +:+ body_part body.

(** Days before January 1st of [y], before the first of month [m], and the
    proleptic Gregorian ordinal, as [datetime.toordinal] computes it. *)
Definition is_leap (y : Z) : bool :=
  (y mod 4 =? 0) && (negb (y mod 100 =? 0) || (y mod 400 =? 0)).

Definition days_before_year (y : Z) : Z :=
  let y := y - 1 in y * 365 + y / 4 - y / 100 + y / 400.

Definition days_before_month (y m : Z) : Z :=
  nth (Z.to_nat m) [0; 0; 31; 59; 90; 120; 151; 181; 212; 243; 273; 304; 334] 0
  + (if (2 <? m) && is_leap y then 1 else 0).

Definition toordinal (d : datetime) : Z :=
  days_before_year (year d) + days_before_month (year d) (month d) + day d.

(** The microseconds of the timedelta [a - b] *)
Definition sub_microseconds (a b : datetime) : Z :=
  let days := toordinal a - toordinal b in
  let secs := (second a + minute a * 60 + hour a * 3600)
              - (second b + minute b * 60 + hour b * 3600) in
  (days * 86400 + secs) * 1000000 + (microsecond a - microsecond b).

(** [int(x)] of a finite float: truncation towards zero. *)
Definition int_of_float (x : float) : result Z :=
  match Prim2SF x with
  | S754_zero _ => Ok 0
  | S754_finite s m e =>
      let mag := if 0 <=? e then Z.pos m * 2 ^ e else Z.pos m / 2 ^ (- e) in
      Ok (if s then - mag else mag)
  | S754_infinity _ => Raise (OtherError "cannot convert float infinity to integer")
  | S754_nan => Raise (ValueError "cannot convert float NaN to integer")
  end.

(** [int((timestamp - request_timestamp).total_seconds() * 1000)] *)
Definition duration_ms (timestamp request_timestamp : datetime) : result Z :=
  let total_seconds :=
    PrimFloat.div (float_of_Z (sub_microseconds timestamp request_timestamp))
                  (float_of_Z 1000000) in
  int_of_float (PrimFloat.mul total_seconds (float_of_Z 1000)).

(** The entry [log_response] builds, or the exception of the conversion. *)
Definition response_entry `{PyRuntime} (timestamp : datetime) (status_code : Z)
    (headers : option (list (string * string))) (body : json)
    (request_timestamp : datetime) : result string :=
  match duration_ms timestamp request_timestamp with
  | Raise e => Raise e
  | Ok ms =>
      Ok ("[" +:+ isoformat timestamp +:+ "Z] RESPONSE (" +:+ pretty ms +:+ "ms):" +:+ NL
          +:+ "Status: " +:+ pretty status_code +:+ NL
          +:+ headers_part headers
          +:+ body_part body
          +:+ string_of_list_ascii (replicate 40 "-"%char) +:+ NL)
  end.

(** [APILogger._write_to_file]: the file system afterwards and what was
    printed, if anything. *)
Definition _write_to_file (log_file content : string) (s : os.fs)
  : os.fs * option string :=
  let report (e : exn) (s' : os.fs) :=
    if is_IOError e then (s', Some ("Error writing to log file: " +:+ exn_str e))
    else (s', None) in
  match os.makedirs (os.dirname log_file) true s with
  | (s1, Raise e) => report e s1
  | (s1, Ok _) =>
      match os.open_check log_file s1 with
      | Raise e => report e s1
      | Ok _ => (os.write_file log_file os.A (content +:+ NL) s1, None)
      end
  end.

(** The state the writer thread owns: the file system it writes to and the
    lines it has printed. *)
Record output := {
  disk : os.fs;
  printed : list string }.

(** The body of the loop of [_log_writer]. *)
Definition write_entry (log_file : string) (log_entry : string) (o : output) : output :=
  let '(s, msg) := _write_to_file log_file log_entry (disk o) in
  {| disk := s;
     printed := match msg with Some m => printed o ++ [m] | None => printed o end |}.

Record APILogger := {
  log_file : string;
  thread : worker string output }.

(** [APILogger.__init__] *)
Definition new (log_file : string) (s : os.fs) : APILogger :=
  {| log_file := log_file; thread := start {| disk := s; printed := [] |} |}.

(** [APILogger._log_writer], one action at a time *)
Definition _log_writer (self : APILogger) : APILogger :=
  {| log_file := log_file self;
     thread := worker_step (write_entry (log_file self)) (thread self) |}.

(** [APILogger.log_request]: the logger afterwards and the timestamp returned *)
Definition log_request `{PyRuntime} (utcnow : datetime) (method url : string)
    (headers : option (list (string * string))) (body : json) (self : APILogger)
  : APILogger * datetime :=
  ({| log_file := log_file self;
      thread := put (request_entry utcnow method url headers body) (thread self) |},
   utcnow).

(** [APILogger.log_response] *)
Definition log_response `{PyRuntime} (utcnow : datetime) (status_code : Z)
    (headers : option (list (string * string))) (body : json)
    (request_timestamp : datetime) (self : APILogger) : result APILogger :=
  match response_entry utcnow status_code headers body request_timestamp with
  | Raise e => Raise e
  | Ok entry =>
      Ok {| log_file := log_file self; thread := put entry (thread self) |}
  end.

End APILogger.

(** ** The logger on mutable objects

    The caller's [headers] and [body] are Python objects passed by
    reference.  This module runs the same methods on a heap of dicts and
    lists, so that [body.copy()] and the assignments [body[key] = '*****']
    are writes to the heap. *)

Module Heap.

Definition loc := positive.

Inductive val :=
  | VNone
  | VBool (b : bool)
  | VInt (z : Z)
  | VFloat (f : float)
  | VStr (s : string)
  | VRef (l : loc).

Inductive obj :=
  | ODict (items : list (string * val))
  | OList (items : list val).

Abbreviation heap := (gmap loc obj).

(** The value a reference denotes, read through the heap to depth [fuel]. *)
Fixpoint read (fuel : nat) (h : heap) (v : val) : option json :=
  match v with
  | VNone => Some JNull
  | VBool b => Some (JBool b)
  | VInt z => Some (JInt z)
  | VFloat f => Some (JFloat f)
  | VStr s => Some (JStr s)
  | VRef l =>
      match fuel with
      | O => None
      | S fuel' =>
          match h !! l with
          | Some (ODict items) =>
              JDict <$> mapM (fun kv => pair (fst kv) <$> read fuel' h (snd kv)) items
          | Some (OList items) => JList <$> mapM (read fuel' h) items
          | None => None
          end
      end
  end.

(** [json.dumps(v, indent=2)]: the encoder raises on a container that
    holds itself; a nesting deeper than the number of objects is one. *)
Definition dumps `{PyRuntime} (h : heap) (v : val) : result string :=
  match read (S (size h)) h v with
  | Some j => Ok (Json.dumps j)
  | None => Raise (ValueError "Circular reference detected")
  end.

Definition truthy (h : heap) (v : val) : bool :=
  match v with
  | VNone => false
  | VBool b => b
  | VInt z => negb (z =? 0)
  | VFloat f => negb (PrimFloat.eqb f 0%float)
  | VStr s => negb (os.is_empty s)
  | VRef l =>
      match h !! l with
      | Some (ODict items) => negb (empty items)
      | Some (OList items) => negb (empty items)
      | None => false
      end
  end.

(** A field of a heap dict reads, to depth [n], as a field of a value. *)
Definition reads_as (n : nat) (h : heap) (kv : string * val) (kv' : string * json) : Prop :=
  (pair kv.1 <$> read n h kv.2) = Some kv'.

(** [body[key] = '*****'] when [key in body], on the items of a dict *)
Definition mask_item_step (items : list (string * val)) (key : string) : list (string * val) :=
  if Json.contains_key items key
  then Json.setitem items key (VStr APILogger.MASK) else items.

(** [body[key] = '*****'] when [key in body], on the dict at [l] *)
Definition mask_key (l : loc) (h : heap) (key : string) : heap :=
  match h !! l with
  | Some (ODict items) =>
      if Json.contains_key items key
      then <[l := ODict (Json.setitem items key (VStr APILogger.MASK))]> h
      else h
  | _ => h
  end.

(** [str(body)] of a value that is not a container *)
Definition scalar (v : val) : json :=
  match v with
  | VBool b => JBool b
  | VInt z => JInt z
  | VFloat f => JFloat f
  | VStr s => JStr s
  | _ => JNull
  end.

(** [APILogger._format_body] *)
Definition _format_body `{PyRuntime} (body : val) (h : heap) : heap * result string :=
  if negb (truthy h body) then (h, Ok "")
  else
    match body with
    | VRef l =>
        match h !! l with
        | Some (ODict items) =>
            let copy := fresh (dom h) in
            let h1 := <[copy := ODict items]> h in
            let h2 := fold_left (mask_key copy) APILogger.sensitive_fields h1 in
            (h2, dumps h2 (VRef copy))
        | _ => (h, dumps h body)
        end
    | _ => (h, Ok (Json.str (scalar body)))
    end.

(** The items of a [Dict[str, str]]; [None] for a dict that holds
    anything but strs. *)
Fixpoint str_items (items : list (string * val)) : option (list (string * string)) :=
  match items with
  | [] => Some []
  | (k, VStr v) :: rest => cons (k, v) <$> str_items rest
  | _ => None
  end.

(** The [headers] argument, an [Optional[Dict[str, str]]], read from the heap;
    the outer [None] is an argument of another type. *)
Definition read_headers (h : heap) (headers : val)
  : option (option (list (string * string))) :=
  match headers with
  | VNone => Some None
  | VRef l =>
      match h !! l with
      | Some (ODict items) => Some <$> str_items items
      | _ => None
      end
  | _ => None
  end.

(** [APILogger._format_headers]: reads the items, writes nothing *)
Definition _format_headers (l : loc) (h : heap) : heap * option string :=
  match read_headers h (VRef l) with
  | Some (Some hs) => (h, Some (APILogger._format_headers hs))
  | _ => (h, None)
  end.

Definition headers_part (headers : val) (h : heap) : heap * option string :=
  match headers with
  | VNone => (h, Some "")
  | VRef l =>
      if truthy h headers then
        match _format_headers l h with
        | (h1, Some text) => (h1, Some (text +:+ APILogger.NL))
        | (h1, None) => (h1, None)
        end
      else (h, Some "")
  | _ => (h, None)
  end.

Definition body_part `{PyRuntime} (body : val) (h : heap) : heap * result string :=
  if truthy h body then
    match _format_body body h with
    | (h1, Ok text) => (h1, Ok ("Body: " +:+ text +:+ APILogger.NL))
    | (h1, Raise e) => (h1, Raise e)
    end
  else (h, Ok "").

(** [APILogger.log_request]: the heap afterwards and the entry that is
    enqueued, the exception raised before the [put], or [None] for headers
    that are not a [Dict[str, str]]. *)
Definition log_request `{PyRuntime} (utcnow : datetime) (method url : string)
    (headers body : val) (h : heap) : heap * option (result string) :=
  match headers_part headers h with
  | (h1, None) => (h1, None)
  | (h1, Some hp) =>
      match body_part body h1 with
      | (h2, Raise e) => (h2, Some (Raise e))
      | (h2, Ok bp) =>
          (h2, Some (Ok ("[" +:+ isoformat utcnow +:+ "Z] REQUEST:" +:+ APILogger.NL
                         +:+ method +:+ " " +:+ url +:+ APILogger.NL
                         +:+ hp +:+ bp)))
      end
  end.

(** [APILogger.log_response] *)
Definition log_response `{PyRuntime} (utcnow : datetime) (status_code : Z)
    (headers body : val) (request_timestamp : datetime) (h : heap)
  : heap * option (result string) :=
  match APILogger.duration_ms utcnow request_timestamp with
  | Raise e => (h, Some (Raise e))
  | Ok ms =>
      match headers_part headers h with
      | (h1, None) => (h1, None)
      | (h1, Some hp) =>
          match body_part body h1 with
          | (h2, Raise e) => (h2, Some (Raise e))
          | (h2, Ok bp) =>
              (h2, Some (Ok ("[" +:+ isoformat utcnow +:+ "Z] RESPONSE (" +:+ pretty ms
                             +:+ "ms):" +:+ APILogger.NL
                             +:+ "Status: " +:+ pretty status_code +:+ APILogger.NL
                             +:+ hp +:+ bp
                             +:+ string_of_list_ascii (replicate 40 "-"%char)
                             +:+ APILogger.NL)))
          end
      end
  end.

End Heap.

(** ** assertions.py *)

(** The schema validator the module delegates to: [jsonschema.validate]
    returns, raises [ValidationError] with a message, or raises something
    else for a schema that is itself malformed. *)
Class JsonSchema := {
  jsonschema_validate : json -> list (string * json) -> result unit }.

(** The validator of the closed examples: of a schema it checks the
    keyword "required" alone, with the message of [jsonschema]. *)
Definition example_validator : JsonSchema := {|
  jsonschema_validate := fun instance schema =>
    match Json.getitem schema "required", instance with
    | Some (JList names), JDict items =>
        match find (fun name => match name with
                                | JStr k => negb (Json.contains_key items k)
                                | _ => false
                                end) names with
        | Some (JStr k) => Raise (ValidationError ("'" +:+ k +:+ "' is a required property"))
        | _ => Ok tt
        end
    | _, _ => Ok tt
    end |}.

Module Assertions.

Local Abbreviation JSON := json.

(** What the wrapper reads of a [requests.Response]. *)
Record Response := {
  status_code : Z;
  headers : list (string * string);
  json : result json;
  request_headers : list (string * string) }.

(** The keyword arguments a test function returns. *)
Definition Params := list (string * JSON).

(** [getattr(client, name)(endpoint, **params)] *)
Definition Client := string -> string -> Params -> result Response.

(** [validate_status_code] *)
Definition validate_status_code (response : Response) (expected_code : Z) : result unit :=
  if status_code response =? expected_code then Ok tt
  else Raise (AssertionError ("Expected status code " +:+ pretty expected_code
                              +:+ ", got " +:+ pretty (status_code response))).

(** [validate_json_schema] *)
Definition validate_json_schema `{JsonSchema} (response : Response)
    (schema : list (string * JSON)) : result unit :=
  match json response with
  | Raise (JSONDecodeError _) => Raise (AssertionError "Response is not valid JSON")
  | Raise e => Raise e
  | Ok json_data =>
      match jsonschema_validate json_data schema with
      | Raise (ValidationError message) =>
          Raise (AssertionError ("JSON schema validation failed: " +:+ message))
      | r => r
      end
  end.

(** Lookup in [response.headers], a case-insensitive dict *)
Fixpoint header_get (hs : list (string * string)) (name : string) : option string :=
  match hs with
  | [] => None
  | (k, v) :: rest =>
      if String.eqb (lower k) (lower name) then Some v else header_get rest name
  end.

(** [validate_headers]: the first assertion that fails ends the check *)
Fixpoint validate_headers (response : Response) (expected_headers : list (string * string))
  : result unit :=
  match expected_headers with
  | [] => Ok tt
  | (header, value) :: rest =>
      match header_get (headers response) header with
      | None => Raise (AssertionError ("Header '" +:+ header +:+ "' not found in response"))
      | Some actual =>
          if String.eqb actual value then validate_headers response rest
          else Raise (AssertionError ("Expected header '" +:+ header +:+ "' to be '"
                                      +:+ value +:+ "', got '" +:+ actual +:+ "'"))
      end
  end.

(** Equality of decoded JSON: dicts compare as maps, lists in order, and a
    number equals another of the same value. *)
Definition num_eqb (a b : JSON) : option bool :=
  let num j := match j with
               | JBool b => Some (PyInt (if b then 1 else 0))
               | JInt z => Some (PyInt z)
               | JFloat f => Some (PyFloat f)
               | _ => None
               end in
  match num a, num b with
  | Some (PyInt x), Some (PyInt y) => Some (x =? y)
  | Some x, Some y => Some (PrimFloat.eqb (to_float x) (to_float y))
  | _, _ => None
  end.

Fixpoint json_eqb (a b : JSON) {struct a} : bool :=
  match num_eqb a b with
  | Some r => r
  | None =>
      match a, b with
      | JNull, JNull => true
      | JStr s, JStr t => String.eqb s t
      | JList xs, JList ys =>
          (fix go (xs ys : list JSON) {struct xs} : bool :=
             match xs, ys with
             | [], [] => true
             | x :: xs', y :: ys' => json_eqb x y && go xs' ys'
             | _, _ => false
             end) xs ys
      | JDict xs, JDict ys =>
          (length xs =? length ys)%nat
          && (fix go (xs : list (string * JSON)) {struct xs} : bool :=
                match xs with
                | [] => true
                | (k, x) :: xs' =>
                    match Json.getitem ys k with
                    | Some y => json_eqb x y && go xs'
                    | None => false
                    end
                end) xs
      | _, _ => false
      end
  end.

(** [validate_json_content] *)
Definition validate_json_content `{PyRuntime} (response : Response)
    (expected_content : JSON) : result unit :=
  match json response with
  | Raise (JSONDecodeError _) => Raise (AssertionError "Response is not valid JSON")
  | Raise e => Raise e
  | Ok json_data =>
      if json_eqb json_data expected_content then Ok tt
      else Raise (AssertionError ("Expected content " +:+ Json.repr expected_content
                                  +:+ ", got " +:+ Json.repr json_data))
  end.

(** The arguments of the decorator [api_test]. *)
Record ApiTest := {
  endpoint : string;
  method : string;
  expected_status : Z;
  expected_schema : option (list (string * JSON));
  expected_headers : option (list (string * string));
  expected_content : option JSON }.

(** [try: check except AssertionError as e: validation_errors.append(str(e))];
    any other exception leaves the validations. *)
Definition collect (check : result unit) (validation_errors : list string)
  : result (list string) :=
  match check with
  | Ok _ => Ok validation_errors
  | Raise (AssertionError msg) => Ok (validation_errors ++ [msg])
  | Raise e => Raise e
  end.

(** The block "Perform validations" of the wrapper. *)
Definition perform_validations `{PyRuntime} `{JsonSchema} (t : ApiTest) (response : Response)
  : result (list string) :=
  match collect (validate_status_code response (expected_status t)) [] with
  | Raise e => Raise e
  | Ok errs1 =>
      match
        match expected_schema t with
        | Some (s :: schema) => collect (validate_json_schema response (s :: schema)) errs1
        | _ => Ok errs1
        end
      with
      | Raise e => Raise e
      | Ok errs2 =>
          match
            match expected_headers t with
            | Some (h :: hs) => collect (validate_headers response (h :: hs)) errs2
            | _ => Ok errs2
            end
          with
          | Raise e => Raise e
          | Ok errs3 =>
              match expected_content t with
              | Some content =>
                  if Json.truthy content
                  then collect (validate_json_content response content) errs3
                  else Ok errs3
              | None => Ok errs3
              end
          end
      end
  end.

Definition set_response (r : TestResult.t) (response : Response) : TestResult.t :=
  {| TestResult.test_name := TestResult.test_name r;
     TestResult.test_class := TestResult.test_class r;
     TestResult.status := TestResult.status r;
     TestResult.execution_time := TestResult.execution_time r;
     TestResult.timestamp := TestResult.timestamp r;
     TestResult.endpoint := TestResult.endpoint r;
     TestResult.method := TestResult.method r;
     TestResult.response_code := Some (status_code response);
     TestResult.error_message := TestResult.error_message r;
     TestResult.request_headers := Some (request_headers response);
     TestResult.response_headers := Some (headers response);
     TestResult.validation_errors := TestResult.validation_errors r |}.

Definition set_failed (r : TestResult.t) (errors : list string) : TestResult.t :=
  {| TestResult.test_name := TestResult.test_name r;
     TestResult.test_class := TestResult.test_class r;
     TestResult.status := "FAILED";
     TestResult.execution_time := TestResult.execution_time r;
     TestResult.timestamp := TestResult.timestamp r;
     TestResult.endpoint := TestResult.endpoint r;
     TestResult.method := TestResult.method r;
     TestResult.response_code := TestResult.response_code r;
     TestResult.error_message := Some (str_join APILogger.NL errors);
     TestResult.request_headers := TestResult.request_headers r;
     TestResult.response_headers := TestResult.response_headers r;
     TestResult.validation_errors := Some errors |}.

Definition set_error (r : TestResult.t) (e : exn) : TestResult.t :=
  {| TestResult.test_name := TestResult.test_name r;
     TestResult.test_class := TestResult.test_class r;
     TestResult.status := "ERROR";
     TestResult.execution_time := TestResult.execution_time r;
     TestResult.timestamp := TestResult.timestamp r;
     TestResult.endpoint := TestResult.endpoint r;
     TestResult.method := TestResult.method r;
     TestResult.response_code := TestResult.response_code r;
     TestResult.error_message := Some (exn_str e);
     TestResult.request_headers := TestResult.request_headers r;
     TestResult.response_headers := TestResult.response_headers r;
     TestResult.validation_errors := TestResult.validation_errors r |}.

Definition set_execution_time (r : TestResult.t) (seconds : float) : TestResult.t :=
  {| TestResult.test_name := TestResult.test_name r;
     TestResult.test_class := TestResult.test_class r;
     TestResult.status := TestResult.status r;
     TestResult.execution_time := seconds;
     TestResult.timestamp := TestResult.timestamp r;
     TestResult.endpoint := TestResult.endpoint r;
     TestResult.method := TestResult.method r;
     TestResult.response_code := TestResult.response_code r;
     TestResult.error_message := TestResult.error_message r;
     TestResult.request_headers := TestResult.request_headers r;
     TestResult.response_headers := TestResult.response_headers r;
     TestResult.validation_errors := TestResult.validation_errors r |}.

(** [func(self, *args, **kwargs) or {}] *)
Definition or_empty (request_params : option Params) : Params :=
  match request_params with
  | Some (p :: ps) => p :: ps
  | _ => []
  end.

(** The clock reads of one call: [datetime.utcnow()] and [time.time()]
    before the [try] and in the [finally]. *)
Record Clock := {
  utcnow : datetime;
  start_time : float;
  end_time : float }.

(** The body of [wrapper]: the outcome that the [finally] hands to the
    reporter, if the call got that far, and the value returned or the
    exception raised.  [func] is what the decorated test function did. *)
Definition outcome `{PyRuntime} `{JsonSchema} (t : ApiTest) (func_name class_name : string)
    (client : option Client) (func : result (option Params)) (clock : Clock)
  : option TestResult.t * result Response :=
  match client with
  | None => (None, Raise (ValueError "Test class must have 'client' attribute"))
  | Some client =>
      let test_result :=
        {| TestResult.test_name := func_name;
           TestResult.test_class := class_name;
           TestResult.status := "SUCCESS";
           TestResult.execution_time := 0%float;
           TestResult.timestamp := utcnow clock;
           TestResult.endpoint := endpoint t;
           TestResult.method := method t;
           TestResult.response_code := None;
           TestResult.error_message := None;
           TestResult.request_headers := None;
           TestResult.response_headers := None;
           TestResult.validation_errors := None |} in
      let finally (r : TestResult.t) (ret : result Response) :=
        (Some (set_execution_time r (PrimFloat.sub (end_time clock) (start_time clock))),
         ret) in
      let except (r : TestResult.t) (e : exn) :=
        finally (if is_AssertionError e then r else set_error r e) (Raise e) in
      match func with
      | Raise e => except test_result e
      | Ok request_params =>
          let request_params := or_empty request_params in
          match client (lower (method t)) (endpoint t) request_params with
          | Raise e => except test_result e
          | Ok response =>
              let test_result := set_response test_result response in
              match perform_validations t response with
              | Raise e => except test_result e
              | Ok [] => finally test_result (Ok response)
              | Ok validation_errors =>
                  except (set_failed test_result validation_errors)
                         (AssertionError (str_join APILogger.NL validation_errors))
              end
          end
      end
  end.

(** [wrapper]: the reporter afterwards and the result of the call. *)
Definition wrapper `{PyRuntime} `{JsonSchema} (t : ApiTest) (func_name class_name : string)
    (client : option Client) (func : result (option Params)) (clock : Clock)
    (reporter : ReportGenerator.ReportGenerator)
  : ReportGenerator.ReportGenerator * result Response :=
  match outcome t func_name class_name client func clock with
  | (Some test_result, ret) => (ReportGenerator.add_result test_result reporter, ret)
  | (None, ret) => (reporter, ret)
  end.

End Assertions.

(** ** What the aggregator holds after a history *)

Module History.
Import TestResult.

(** The outcomes of a history whose response code is [c]; a missing code
    and the code 0 fill no bucket. *)
Definition with_code (c : Z) (rs : list TestResult.t) : list TestResult.t :=
  List.filter (fun r => match response_code r with
                        | Some c' => negb (c' =? 0) && (c' =? c)
                        | None => false
                        end) rs.

(** The execution times of the outcomes of a history made on the endpoint
    key [key], in the order of the history. *)
Definition samples (key : string) (rs : list TestResult.t) : list float :=
  map execution_time
      (List.filter (fun r => String.eqb (MetricsCollector.endpoint_key r) key) rs).

(** The outcomes with the status [s]; the outcomes that are neither SUCCESS
    nor FAILED. *)
Definition with_status (s : string) (rs : list TestResult.t) : list TestResult.t :=
  List.filter (fun r => String.eqb (status r) s) rs.

Definition with_other_status (rs : list TestResult.t) : list TestResult.t :=
  List.filter (fun r => negb (String.eqb (status r) "SUCCESS")
                        && negb (String.eqb (status r) "FAILED")) rs.

(** [sum(times) / len(times)] on a list that is not empty *)
Definition mean (times : list float) : pynum :=
  PyFloat (PrimFloat.div (to_float (py_sum times))
                         (float_of_Z (Z.of_nat (length times)))).

End History.

(** ** The life of a worker: actions of the schedule and the stop event,
    in any order *)

Section events.
Context {Item Data : Type}.
Variable body : Item -> Data -> Data.

Inductive event :=
  | Do (a : @action Item)
  | SetStop.

Definition occur (w : worker Item Data) (e : event) : worker Item Data :=
  match e with
  | Do a => act body w a
  | SetStop => set_stop w
  end.

Definition run_events (events : list event) (w : worker Item Data) : worker Item Data :=
  fold_left occur events w.

(** The items the events enqueue, in order. *)
Fixpoint submitted (events : list event) : list Item :=
  match events with
  | [] => []
  | Do (Put item) :: rest => item :: submitted rest
  | _ :: rest => submitted rest
  end.
End events.


(** ** Paths written in one way

    The file system above names a file by its path as written.  It is the
    file system that the code sees for the paths that have one spelling:
    relative, the components separated by one [/], none of them empty, [.]
    or [..] (so [os.path.normpath] leaves them as they are, and none ends in
    a separator). *)

Module posixpath.

(** [p.split('/')] *)
Fixpoint components (p : string) : list string :=
  match p with
  | EmptyString => [EmptyString]
  | String c rest =>
      if Ascii.eqb c os.sep then EmptyString :: components rest
      else
        match components rest with
        | first :: others => String c first :: others
        | [] => [String c EmptyString]
        end
  end.

Definition normalized (p : string) : bool :=
  forallb (fun component =>
             negb (os.is_empty component)
             && negb (String.eqb component ".") && negb (String.eqb component ".."))
          (components p).

End posixpath.

(** ** The checks an [api_test] configures *)

Module Checks.

(** The number of checks the wrapper runs: the status check always, the
    others when their argument is truthy. *)
Definition configured (t : Assertions.ApiTest) : nat :=
  (1
   + (match Assertions.expected_schema t with Some (_ :: _) => 1 | _ => 0 end)
   + (match Assertions.expected_headers t with Some (_ :: _) => 1 | _ => 0 end)
   + (match Assertions.expected_content t with
      | Some content => if Json.truthy content then 1 else 0
      | None => 0
      end))%nat.

End Checks.

(** ** The wrapper and the exceptions that are no [Exception]

    [Assertions.outcome] has the test function and the client return or
    raise an [Exception].  They can also raise what derives from
    [BaseException] alone ([KeyboardInterrupt], [SystemExit], the exceptions
    of [pytest.skip] and [pytest.fail]): the clause [except Exception] lets
    it pass, and the [finally] block still runs. *)

Module Passing.

Inductive ending (A : Type) :=
  | Ends (r : result A)
  | Passes (base_exception : string).
Arguments Ends {A} r.
Arguments Passes {A} base_exception.

Definition Client := string -> string -> Assertions.Params -> ending Assertions.Response.

(** The body of [wrapper], as [Assertions.outcome] has it, with these
    endings of the test function and of the client. *)
Definition outcome `{PyRuntime} `{JsonSchema} (t : Assertions.ApiTest)
    (func_name class_name : string) (client : option Client)
    (func : ending (option Assertions.Params)) (clock : Assertions.Clock)
  : option TestResult.t * ending Assertions.Response :=
  match client with
  | None => (None, Ends (Raise (ValueError "Test class must have 'client' attribute")))
  | Some client =>
      let test_result :=
        {| TestResult.test_name := func_name;
           TestResult.test_class := class_name;
           TestResult.status := "SUCCESS";
           TestResult.execution_time := 0%float;
           TestResult.timestamp := Assertions.utcnow clock;
           TestResult.endpoint := Assertions.endpoint t;
           TestResult.method := Assertions.method t;
           TestResult.response_code := None;
           TestResult.error_message := None;
           TestResult.request_headers := None;
           TestResult.response_headers := None;
           TestResult.validation_errors := None |} in
      let finally (r : TestResult.t) (ret : ending Assertions.Response) :=
        (Some (Assertions.set_execution_time r
                 (PrimFloat.sub (Assertions.end_time clock) (Assertions.start_time clock))),
         ret) in
      let except (r : TestResult.t) (e : exn) :=
        finally (if is_AssertionError e then r else Assertions.set_error r e)
                (Ends (Raise e)) in
      match func with
      | Passes base_exception => finally test_result (Passes base_exception)
      | Ends (Raise e) => except test_result e
      | Ends (Ok request_params) =>
          let request_params := Assertions.or_empty request_params in
          match client (lower (Assertions.method t)) (Assertions.endpoint t)
                       request_params with
          | Passes base_exception => finally test_result (Passes base_exception)
          | Ends (Raise e) => except test_result e
          | Ends (Ok response) =>
              let test_result := Assertions.set_response test_result response in
              match Assertions.perform_validations t response with
              | Raise e => except test_result e
              | Ok [] => finally test_result (Ends (Ok response))
              | Ok validation_errors =>
                  except (Assertions.set_failed test_result validation_errors)
                         (AssertionError (str_join APILogger.NL validation_errors))
              end
          end
      end
  end.

End Passing.

(** ** The report worker, statement by statement

    [_process_queue] takes an outcome off the queue, appends it to
    [self.results] and then has the collector ingest it: three statements
    with no lock around them, so another thread can run between any two.
    [MetricsCollector.add_result] itself runs under the collector's lock. *)

Module ProcessQueue.

Inductive pc :=
  | AtTest
  | AtGet
  | Got (result : TestResult.t)
  | Appended (result : TestResult.t)
  | Returned.

Record state := {
  _queue : list TestResult.t;
  _stop_event : bool;
  at_pc : pc;
  results : list TestResult.t;
  metrics : MetricsCollector.MetricsCollector }.

(** [ReportGenerator.__init__] *)
Definition new : state :=
  {| _queue := []; _stop_event := false; at_pc := AtTest;
     results := []; metrics := MetricsCollector.init |}.

(** One statement of the worker thread. *)
Definition step (w : state) : state :=
  match at_pc w with
  | AtTest =>
      {| _queue := _queue w; _stop_event := _stop_event w;
         at_pc := if negb (_stop_event w) || negb (empty (_queue w))
                  then AtGet else Returned;
         results := results w; metrics := metrics w |}
  | AtGet =>
      match _queue w with
      | result :: q =>
          {| _queue := q; _stop_event := _stop_event w; at_pc := Got result;
             results := results w; metrics := metrics w |}
      | [] =>
          {| _queue := []; _stop_event := _stop_event w; at_pc := AtTest;
             results := results w; metrics := metrics w |}
      end
  | Got result =>
      {| _queue := _queue w; _stop_event := _stop_event w; at_pc := Appended result;
         results := results w ++ [result]; metrics := metrics w |}
  | Appended result =>
      {| _queue := _queue w; _stop_event := _stop_event w; at_pc := AtTest;
         results := results w;
         metrics := MetricsCollector.add_result result (metrics w) |}
  | Returned => w
  end.

(** [ReportGenerator.add_result] and [Event.set()], from other threads *)
Definition add_result (result : TestResult.t) (w : state) : state :=
  {| _queue := _queue w ++ [result]; _stop_event := _stop_event w; at_pc := at_pc w;
     results := results w; metrics := metrics w |}.

Definition set_stop (w : state) : state :=
  {| _queue := _queue w; _stop_event := true; at_pc := at_pc w;
     results := results w; metrics := metrics w |}.

Definition occur (w : state) (e : @event TestResult.t) : state :=
  match e with
  | Do (Put result) => add_result result w
  | Do Step => step w
  | SetStop => set_stop w
  end.

Definition run_events (events : list (@event TestResult.t)) (w : state) : state :=
  fold_left occur events w.

End ProcessQueue.

(** ** config.py *)

Module Config.

(** [Config.set_defaults]: the dict it assigns to [_config_data]. *)
Definition set_defaults : list (string * json) :=
  [ ("base_url", JStr "http://localhost:8000");
    ("timeout", JInt 30);
    ("retry_attempts", JInt 3);
    ("retry_delay", JInt 1);
    ("log_file", JStr "api_logs.txt");
    ("log_level", JStr "INFO");
    ("auth", JDict [ ("type", JNull); ("username", JNull);
                     ("password", JNull); ("token", JNull) ]) ].

(** [Config.get] once the data is loaded: [_config_data.get(key, default)] *)
Definition get (_config_data : list (string * json)) (key : string) (default : json) : json :=
  match Json.getitem _config_data key with
  | Some value => value
  | None => default
  end.

End Config.

(** ** client.py

    The client on a loaded configuration.  The network, the clock and
    [time.sleep] are inputs: [session_request n request] is what
    [Session.request] does with [request] after [n] earlier requests. *)

Module APIClient.

Local Abbreviation JSON := json.

(** The [TypeError]s of the interpreter that the methods reach: a keyword
    given twice at a call, a keyword for a parameter that has its positional
    argument, a keyword the function does not take, and [<] between an int
    and a value that has no order with it. *)
Inductive TypeError :=
  | MultipleKeyword (function keyword : string)
  | MultipleValues (function parameter : string)
  | UnexpectedKeyword (function keyword : string)
  | NotOrderable (left : Z) (right : JSON).

Inductive error :=
  | Type_Error (e : TypeError)
  | Exception (e : exn).

(** [function(k=v, ..., **kwargs)] at the call: the explicit keywords and
    then those of the dict, none of them twice. *)
Definition keywords (function : string) (explicit kwargs : list (string * JSON))
  : TypeError + list (string * JSON) :=
  match List.find (fun kv => Json.contains_key explicit (fst kv)) kwargs with
  | Some (keyword, _) => inl (MultipleKeyword function keyword)
  | None => inr (explicit ++ kwargs)
  end.

(** The keywords of a call bound to the parameters of [function], first to
    last: [given] are the parameters that have a positional argument,
    [optional] the others, and [var_keyword] tells whether the function ends
    in [**kwargs].  Returns the keywords of the optional parameters and
    those left to [**kwargs]. *)
Fixpoint bind (function : string) (given optional : list string) (var_keyword : bool)
    (kw : list (string * JSON))
  : TypeError + (list (string * JSON) * list (string * JSON)) :=
  match kw with
  | [] => inr ([], [])
  | (keyword, value) :: rest =>
      if csv.mem keyword given then inl (MultipleValues function keyword)
      else if csv.mem keyword optional then
        match bind function given optional var_keyword rest with
        | inl e => inl e
        | inr (bound, kwargs) => inr ((keyword, value) :: bound, kwargs)
        end
      else if var_keyword then
        match bind function given optional var_keyword rest with
        | inl e => inl e
        | inr (bound, kwargs) => inr (bound, (keyword, value) :: kwargs)
        end
      else inl (UnexpectedKeyword function keyword)
  end.

(** The value a parameter gets: its keyword or its default. *)
Definition argument (bound : list (string * JSON)) (parameter : string) (default : JSON)
  : JSON :=
  match Json.getitem bound parameter with
  | Some value => value
  | None => default
  end.

(** An argument for [headers : Optional[Dict[str, str]]]; [None] for a
    value of another type. *)
Fixpoint str_items (items : list (string * JSON)) : option (list (string * string)) :=
  match items with
  | [] => Some []
  | (k, JStr v) :: rest =>
      match str_items rest with
      | Some rest' => Some ((k, v) :: rest')
      | None => None
      end
  | _ => None
  end.

Definition headers_argument (value : JSON) : option (option (list (string * string))) :=
  match value with
  | JNull => Some None
  | JDict items =>
      match str_items items with
      | Some headers => Some (Some headers)
      | None => None
      end
  | _ => None
  end.

(** An argument for [retry_count : int] *)
Definition int_argument (value : JSON) : option Z :=
  match value with
  | JInt z => Some z
  | _ => None
  end.

(** [CaseInsensitiveDict.__setitem__] and [update] *)
Fixpoint ci_setitem (items : list (string * string)) (key value : string)
  : list (string * string) :=
  match items with
  | [] => [(key, value)]
  | (k, v) :: rest =>
      if String.eqb (lower k) (lower key) then (key, value) :: rest
      else (k, v) :: ci_setitem rest key value
  end.

Definition ci_update (items other : list (string * string)) : list (string * string) :=
  fold_left (fun items kv => ci_setitem items (fst kv) (snd kv)) other items.

(** [z < f] of an int and a float, which Python decides on the exact values *)
Definition int_lt_float (z : Z) (f : float) : bool :=
  match Prim2SF f with
  | S754_nan => false
  | S754_infinity negative => negb negative
  | S754_zero _ => z <? 0
  | S754_finite negative m e =>
      let v := if negative then Z.neg m else Z.pos m in
      if 0 <=? e then z <? v * 2 ^ e else z * 2 ^ (- e) <? v
  end.

(** [retry_count < value] *)
Definition int_lt (retry_count : Z) (value : JSON) : TypeError + bool :=
  match value with
  | JInt z => inr (retry_count <? z)
  | JBool b => inr (retry_count <? (if b then 1 else 0))
  | JFloat f => inr (int_lt_float retry_count f)
  | _ => inl (NotOrderable retry_count value)
  end.

(** The keyword arguments of [Session.request] *)
Record Request := {
  method : string;
  url : string;
  headers : list (string * string);
  params : JSON;
  json : JSON;
  data : JSON;
  timeout : JSON }.

(** A [requests.Response]: what the wrapper of [api_test] reads of it, and
    its [content]. *)
Record Response := {
  message : Assertions.Response;
  content : string }.

(** What the calls of a client change: the queue of its logger, the
    requests sent, the delays slept and the number of clock reads. *)
Record World := {
  logger : APILogger.APILogger;
  sent : list Request;
  slept : list JSON;
  ticks : nat }.

Section client.
Context `{PyRuntime}.

(** [self.config._config_data] and [self.session.headers] *)
Variable config : list (string * JSON).
Variable session_headers : list (string * string).

(** [datetime.utcnow()] at its n-th read, [Session.request],
    [isinstance(e, RequestException)] and [time.sleep] *)
Variable utcnow : nat -> datetime.
Variable session_request : nat -> Request -> result Response.
Variable is_RequestException : exn -> bool.
Variable sleep : JSON -> result unit.

(** The URL of a request, its headers, the body that is logged and the
    arguments of [Session.request], as [_make_request] builds them. *)
Definition request_url (endpoint : string) : string :=
  Json.str (Config.get config "base_url" JNull) +:+ endpoint.

Definition request_headers (headers : option (list (string * string)))
  : list (string * string) :=
  match headers with
  | Some (h :: hs) => ci_update session_headers (h :: hs)
  | _ => session_headers
  end.

Definition logged_body (json_data data : JSON) : JSON :=
  if Json.truthy json_data then json_data else data.

Definition request_arguments (method endpoint : string)
    (headers : option (list (string * string))) (params json_data data : JSON) : Request :=
  {| method := method; url := request_url endpoint; headers := request_headers headers;
     params := params; json := json_data; data := data;
     timeout := Config.get config "timeout" (JInt 30) |}.

(** The [try] block of [_make_request] after the request is logged: the
    world afterwards, and the response returned or the exception raised. *)
Definition attempt (request : Request) (timestamp : datetime) (w : World)
  : World * result Response :=
  let reply := session_request (length (sent w)) request in
  let w := {| logger := logger w; sent := sent w ++ [request];
              slept := slept w; ticks := ticks w |} in
  match reply with
  | Raise e => (w, Raise e)
  | Ok response =>
      match (if os.is_empty (content response) then Ok JNull
             else Assertions.json (message response)) with
      | Raise e => (w, Raise e)
      | Ok body =>
          match APILogger.log_response (utcnow (ticks w))
                  (Assertions.status_code (message response))
                  (Some (Assertions.headers (message response)))
                  body timestamp (logger w) with
          | Raise e =>
              ({| logger := logger w; sent := sent w; slept := slept w;
                  ticks := S (ticks w) |}, Raise e)
          | Ok logger' =>
              ({| logger := logger'; sent := sent w; slept := slept w;
                  ticks := S (ticks w) |}, Ok response)
          end
      end
  end.

(** [APIClient._make_request]; [depth] is the nesting of calls that the
    recursion limit of the interpreter leaves, and the result is [None]
    when the retries need more. *)
Fixpoint _make_request (depth : nat) (method endpoint : string)
    (headers : option (list (string * string))) (params json_data data : JSON)
    (retry_count : Z) (w : World) : option (World * (error + Response)) :=
  match depth with
  | O => None
  | S depth' =>
      let '(logger', timestamp) :=
        APILogger.log_request (utcnow (ticks w)) method (request_url endpoint)
          (Some (request_headers headers)) (logged_body json_data data) (logger w) in
      let w := {| logger := logger'; sent := sent w; slept := slept w;
                  ticks := S (ticks w) |} in
      let request := request_arguments method endpoint headers params json_data data in
      match attempt request timestamp w with
      | (w, Ok response) => Some (w, inr response)
      | (w, Raise e) =>
          if is_RequestException e then
            match int_lt retry_count (Config.get config "retry_attempts" (JInt 3)) with
            | inl type_error => Some (w, inl (Type_Error type_error))
            | inr false => Some (w, inl (Exception e))
            | inr true =>
                let delay := Config.get config "retry_delay" (JInt 1) in
                let w := {| logger := logger w; sent := sent w;
                            slept := slept w ++ [delay]; ticks := ticks w |} in
                match sleep delay with
                | Raise e' => Some (w, inl (Exception e'))
                | Ok _ =>
                    _make_request depth' method endpoint headers params json_data data
                                  (retry_count + 1) w
                end
            end
          else Some (w, inl (Exception e))
      end
  end.

(** The world once a request is logged and sent, and once the delay of a
    retry is slept after that. *)
Definition requested (method endpoint : string) (headers : option (list (string * string)))
    (params json_data data : JSON) (w : World) : World :=
  {| logger :=
       fst (APILogger.log_request (utcnow (ticks w)) method (request_url endpoint)
              (Some (request_headers headers)) (logged_body json_data data) (logger w));
     sent := sent w ++ [request_arguments method endpoint headers params json_data data];
     slept := slept w;
     ticks := S (ticks w) |}.

Definition retried (method endpoint : string) (headers : option (list (string * string)))
    (params json_data data : JSON) (w : World) : World :=
  let w := requested method endpoint headers params json_data data w in
  {| logger := logger w; sent := sent w;
     slept := slept w ++ [Config.get config "retry_delay" (JInt 1)];
     ticks := ticks w |}.

(** The call [self._make_request(method, endpoint, **kwargs)]; [None] for
    arguments of other types than the parameters are declared with. *)
Definition call__make_request (depth : nat) (method endpoint : string)
    (kwargs : list (string * JSON)) (w : World) : option (World * (error + Response)) :=
  match bind "_make_request" ["self"; "method"; "endpoint"]
             ["headers"; "params"; "json_data"; "data"; "retry_count"] false kwargs with
  | inl e => Some (w, inl (Type_Error e))
  | inr (bound, _) =>
      match headers_argument (argument bound "headers" JNull),
            int_argument (argument bound "retry_count" (JInt 0)) with
      | Some headers, Some retry_count =>
          _make_request depth method endpoint headers
            (argument bound "params" JNull) (argument bound "json_data" JNull)
            (argument bound "data" JNull) retry_count w
      | _, _ => None
      end
  end.

(** The call [self.request(method, endpoint, k=v, ..., **kwargs)] of the
    methods below, and [APIClient.request]. *)
Definition request (depth : nat) (method endpoint : string)
    (explicit kwargs : list (string * JSON)) (w : World)
  : option (World * (error + Response)) :=
  match keywords "request" explicit kwargs with
  | inl e => Some (w, inl (Type_Error e))
  | inr kw =>
      match bind "request" ["self"; "method"; "endpoint"] [] true kw with
      | inl e => Some (w, inl (Type_Error e))
      | inr (_, kwargs) => call__make_request depth method endpoint kwargs w
      end
  end.

(** [client.get(endpoint, **request_params)] and the like, as the wrapper
    of [api_test] calls them. *)
Definition get (depth : nat) (endpoint : string) (request_params : list (string * JSON))
    (w : World) : option (World * (error + Response)) :=
  match bind "get" ["self"; "endpoint"] ["params"] true request_params with
  | inl e => Some (w, inl (Type_Error e))
  | inr (bound, kwargs) =>
      request depth "GET" endpoint [("params", argument bound "params" JNull)] kwargs w
  end.

Definition post (depth : nat) (endpoint : string) (request_params : list (string * JSON))
    (w : World) : option (World * (error + Response)) :=
  match bind "post" ["self"; "endpoint"] ["json_data"; "data"] true request_params with
  | inl e => Some (w, inl (Type_Error e))
  | inr (bound, kwargs) =>
      request depth "POST" endpoint
        [("json", argument bound "json_data" JNull); ("data", argument bound "data" JNull)]
        kwargs w
  end.

Definition put (depth : nat) (endpoint : string) (request_params : list (string * JSON))
    (w : World) : option (World * (error + Response)) :=
  match bind "put" ["self"; "endpoint"] ["json_data"] true request_params with
  | inl e => Some (w, inl (Type_Error e))
  | inr (bound, kwargs) =>
      request depth "PUT" endpoint [("json", argument bound "json_data" JNull)] kwargs w
  end.

Definition patch (depth : nat) (endpoint : string) (request_params : list (string * JSON))
    (w : World) : option (World * (error + Response)) :=
  match bind "patch" ["self"; "endpoint"] ["json_data"] true request_params with
  | inl e => Some (w, inl (Type_Error e))
  | inr (bound, kwargs) =>
      request depth "PATCH" endpoint [("json", argument bound "json_data" JNull)] kwargs w
  end.

Definition delete (depth : nat) (endpoint : string) (request_params : list (string * JSON))
    (w : World) : option (World * (error + Response)) :=
  match bind "delete" ["self"; "endpoint"] [] true request_params with
  | inl e => Some (w, inl (Type_Error e))
  | inr (_, kwargs) => request depth "DELETE" endpoint [] kwargs w
  end.

(** [getattr(client, name)(endpoint, **request_params)] for the names of
    the five methods *)
Definition call (name : string) (depth : nat) (endpoint : string)
    (request_params : list (string * JSON)) (w : World)
  : option (World * (error + Response)) :=
  if String.eqb name "get" then get depth endpoint request_params w
  else if String.eqb name "post" then post depth endpoint request_params w
  else if String.eqb name "put" then put depth endpoint request_params w
  else if String.eqb name "patch" then patch depth endpoint request_params w
  else if String.eqb name "delete" then delete depth endpoint request_params w
  else None.

(** What the wrapper of [api_test] sees of a call; [describe] is the text
    the interpreter gives a [TypeError]. *)
Definition seen (describe : TypeError -> string) (r : error + Response)
  : result Assertions.Response :=
  match r with
  | inr response => Ok (message response)
  | inl (Exception e) => Raise e
  | inl (Type_Error e) => Raise (OtherError (describe e))
  end.

(** The client object of a test class is this client in the world [w]. *)
Definition is_client (describe : TypeError -> string) (depth : nat) (w : World)
    (client : Assertions.Client) : Prop :=
  forall name endpoint request_params w' r,
    call name depth endpoint request_params w = Some (w', r) ->
    client name endpoint request_params = seen describe r.

End client.

(** What [_setup_auth] sets of a [requests.Session] *)
Module Session.
Record t := {
  headers : list (string * string);
  auth : option (JSON * JSON) }.
End Session.

(** [APIClient._setup_auth]; [None] when the value of [auth] in the
    configuration is no dict, on which [.get] raises. *)
Definition _setup_auth `{PyRuntime} (config : list (string * JSON)) (session : Session.t)
  : option Session.t :=
  match Config.get config "auth" (JDict []) with
  | JDict auth_config =>
      match Config.get auth_config "type" JNull with
      | JStr auth_type =>
          if String.eqb auth_type "basic" then
            Some {| Session.headers := Session.headers session;
                    Session.auth := Some (Config.get auth_config "username" JNull,
                                          Config.get auth_config "password" JNull) |}
          else if String.eqb auth_type "bearer" then
            Some {| Session.headers :=
                      ci_setitem (Session.headers session) "Authorization"
                        ("Bearer " +:+ Json.str (Config.get auth_config "token" JNull));
                    Session.auth := Session.auth session |}
          else Some session
      | _ => Some session
      end
  | _ => None
  end.

End APIClient.

(** The environment of the closed examples of the client: the default
    configuration, a clock that advances by a second per read, a network
    that refuses the first [failures] connections and then answers 204
    without content, and a [sleep] that returns. *)
Module ExampleClient.

Definition session_headers : list (string * string) :=
  [("User-Agent", "python-requests/2.31.0"); ("Accept", "*/*")].

Definition utcnow (n : nat) : datetime :=
  {| year := 2024; month := 5; day := 17; hour := 9; minute := 30;
     second := Z.of_nat n; microsecond := 0 |}.

Definition refused : exn := OtherError "Connection refused".

Definition no_content : APIClient.Response :=
  {| APIClient.message :=
       {| Assertions.status_code := 204;
          Assertions.headers := [("Server", "nginx")];
          Assertions.json := Raise (JSONDecodeError "Expecting value");
          Assertions.request_headers := session_headers |};
     APIClient.content := "" |}.

Definition session_request (failures : nat) (n : nat) (request : APIClient.Request)
  : result APIClient.Response :=
  if (n <? failures)%nat then Raise refused else Ok no_content.

Definition is_RequestException (e : exn) : bool :=
  match e with
  | OtherError _ | JSONDecodeError _ => true
  | _ => false
  end.

Definition sleep (delay : json) : result unit := Ok tt.

Definition describe (e : APIClient.TypeError) : string :=
  match e with
  | APIClient.MultipleKeyword function keyword =>
      function +:+ "() got multiple values for keyword argument '" +:+ keyword +:+ "'"
  | APIClient.MultipleValues function parameter =>
      function +:+ "() got multiple values for argument '" +:+ parameter +:+ "'"
  | APIClient.UnexpectedKeyword function keyword =>
      function +:+ "() got an unexpected keyword argument '" +:+ keyword +:+ "'"
  | APIClient.NotOrderable _ value =>
      "'<' not supported between instances of 'int' and '"
      +:+ match value with
          | JNull => "NoneType"
          | JBool _ => "bool"
          | JInt _ => "int"
          | JFloat _ => "float"
          | JStr _ => "str"
          | JList _ => "list"
          | JDict _ => "dict"
          end +:+ "'"
  end.

Definition world : APIClient.World :=
  {| APIClient.logger := APILogger.new "logs/api.log" {| os.dirs := ∅; os.files := ∅ |};
     APIClient.sent := [];
     APIClient.slept := [];
     APIClient.ticks := 0 |}.

(** A client object that is the client in [world], for a network that
    refuses [failures] connections. *)
Definition client (failures depth : nat) : Assertions.Client :=
  fun name endpoint request_params =>
    match APIClient.call (H := example_runtime) Config.set_defaults session_headers utcnow
            (session_request failures) is_RequestException sleep
            name depth endpoint request_params world with
    | Some (_, r) => APIClient.seen describe r
    | None => Raise (OtherError "")
    end.

End ExampleClient.

(** * Properties *)

(** ** The worker loop drains its queue *)

Section worker_facts.
Context {Item Data : Type}.
Variable body : Item -> Data -> Data.

Lemma handle_all_app (xs ys : list Item) (d : Data) :
  handle_all body (xs ++ ys) d = handle_all body ys (handle_all body xs d).
Proof. unfold handle_all. apply fold_left_app. Qed.

Lemma pending_put (item : Item) (w : worker Item Data) :
  pending body (put item w) = body item (pending body w).
Proof. unfold pending, put; simpl. by rewrite handle_all_app. Qed.

Lemma pending_worker_step (w : worker Item Data) :
  pending body (worker_step body w) = pending body w.
Proof.
  unfold pending, worker_step.
  destruct (at_pc w); simpl; try done.
  destruct (queue w); done.
Qed.

Lemma pending_run (schedule : list (@action Item)) (w : worker Item Data) :
  pending body (run body schedule w) = handle_all body (puts schedule) (pending body w).
Proof.
  unfold run. revert w.
  induction schedule as [|a schedule IH]; intros w; simpl; [done|].
  rewrite IH. destruct a; simpl.
  - by rewrite pending_put.
  - by rewrite pending_worker_step.
Qed.

(** Until the stop event is set the loop does not return. *)
Lemma run_not_stopped (schedule : list (@action Item)) (w : worker Item Data) :
  stop_event w = false -> at_pc w <> Returned ->
  stop_event (run body schedule w) = false /\ at_pc (run body schedule w) <> Returned.
Proof.
  unfold run. revert w.
  induction schedule as [|a schedule IH]; intros w Hs Hp; simpl; [done|].
  apply IH; destruct a; simpl; try done.
  - unfold worker_step. destruct (at_pc w); simpl; try done. by destruct (queue w).
  - unfold worker_step. destruct (at_pc w) eqn:E; simpl; try done.
    + by rewrite Hs.
    + by destruct (queue w).
Qed.

(** Once the stop event is set, the joined worker handles every queued
    item and returns: two actions an item and two to leave are enough. *)
Lemma join_thread_drains (n : nat) :
  forall (w : worker Item Data) (fuel : nat),
    length (queue w) = n -> stop_event w = true -> at_pc w <> Returned ->
    (2 * n + 2 <= fuel)%nat ->
    join_thread body fuel w
    = Some {| queue := []; stop_event := true; at_pc := Returned; data := pending body w |}.
Proof.
  induction n as [|n IH]; intros [q s p d] fuel Hq Hs Hp Hfuel; simpl in *; subst s.
  - destruct q; [|done]. destruct p; [| |done].
    + destruct fuel as [|fuel]; [lia|]. simpl. by destruct fuel.
    + destruct fuel as [|[|fuel]]; [lia..|]. simpl. by destruct fuel.
  - destruct q as [|x q]; [done|]. injection Hq as Hq. destruct p; [| |done].
    + destruct fuel as [|[|fuel]]; [lia..|]. simpl.
      rewrite (IH _ fuel); simpl; [done|done|done|done|lia].
    + destruct fuel as [|fuel]; [lia|]. simpl.
      rewrite (IH _ fuel); simpl; [done|done|done|done|lia].
Qed.

(** Items enqueued on a started worker, in any interleaving with its own
    actions, are each handled once, in order, by the time a shutdown
    completes; and it does complete. *)
Lemma run_queue_length (schedule : list (@action Item)) (w : worker Item Data) :
  (length (queue (run body schedule w)) <= length (queue w) + length (puts schedule))%nat.
Proof.
  unfold run. revert w.
  induction schedule as [|a schedule IH]; intros w; simpl; [lia|].
  etrans; [apply IH|]. destruct a; simpl.
  - rewrite length_app. simpl. lia.
  - unfold worker_step. destruct (at_pc w); simpl; try lia.
    destruct (queue w); simpl; lia.
Qed.

Lemma shutdown_handles_puts (schedule : list (@action Item)) (d : Data) :
  shutdown body (2 * length (puts schedule) + 2) (run body schedule (start d))
  = Some {| queue := []; stop_event := true; at_pc := Returned;
            data := handle_all body (puts schedule) d |}.
Proof.
  unfold shutdown.
  destruct (run_not_stopped schedule (start d)) as [Hs Hp]; [done..|].
  assert (Hpend := pending_run schedule (start d)).
  assert (Hlen := run_queue_length schedule (start d)).
  set (w := run body schedule (start d)) in *. simpl in Hlen.
  rewrite (join_thread_drains (length (queue w))); simpl; [|done|done|done|lia].
  f_equal. f_equal. exact Hpend.
Qed.
End worker_facts.

(** ** One rounding of a quotient and of a product *)

Section rounding_facts.

(** The number of binary digits of a positive integer. *)
Lemma digits2_pos_bounds (p : positive) :
  2 ^ (Zpos (digits2_pos p) - 1) <= Zpos p < 2 ^ Zpos (digits2_pos p).
Proof.
  induction p as [p IH|p IH|]; cbn [digits2_pos].
  - rewrite Pos2Z.inj_succ, (Pos2Z.inj_xI p).
    replace (Z.succ (Zpos (digits2_pos p)) - 1) with (Z.succ (Zpos (digits2_pos p) - 1)) by lia.
    rewrite !Z.pow_succ_r by lia. lia.
  - rewrite Pos2Z.inj_succ, (Pos2Z.inj_xO p).
    replace (Z.succ (Zpos (digits2_pos p)) - 1) with (Z.succ (Zpos (digits2_pos p) - 1)) by lia.
    rewrite !Z.pow_succ_r by lia. lia.
  - cbn. lia.
Qed.

(** One shift to the right doubles the unit and keeps the place. *)
Lemma located_shr_1 (N U m : Z) (r s : bool) :
  0 < U -> 0 <= m -> located N U m r s ->
  let mrs := shr_1 {| shr_m := m; shr_r := r; shr_s := s |} in
  located N (2 * U) (shr_m mrs) (shr_r mrs) (shr_s mrs) /\ 0 <= shr_m mrs
  /\ 2 * shr_m mrs <= m < 2 * shr_m mrs + 2.
Proof.
  intros HU Hm (rem & HN & Hrem & Hr & Hs).
  assert (Hrs : orb r s = negb (rem =? 0)).
  { subst r s. destruct (Z.eqb_spec rem 0), (Z.leb_spec U (2 * rem)), (Z.eqb_spec (2 * rem) U);
      cbn [negb andb orb]; try reflexivity; lia. }
  destruct m as [|p|p]; [| |lia].
  - cbn [shr_1 shr_m shr_r shr_s]. split; [|lia]. exists rem. rewrite Hrs.
    split; [lia|]. split; [lia|]. split.
    + symmetry. apply Z.leb_gt. lia.
    + destruct (Z.eqb_spec rem 0), (Z.eqb_spec (2 * rem) (2 * U)); cbn [negb andb]; try reflexivity; lia.
  - destruct p as [p|p|]; cbn [shr_1 shr_m shr_r shr_s].
    + split; [|lia]. exists (U + rem). rewrite Hrs. rewrite (Pos2Z.inj_xI p) in HN.
      split; [lia|]. split; [lia|]. split.
      * symmetry. apply Z.leb_le. lia.
      * destruct (Z.eqb_spec rem 0), (Z.eqb_spec (U + rem) 0), (Z.eqb_spec (2 * (U + rem)) (2 * U));
          cbn [negb andb]; try reflexivity; lia.
    + split; [|lia]. exists rem. rewrite Hrs. rewrite (Pos2Z.inj_xO p) in HN.
      split; [lia|]. split; [lia|]. split.
      * symmetry. apply Z.leb_gt. lia.
      * destruct (Z.eqb_spec rem 0), (Z.eqb_spec (2 * rem) (2 * U)); cbn [negb andb]; try reflexivity; lia.
    + split; [|lia]. exists (U + rem). rewrite Hrs.
      split; [lia|]. split; [lia|]. split.
      * symmetry. apply Z.leb_le. lia.
      * destruct (Z.eqb_spec rem 0), (Z.eqb_spec (U + rem) 0), (Z.eqb_spec (2 * (U + rem)) (2 * U));
          cbn [negb andb]; try reflexivity; lia.
Qed.

Lemma located_record_shr_1 (N U : Z) (mrs : shr_record) :
  0 < U -> located_record N U mrs ->
  located_record N (2 * U) (shr_1 mrs)
  /\ 2 * shr_m (shr_1 mrs) <= shr_m mrs < 2 * shr_m (shr_1 mrs) + 2.
Proof.
  intros HU [Hl Hm]. destruct mrs as [m r s]. cbn [shr_m shr_r shr_s] in Hl, Hm.
  destruct (located_shr_1 N U m r s HU Hm Hl) as (H1 & H2 & H3).
  split; [split; assumption|]. exact H3.
Qed.

Lemma located_record_iter (p : positive) :
  forall (N U : Z) (mrs : shr_record),
    0 < U -> located_record N U mrs ->
    located_record N (U * 2 ^ Zpos p) (SpecFloat.iter_pos shr_1 p mrs)
    /\ shr_m (SpecFloat.iter_pos shr_1 p mrs) * 2 ^ Zpos p <= shr_m mrs
       < (shr_m (SpecFloat.iter_pos shr_1 p mrs) + 1) * 2 ^ Zpos p.
Proof.
  induction p as [p IH|p IH|]; intros N U mrs HU Hl; cbn [SpecFloat.iter_pos].
  - destruct (located_record_shr_1 N U mrs HU Hl) as [H1 B1].
    assert (HP : 0 < 2 ^ Zpos p) by (apply Z.pow_pos_nonneg; lia).
    destruct (IH N (2 * U) (shr_1 mrs) ltac:(lia) H1) as [H2 B2].
    destruct (IH N (2 * U * 2 ^ Zpos p) (SpecFloat.iter_pos shr_1 p (shr_1 mrs)) ltac:(nia) H2) as [H3 B3].
    replace (2 ^ Zpos p~1) with (2 * 2 ^ Zpos p * 2 ^ Zpos p).
    2:{ rewrite (Pos2Z.inj_xI p). replace (2 * Zpos p + 1) with (1 + Zpos p + Zpos p) by lia.
        rewrite !Z.pow_add_r by lia. reflexivity. }
    split.
    + replace (U * (2 * 2 ^ Zpos p * 2 ^ Zpos p)) with (2 * U * 2 ^ Zpos p * 2 ^ Zpos p) by ring.
      exact H3.
    + nia.
  - assert (HP : 0 < 2 ^ Zpos p) by (apply Z.pow_pos_nonneg; lia).
    destruct (IH N U mrs HU Hl) as [H2 B2].
    destruct (IH N (U * 2 ^ Zpos p) (SpecFloat.iter_pos shr_1 p mrs) ltac:(nia) H2) as [H3 B3].
    replace (2 ^ Zpos p~0) with (2 ^ Zpos p * 2 ^ Zpos p).
    2:{ rewrite (Pos2Z.inj_xO p). replace (2 * Zpos p) with (Zpos p + Zpos p) by lia.
        rewrite !Z.pow_add_r by lia. reflexivity. }
    split.
    + replace (U * (2 ^ Zpos p * 2 ^ Zpos p)) with (U * 2 ^ Zpos p * 2 ^ Zpos p) by ring.
      exact H3.
    + nia.
  - destruct (located_record_shr_1 N U mrs HU Hl) as [H1 B1].
    change (2 ^ 1) with 2. split.
    + replace (U * 2) with (2 * U) by ring. exact H1.
    + lia.
Qed.

Lemma located_record_shr (N U : Z) (mrs : shr_record) (e n : Z) :
  0 < U -> 0 <= n -> located_record N U mrs ->
  located_record N (U * 2 ^ n) (fst (shr mrs e n))
  /\ snd (shr mrs e n) = e + n
  /\ shr_m (fst (shr mrs e n)) * 2 ^ n <= shr_m mrs < (shr_m (fst (shr mrs e n)) + 1) * 2 ^ n.
Proof.
  intros HU Hn Hl. destruct n as [|p|p]; [| |lia]; cbn [shr fst snd].
  - change (2 ^ 0) with 1. rewrite Z.mul_1_r. split; [exact Hl|]. split; lia.
  - destruct (located_record_iter p N U mrs HU Hl) as [H1 H2]. split; [exact H1|]. split; [reflexivity|exact H2].
Qed.

(** Rounding to nearest, ties to even, moves to a multiple of the unit that
    is at most half a unit away. *)
Lemma located_round (N U m : Z) (r s : bool) :
  0 < U -> located N U m r s ->
  let m_r := round_nearest_even m (loc_of_shr_record {| shr_m := m; shr_r := r; shr_s := s |}) in
  m <= m_r <= m + 1 /\ 2 * Z.abs (m_r * U - N) <= U.
Proof.
  intros HU (rem & HN & Hrem & Hr & Hs). subst r s.
  destruct (Z.leb_spec U (2 * rem)), (Z.eqb_spec rem 0), (Z.eqb_spec (2 * rem) U);
    cbn [negb andb loc_of_shr_record round_nearest_even]; try lia.
  destruct (Z.even m); lia.
Qed.

Lemma fexp_binary64 (e : Z) : fexp prec emax e = Z.max (e - 53) (-1074).
Proof. reflexivity. Qed.

Lemma Zdigits2_bounds (m : Z) :
  0 < m -> 0 < Zdigits2 m /\ 2 ^ (Zdigits2 m - 1) <= m < 2 ^ Zdigits2 m.
Proof.
  destruct m as [|p|p]; try lia. intros _. cbn [Zdigits2].
  split; [lia|]. apply digits2_pos_bounds.
Qed.

Lemma Zdigits2_le (m j : Z) : 0 < m < 2 ^ j -> 0 <= j -> Zdigits2 m <= j.
Proof.
  intros [H0 H1] Hj. destruct (Zdigits2_bounds m H0) as (Hd & H2 & _).
  assert (H : 2 ^ (Zdigits2 m - 1) < 2 ^ j) by lia.
  apply Z.pow_lt_mono_r_iff in H; lia.
Qed.

Lemma Zdigits2_ge (m j : Z) : 2 ^ (j - 1) <= m -> 1 <= j -> j <= Zdigits2 m.
Proof.
  intros H1 Hj.
  assert (H0 : 0 < m) by (pose proof (Z.pow_pos_nonneg 2 (j - 1)); lia).
  destruct (Zdigits2_bounds m H0) as (Hd & _ & H2).
  assert (H : 2 ^ (j - 1) < 2 ^ Zdigits2 m) by lia.
  apply Z.pow_lt_mono_r_iff in H; lia.
Qed.

Lemma shr_m_of_loc (m : Z) (l : location) : shr_m (shr_record_of_loc m l) = m.
Proof. destruct l as [|[]]; reflexivity. Qed.

(** The rounding of a mantissa [mx] at the exponent [ex], placed by [lx]
    in the quotient of [N] by [D]: the result is zero or a float whose
    mantissa is canonical, at most half a unit of the exponent
    [fexp (digits mx + ex)] away from the quotient. *)
Lemma binary_round_aux_spec (sx : bool) (mx ex : Z) (lx : location) (N D : Z) :
  0 < D -> located_record N D (shr_record_of_loc mx lx) ->
  ex <= fexp prec emax (Zdigits2 mx + ex) ->
  exists m e,
    0 <= m /\ fexp prec emax (Zdigits2 mx + ex) <= e <= fexp prec emax (Zdigits2 mx + ex) + 1
    /\ binary_round_aux prec emax sx mx ex lx
       = match m with
         | Z0 => S754_zero sx
         | Zpos p => if e <=? emax - prec then S754_finite sx p e else S754_infinity sx
         | Zneg _ => S754_nan
         end
    /\ (0 < m -> canonical_mantissa prec emax (Z.to_pos m) e = true)
    /\ 2 * Z.abs (m * 2 ^ (e - ex) * D - N) <= D * 2 ^ (fexp prec emax (Zdigits2 mx + ex) - ex).
Proof.
  intros HD Hl Hpre.
  set (E := fexp prec emax (Zdigits2 mx + ex)) in *.
  set (n := E - ex).
  assert (Hn : 0 <= n) by (unfold n; lia).
  assert (Hmx : 0 <= mx) by (destruct Hl as [_ H]; rewrite shr_m_of_loc in H; exact H).
  destruct (located_record_shr N D (shr_record_of_loc mx lx) ex n HD Hn Hl) as (H1 & H2 & H3).
  rewrite shr_m_of_loc in H3.
  unfold binary_round_aux, shr_fexp. fold E. fold n.
  destruct (shr (shr_record_of_loc mx lx) ex n) as [mrs' e'] eqn:Hshr.
  cbn [fst snd] in H1, H2, H3.
  assert (He' : e' = E) by (unfold n in H2; lia). clear H2 Hshr. subst e'.
  destruct mrs' as [m' r' s']. destruct H1 as [H1 Hm']. cbn [shr_m shr_r shr_s] in H1, Hm', H3.
  assert (HU : 0 < D * 2 ^ n) by (pose proof (Z.pow_pos_nonneg 2 n); nia).
  destruct (located_round N (D * 2 ^ n) m' r' s' HU H1) as [Hr1 Hr2].
  cbn [shr_m].
  set (m_r := round_nearest_even m' (loc_of_shr_record {| shr_m := m'; shr_r := r'; shr_s := s' |})) in *.
  assert (HPn : 0 < 2 ^ n) by (apply Z.pow_pos_nonneg; lia).
  assert (HE : E = Z.max (Zdigits2 mx + ex - 53) (-1074)) by apply fexp_binary64.
  assert (F1 : m_r <= 2 ^ 53 /\ (E = -1074 \/ 2 ^ 52 <= m_r)).
  { destruct (Z.eq_dec mx 0) as [->|Hne].
    - cbn [Zdigits2] in HE. assert (m' = 0) by nia. lia.
    - destruct (Zdigits2_bounds mx ltac:(lia)) as (Hd & Hlo & Hhi).
      assert (Hle : Zdigits2 mx <= n + 53) by (unfold n; lia).
      assert (Hp : 2 ^ Zdigits2 mx <= 2 ^ n * 2 ^ 53).
      { rewrite <- Z.pow_add_r by lia. apply Z.pow_le_mono_r; lia. }
      split; [nia|].
      destruct (Z.eq_dec E (-1074)) as [?|HEn]; [left; assumption|right].
      assert (Hd1 : Zdigits2 mx - 1 = n + 52) by (unfold n; lia).
      rewrite Hd1 in Hlo. rewrite Z.pow_add_r in Hlo by lia. nia. }
  destruct F1 as [F1 F2].
  destruct (Z.eq_dec m_r 0) as [H0|H0].
  - exists 0, E. rewrite H0. cbn [Zdigits2 shr_record_of_loc].
    assert (Hn2 : fexp prec emax (0 + E) - E <= 0) by (rewrite fexp_binary64; lia).
    destruct (fexp prec emax (0 + E) - E) as [|p|p] eqn:Hn2'; try lia; cbn [shr shr_m];
      (split; [lia|]; split; [lia|]; split; [reflexivity|]; split; [lia|]);
      fold n; rewrite H0 in Hr2; rewrite <- Z.mul_assoc, Z.mul_0_l; rewrite Z.mul_0_l in Hr2; lia.
  - destruct (Z.eq_dec m_r (2 ^ 53)) as [H53|H53].
    + exists (2 ^ 52), (E + 1). rewrite H53.
      assert (Hn2 : fexp prec emax (Zdigits2 (2 ^ 53) + E) - E = 1).
      { rewrite fexp_binary64. change (Zdigits2 (2 ^ 53)) with 54. lia. }
      rewrite Hn2. cbn [shr shr_record_of_loc SpecFloat.iter_pos].
      change (shr_m (shr_1 {| shr_m := 2 ^ 53; shr_r := false; shr_s := false |})) with (2 ^ 52).
      split; [lia|]. split; [lia|]. split; [reflexivity|]. split.
      * intros _. unfold canonical_mantissa. rewrite fexp_binary64.
        change (Z.pos (digits2_pos (Z.to_pos (2 ^ 52)))) with 53. apply Z.eqb_eq. lia.
      * fold n. replace (E + 1 - ex) with (1 + n) by (unfold n; lia).
        rewrite Z.pow_add_r by lia. change (2 ^ 1) with 2.
        rewrite H53 in Hr2.
        replace (2 ^ 52 * (2 * 2 ^ n) * D - N) with (2 ^ 53 * (D * 2 ^ n) - N) by ring.
        exact Hr2.
    + exists m_r, E.
      assert (Hpos : 0 < m_r) by lia.
      assert (Hdr : fexp prec emax (Zdigits2 m_r + E) = E).
      { rewrite fexp_binary64.
        assert (Zdigits2 m_r <= 53) by (apply Zdigits2_le; lia).
        destruct F2 as [F2|F2]; [lia|].
        assert (53 <= Zdigits2 m_r) by (apply Zdigits2_ge; [exact F2|lia]). lia. }
      rewrite Hdr, Z.sub_diag. cbn [shr shr_m].
      rewrite shr_m_of_loc.
      split; [lia|]. split; [lia|]. split; [reflexivity|]. split.
      * intros _. unfold canonical_mantissa.
        destruct m_r as [|p|p]; try lia. cbn [Z.to_pos]. cbn [Zdigits2] in Hdr.
        apply Z.eqb_eq. exact Hdr.
      * fold n. replace (m_r * 2 ^ n * D - N) with (m_r * (D * 2 ^ n) - N) by ring.
        exact Hr2.
Qed.

(** The location that the division computes from the remainder. *)
Lemma new_location_located (q t r : Z) :
  0 < t -> 0 <= r < t -> 0 <= q ->
  located_record (q * t + r) t (shr_record_of_loc q (new_location t r)).
Proof.
  intros Ht Hr Hq. split; [|rewrite shr_m_of_loc; exact Hq].
  rewrite shr_m_of_loc. exists r. split; [reflexivity|]. split; [exact Hr|].
  unfold new_location, new_location_even, new_location_odd.
  destruct (Z.even t) eqn:Heven.
  - destruct (Z.eqb_spec r 0) as [->|Hr0].
    + cbn [shr_record_of_loc shr_r shr_s negb andb]. split; [|reflexivity].
      symmetry. apply Z.leb_gt. lia.
    + destruct (Z.compare_spec (2 * r) t) as [Heq|Hlt|Hgt];
        cbn [shr_record_of_loc shr_r shr_s negb andb].
      * split; [symmetry; apply Z.leb_le; lia|].
        symmetry. apply negb_false_iff, Z.eqb_eq. exact Heq.
      * split; [symmetry; apply Z.leb_gt; lia|].
        symmetry. apply negb_true_iff, Z.eqb_neq. lia.
      * split; [symmetry; apply Z.leb_le; lia|].
        symmetry. apply negb_true_iff, Z.eqb_neq. lia.
  - assert (Hodd : 2 * r <> t).
    { intros <-. rewrite Z.even_mul in Heven. discriminate. }
    destruct (Z.eqb_spec r 0) as [->|Hr0].
    + cbn [shr_record_of_loc shr_r shr_s negb andb]. split; [|reflexivity].
      symmetry. apply Z.leb_gt. lia.
    + destruct (Z.compare_spec (2 * r + 1) t) as [Heq|Hlt|Hgt];
        cbn [shr_record_of_loc shr_r shr_s negb andb].
      * split; [symmetry; apply Z.leb_gt; lia|].
        symmetry. apply negb_true_iff, Z.eqb_neq. lia.
      * split; [symmetry; apply Z.leb_gt; lia|].
        symmetry. apply negb_true_iff, Z.eqb_neq. lia.
      * split; [symmetry; apply Z.leb_le; lia|].
        symmetry. apply negb_true_iff, Z.eqb_neq. lia.
Qed.

(** The quotient of two positive ints [p <= t]: a float [m * 2^e] with
    [|m * 2^e - p / t| <= 2^e / 2], written without fractions. *)
Lemma SFdiv_ints (p t : positive) :
  Zpos p <= Zpos t ->
  exists m e,
    0 <= m /\ e <= -51
    /\ SFdiv prec emax (S754_finite false p 0) (S754_finite false t 0)
       = match m with
         | Z0 => S754_zero false
         | Zpos q => S754_finite false q e
         | Zneg _ => S754_nan
         end
    /\ (0 < m -> canonical_mantissa prec emax (Z.to_pos m) e = true)
    /\ 2 * Z.abs (m * Zpos t - Zpos p * 2 ^ (- e)) <= Zpos t.
Proof.
  intros Hpt.
  destruct (Zdigits2_bounds (Zpos p) ltac:(lia)) as (Hd1 & Hlo1 & Hhi1).
  destruct (Zdigits2_bounds (Zpos t) ltac:(lia)) as (Hd2 & Hlo2 & Hhi2).
  assert (Hd : Zdigits2 (Zpos p) <= Zdigits2 (Zpos t)).
  { apply Zdigits2_le; lia. }
  unfold SFdiv, SFdiv_core_binary. cbv zeta. cbn [xorb].
  set (d1 := Zdigits2 (Zpos p)) in *. set (d2 := Zdigits2 (Zpos t)) in *.
  rewrite !Z.add_0_r. change (0 - 0) with 0.
  set (e' := fexp prec emax (d1 - d2)).
  assert (He' : e' = Z.max (d1 - d2 - 53) (-1074)) by apply fexp_binary64.
  rewrite (Z.min_l e' 0) by lia.
  destruct (0 - e') as [|sp|sp] eqn:Hs; try lia.
  rewrite Z.shiftl_mul_pow2 by lia.
  pose proof (Z_div_mod (Zpos p * 2 ^ Zpos sp) (Zpos t) ltac:(lia)) as Hdiv.
  destruct (Z.div_eucl (Zpos p * 2 ^ Zpos sp) (Zpos t)) as [q r].
  destruct Hdiv as [Hdiv Hr].
  assert (HP : 0 < 2 ^ Zpos sp) by (apply Z.pow_pos_nonneg; lia).
  assert (Hq : 0 <= q) by nia.
  assert (Hq2 : q <= 2 ^ Zpos sp) by nia.
  assert (Hpre : e' <= fexp prec emax (Zdigits2 q + e')).
  { rewrite fexp_binary64.
    destruct (Z.eq_dec e' (-1074)) as [?|Hne]; [lia|].
    assert (Hsp : Zpos sp = 53 + d2 - d1) by lia.
    assert (H52 : 2 ^ 52 <= q).
    { assert (Hp2 : 2 ^ 52 * 2 ^ d2 <= Zpos p * 2 ^ Zpos sp).
      { replace (2 ^ 52 * 2 ^ d2) with (2 ^ (d1 - 1) * 2 ^ Zpos sp).
        - apply Z.mul_le_mono_nonneg_r; lia.
        - rewrite <- !Z.pow_add_r by lia. f_equal. lia. }
      nia. }
    assert (53 <= Zdigits2 q) by (apply Zdigits2_ge; [exact H52|lia]). lia. }
  destruct (binary_round_aux_spec false q e' (new_location (Zpos t) r)
              (Zpos p * 2 ^ Zpos sp) (Zpos t) ltac:(lia)) as (m & e & Hm & He & Hres & Hcan & Herr).
  { replace (Zpos p * 2 ^ Zpos sp) with (q * Zpos t + r) by lia.
    apply new_location_located; lia. }
  { exact Hpre. }
  assert (HE : fexp prec emax (Zdigits2 q + e') <= -52).
  { rewrite fexp_binary64.
    destruct (Z.eq_dec q 0) as [->|Hq0]; [cbn [Zdigits2]; lia|].
    assert (Zdigits2 q <= Zpos sp + 1).
    { apply Zdigits2_le; [|lia]. rewrite Z.pow_add_r by lia. change (2 ^ 1) with 2. lia. }
    lia. }
  exists m, e. split; [exact Hm|]. split; [lia|]. split.
  - rewrite Hres. destruct m as [|mp|mp]; try reflexivity.
    replace (e <=? emax - prec) with true; [reflexivity|].
    symmetry. apply Z.leb_le. change (emax - prec) with 971. lia.
  - split; [exact Hcan|].
    set (E := fexp prec emax (Zdigits2 q + e')) in *.
    assert (HA : 0 < 2 ^ (e - e')) by (apply Z.pow_pos_nonneg; lia).
    assert (HA' : 2 ^ (E - e') <= 2 ^ (e - e')) by (apply Z.pow_le_mono_r; lia).
    assert (HC : 2 ^ Zpos sp = 2 ^ (e - e') * 2 ^ (- e)).
    { rewrite <- Z.pow_add_r by lia. f_equal. lia. }
    rewrite HC in Herr.
    replace (m * 2 ^ (e - e') * Zpos t - Zpos p * (2 ^ (e - e') * 2 ^ (- e)))
      with (2 ^ (e - e') * (m * Zpos t - Zpos p * 2 ^ (- e))) in Herr by ring.
    rewrite Z.abs_mul, (Z.abs_eq (2 ^ (e - e'))) in Herr by lia.
    nia.
Qed.

(** The product of such a float by [100.0]. *)
Lemma SFmul_100 (q : positive) (e : Z) :
  canonical_mantissa prec emax q e = true -> e <= -51 -> Zpos q <= 2 ^ (- e) + 1 ->
  exists m e2,
    0 <= m /\ e - 46 <= e2 <= -44
    /\ SFmul prec emax (S754_finite false q e) (Prim2SF 100%float)
       = match m with
         | Z0 => S754_zero false
         | Zpos q' => S754_finite false q' e2
         | Zneg _ => S754_nan
         end
    /\ 2 * Z.abs (m * 2 ^ (e2 - (e - 46)) - Zpos q * (100 * 2 ^ 46)) <= 2 ^ (e2 - (e - 46)).
Proof.
  intros Hcan He Hq.
  change (Prim2SF 100%float) with (S754_finite false 7036874417766400 (-46)).
  cbn [SFmul xorb].
  unfold canonical_mantissa in Hcan. apply Z.eqb_eq in Hcan. rewrite fexp_binary64 in Hcan.
  destruct (Zdigits2_bounds (Zpos q) ltac:(lia)) as (Hd & Hlo & Hhi). cbn [Zdigits2] in Hd, Hlo, Hhi.
  set (dq := Zpos (digits2_pos q)) in *.
  assert (HM : Zpos (q * 7036874417766400) = Zpos q * (100 * 2 ^ 46)) by (rewrite Pos2Z.inj_mul; reflexivity).
  assert (HC : 2 ^ 51 <= 2 ^ (- e)) by (apply Z.pow_le_mono_r; lia).
  assert (Hge : dq + 52 <= Zdigits2 (Zpos (q * 7036874417766400))).
  { apply Zdigits2_ge; [|lia]. rewrite HM.
    replace (dq + 52 - 1) with ((dq - 1) + 52) by lia. rewrite Z.pow_add_r by lia.
    apply Z.mul_le_mono_nonneg; lia. }
  assert (Hle : Zdigits2 (Zpos (q * 7036874417766400)) <= 54 - e).
  { apply Zdigits2_le; [|lia]. split; [lia|]. rewrite HM.
    replace (54 - e) with (- e + 54) by lia. rewrite Z.pow_add_r by lia. lia. }
  destruct (binary_round_aux_spec false (Zpos (q * 7036874417766400)) (e + -46) loc_Exact
              (Zpos (q * 7036874417766400)) 1 ltac:(lia)) as (m & e2 & Hm & He2 & Hres & _ & Herr).
  { split; [|cbn; lia]. exists 0. cbn [shr_record_of_loc shr_m shr_r shr_s].
    split; [lia|]. split; [lia|]. split; reflexivity. }
  { rewrite fexp_binary64. lia. }
  rewrite fexp_binary64 in He2, Herr.
  set (dm := Zdigits2 (Zpos (q * 7036874417766400))) in *.
  exists m, e2. split; [exact Hm|]. split; [lia|]. split.
  - rewrite Hres. destruct m as [|mp|mp]; try reflexivity.
    replace (e2 <=? emax - prec) with true; [reflexivity|].
    symmetry. apply Z.leb_le. change (emax - prec) with 971. lia.
  - rewrite HM in Herr. replace (e + -46) with (e - 46) in Herr by lia.
    rewrite !Z.mul_1_r, Z.mul_1_l in Herr.
    etransitivity; [exact Herr|]. apply Z.pow_le_mono_r; lia.
Qed.

(** The two rounding errors together stay below [2^-44]. *)
Lemma percentage_error (p t q C m K C2 : Z) :
  0 < p <= t -> 0 <= q -> 0 <= m ->
  2 ^ 51 <= C -> 0 < K -> 0 < C2 -> K <= 4 * C -> K * C2 = 2 ^ 46 * C ->
  2 * Z.abs (q * t - p * C) <= t ->
  2 * Z.abs (m * K - q * (100 * 2 ^ 46)) <= K ->
  2 ^ 44 * Z.abs (m * t - 100 * p * C2) <= t * C2.
Proof.
  intros Hp Hq Hm HC HK HC2 HKC HKC2 H1 H2.
  assert (Heq : K * (m * t - 100 * p * C2)
                = t * (m * K - q * (100 * 2 ^ 46)) + 100 * 2 ^ 46 * (q * t - p * C)).
  { replace (K * (m * t - 100 * p * C2)) with (m * t * K - 100 * p * (K * C2)) by ring.
    rewrite HKC2. ring. }
  assert (Habs : 2 * K * Z.abs (m * t - 100 * p * C2) <= t * K + 100 * 2 ^ 46 * t).
  { replace (2 * K * Z.abs (m * t - 100 * p * C2)) with (2 * Z.abs (K * (m * t - 100 * p * C2))).
    2:{ rewrite Z.abs_mul, (Z.abs_eq K) by lia. ring. }
    rewrite Heq.
    remember (100 * 2 ^ 46) as c eqn:Hc.
    assert (Hc0 : 0 < c) by (subst c; lia).
    pose proof (Z.abs_triangle (t * (m * K - q * c)) (c * (q * t - p * C))) as Htri.
    rewrite (Z.abs_mul t), (Z.abs_mul c), (Z.abs_eq t), (Z.abs_eq c) in Htri by lia.
    nia. }
  set (X := Z.abs (m * t - 100 * p * C2)) in *.
  assert (HX : 0 <= X) by apply Z.abs_nonneg.
  assert (H3 : 2 ^ 44 * (2 * K * X) <= 2 * K * (t * C2)).
  { replace (2 * K * (t * C2)) with (2 * t * (K * C2)) by ring. rewrite HKC2.
    assert (2 ^ 44 * (t * K + 100 * 2 ^ 46 * t) <= 2 * t * (2 ^ 46 * C)).
    { change (2 ^ 44) with 17592186044416. change (2 ^ 46) with 70368744177664.
      change (2 ^ 51) with 2251799813685248 in HC. nia. }
    nia. }
  nia.
Qed.

(** [p / t * 100] for two positive ints [p <= t]: the division does not
    overflow, and the product is zero or a float [m * 2^e] with
    [|m * 2^e - 100 * p / t| <= 2^-44], written without fractions. *)
Lemma percentage_spec (p t : positive) :
  Zpos p <= Zpos t ->
  exists q m e,
    SFdiv prec emax (S754_finite false p 0) (S754_finite false t 0) = q
    /\ (forall s, q <> S754_infinity s)
    /\ 0 <= m /\ e <= -44
    /\ Prim2SF (PrimFloat.mul (SF2Prim q) 100%float)
       = match m with
         | Z0 => S754_zero false
         | Zpos m' => S754_finite false m' e
         | Zneg _ => S754_nan
         end
    /\ 2 ^ 44 * Z.abs (m * Zpos t - 100 * Zpos p * 2 ^ (- e)) <= Zpos t * 2 ^ (- e).
Proof.
  intros Hpt.
  destruct (SFdiv_ints p t Hpt) as (mq & eq & Hmq & Heq & Hdiv & Hcan & Herr).
  exists (SFdiv prec emax (S754_finite false p 0) (S754_finite false t 0)). rewrite Hdiv.
  assert (HC : 2 ^ 51 <= 2 ^ (- eq)) by (apply Z.pow_le_mono_r; lia).
  destruct mq as [|mq|mq]; [| |lia].
  - exists 0, (-44). split; [reflexivity|]. split; [discriminate|].
    split; [lia|]. split; [lia|]. split.
    + rewrite FloatAxioms.mul_spec, Prim2SF_SF2Prim by reflexivity. reflexivity.
    + change (- -44) with 44. rewrite Z.mul_0_l in *. rewrite Z.sub_0_l, Z.abs_opp in *.
      rewrite Z.abs_eq in * by nia. nia.
  - specialize (Hcan ltac:(lia)). cbn [Z.to_pos] in Hcan.
    assert (Hq : Zpos mq <= 2 ^ (- eq) + 1).
    { assert (Zpos mq * Zpos t <= Zpos p * 2 ^ (- eq) + Zpos t) by lia. nia. }
    destruct (SFmul_100 mq eq Hcan Heq Hq) as (m & e2 & Hm & He2 & Hmul & Herr2).
    exists m, e2. split; [reflexivity|]. split; [discriminate|].
    split; [exact Hm|]. split; [lia|]. split.
    + rewrite FloatAxioms.mul_spec, Prim2SF_SF2Prim; [exact Hmul|].
      cbn [valid_binary]. unfold bounded. rewrite Hcan. cbn [andb].
      apply Z.leb_le. change (emax - prec) with 971. lia.
    + apply (percentage_error (Zpos p) (Zpos t) (Zpos mq) (2 ^ (- eq)) m (2 ^ (e2 - (eq - 46)))).
      * lia.
      * lia.
      * exact Hm.
      * exact HC.
      * apply Z.pow_pos_nonneg; lia.
      * apply Z.pow_pos_nonneg; lia.
      * change 4 with (2 ^ 2). rewrite <- Z.pow_add_r by lia. apply Z.pow_le_mono_r; lia.
      * rewrite <- !Z.pow_add_r by lia. f_equal. lia.
      * exact Herr.
      * exact Herr2.
Qed.

End rounding_facts.

(** ** The metrics aggregator *)

Section metrics_facts.
Import TestResult MetricsCollector.

Lemma init_samples_nonempty : samples_nonempty init.
Proof. intros key times H. simpl in H. by rewrite lookup_empty in H. Qed.

Lemma add_result_samples_nonempty r mc :
  samples_nonempty mc -> samples_nonempty (add_result r mc).
Proof.
  intros Hmc key times. simpl. rewrite lookup_insert.
  case_decide.
  - intros [= <-]. by destruct (default [] _).
  - apply Hmc.
Qed.

Lemma handle_all_samples_nonempty rs mc :
  samples_nonempty mc -> samples_nonempty (handle_all add_result rs mc).
Proof.
  revert mc. induction rs as [|r rs IH]; intros mc H; simpl; [done|].
  apply IH. by apply add_result_samples_nonempty.
Qed.

(** One ingest: [total] goes up by one and so does exactly the counter
    that the status selects. *)
Lemma add_result_counters r mc :
  total_tests (add_result r mc) = total_tests mc + 1 /\
  ( (status r = "SUCCESS"
     /\ passed_tests (add_result r mc) = passed_tests mc + 1
     /\ failed_tests (add_result r mc) = failed_tests mc
     /\ error_tests (add_result r mc) = error_tests mc)
  \/ (status r = "FAILED"
     /\ passed_tests (add_result r mc) = passed_tests mc
     /\ failed_tests (add_result r mc) = failed_tests mc + 1
     /\ error_tests (add_result r mc) = error_tests mc)
  \/ (status r <> "SUCCESS" /\ status r <> "FAILED"
     /\ passed_tests (add_result r mc) = passed_tests mc
     /\ failed_tests (add_result r mc) = failed_tests mc
     /\ error_tests (add_result r mc) = error_tests mc + 1) ).
Proof.
  split; [done|]. simpl.
  destruct (String.eqb_spec (status r) "SUCCESS") as [E1|E1].
  - left. by rewrite E1.
  - destruct (String.eqb_spec (status r) "FAILED") as [E2|E2].
    + right; left. by rewrite E2.
    + right; right. done.
Qed.

Lemma handle_all_counters rs mc :
  total_tests (handle_all add_result rs mc) = total_tests mc + Z.of_nat (length rs) /\
  passed_tests (handle_all add_result rs mc) + failed_tests (handle_all add_result rs mc)
  + error_tests (handle_all add_result rs mc)
  = passed_tests mc + failed_tests mc + error_tests mc + Z.of_nat (length rs).
Proof.
  revert mc. induction rs as [|r rs IH]; intros mc; simpl; [lia|].
  destruct (IH (add_result r mc)) as [-> ->].
  destruct (add_result_counters r mc) as [-> H].
  split; [lia|].
  destruct H as [(_ & -> & -> & ->)|[(_ & -> & -> & ->)|(_ & _ & -> & -> & ->)]]; lia.
Qed.

Lemma fold_py_add_float (times : list float) (f : float) :
  exists g, fold_left (fun acc t => py_add acc (PyFloat t)) times (PyFloat f) = PyFloat g.
Proof.
  revert f. induction times as [|t times IH]; intros f; cbn [fold_left py_add]; [by eexists|].
  apply IH.
Qed.

Lemma average_nonempty times :
  times <> [] ->
  average times
  = Ok (PyFloat (PrimFloat.div (to_float (py_sum times))
                               (float_of_Z (Z.of_nat (length times))))).
Proof.
  intros H. destruct times as [|t times]; [done|].
  unfold average, py_truediv, py_sum. cbn [fold_left py_add].
  destruct (fold_py_add_float times (PrimFloat.add (to_float (PyInt 0)) (to_float (PyFloat t))))
    as [g ->].
  cbn [py_is_zero].
  destruct (Z.eqb_spec (Z.of_nat (length (t :: times))) 0) as [E|_]; [|done].
  simpl length in E. lia.
Qed.

Lemma averages_nonempty items :
  Forall (fun kv : string * list float => kv.2 <> []) items ->
  exists avgs, averages items = Ok avgs.
Proof.
  induction 1 as [|[k times] items Hk _ [avgs IH]]; simpl; [by eexists|].
  rewrite (average_nonempty times Hk), IH. by eexists.
Qed.

(** The counters of the states that ingesting reaches. *)
Lemma init_passed_bound : 0 <= passed_tests init <= total_tests init.
Proof. simpl. lia. Qed.

Lemma add_result_passed_bound r mc :
  0 <= passed_tests mc <= total_tests mc ->
  0 <= passed_tests (add_result r mc) <= total_tests (add_result r mc).
Proof.
  intros H. destruct (add_result_counters r mc) as [Ht Hc].
  destruct Hc as [(_ & Hp & _)|[(_ & Hp & _)|(_ & _ & Hp & _)]]; lia.
Qed.

Lemma handle_all_passed_bound rs mc :
  0 <= passed_tests mc <= total_tests mc ->
  0 <= passed_tests (handle_all add_result rs mc)
    <= total_tests (handle_all add_result rs mc).
Proof.
  revert mc. induction rs as [|r rs IH]; intros mc H; simpl; [done|].
  apply IH. by apply add_result_passed_bound.
Qed.

(** [success_rate] returns when the passed count is within the total: the
    int 0 on no test, and otherwise a float within 0.005 of the exact
    percentage. *)
Lemma success_rate_returns mc :
  0 <= passed_tests mc <= total_tests mc ->
  exists rate,
    success_rate mc = Ok rate
    /\ (total_tests mc = 0 -> rate = PyInt 0)
    /\ (0 < total_tests mc ->
        exists f, rate = PyFloat f
                  /\ within_two_decimals f (passed_tests mc) (total_tests mc) = true).
Proof.
  intros Hb. unfold success_rate.
  destruct (Z.ltb_spec 0 (total_tests mc)) as [Hpos|Hneg].
  2:{ eexists. split; [reflexivity|]. split; [done|lia]. }
  destruct (total_tests mc) as [|t|t] eqn:Ht; try lia.
  unfold py_truediv, int_truediv. cbn [py_is_zero].
  change (Z.pos t =? 0) with false. cbn iota.
  destruct (passed_tests mc) as [|p|p] eqn:Hp; try lia.
  - cbn [int_to_SF SFdiv xorb py_mul to_float].
    eexists. split; [reflexivity|]. split; [lia|]. intros _.
    eexists. split; [reflexivity|]. unfold within_two_decimals.
    change (Prim2SF (PrimFloat.mul (SF2Prim (S754_zero false)) (float_of_Z 100)))
      with (S754_zero false).
    apply Z.leb_le. lia.
  - destruct (percentage_spec p t ltac:(lia)) as (q & m & e & Hq & Hfin & Hm & He & Hmul & Herr).
    cbn [int_to_SF]. rewrite Hq.
    exists (PyFloat (PrimFloat.mul (SF2Prim q) 100%float)). split.
    { destruct q as [s|s| |s mq eq]; try reflexivity. by destruct (Hfin s). }
    split; [lia|]. intros _. eexists. split; [reflexivity|].
    unfold within_two_decimals. rewrite Hmul.
    assert (HC : 0 < 2 ^ (- e)) by (apply Z.pow_pos_nonneg; lia).
    destruct m as [|m|m]; [| |lia].
    + apply Z.leb_le. rewrite Z.mul_0_l, Z.sub_0_l, Z.abs_opp in Herr.
      rewrite Z.abs_eq in Herr by lia. rewrite Z.abs_eq by lia. nia.
    + destruct (Z.leb_spec 0 e) as [?|_]; [lia|]. apply Z.leb_le.
      replace (200 * Z.pos t * Z.pos m - 20000 * Z.pos p * 2 ^ (- e))
        with (200 * (Z.pos m * Z.pos t - 100 * Z.pos p * 2 ^ (- e))) by ring.
      rewrite Z.abs_mul, (Z.abs_eq 200) by lia.
      pose proof (Z.abs_nonneg (Z.pos m * Z.pos t - 100 * Z.pos p * 2 ^ (- e))).
      change (2 ^ 44) with 17592186044416 in Herr. nia.
Qed.

(** [get_metrics] returns on every state in which no sample list is empty
    and the passed count is within the total, and the fields it returns. *)
Lemma get_metrics_returns mc :
  samples_nonempty mc ->
  0 <= passed_tests mc <= total_tests mc ->
  exists rate avgs,
    success_rate mc = Ok rate /\
    averages (map_to_list (response_times mc)) = Ok avgs /\
    get_metrics mc
    = Ok {| m_total_tests := total_tests mc;
            m_passed_tests := passed_tests mc;
            m_failed_tests := failed_tests mc;
            m_error_tests := error_tests mc;
            m_success_rate := rate;
            m_total_execution_time := total_execution_time mc;
            m_average_response_times := list_to_map avgs;
            m_status_code_distribution := status_codes mc |}.
Proof.
  intros Hmc Hb.
  destruct (averages_nonempty (map_to_list (response_times mc))) as [avgs Havgs].
  { apply Forall_forall. intros [k times] Hin. simpl.
    apply (Hmc k). by apply elem_of_map_to_list. }
  destruct (success_rate_returns mc Hb) as (rate & Hrate & _).
  exists rate, avgs. split; [done|]. split; [done|].
  unfold get_metrics. by rewrite Hrate, Havgs.
Qed.

End metrics_facts.

Section metrics_claims.
Import TestResult MetricsCollector ReportGenerator.

(** C7.  Ingesting the outcome t1 (SUCCESS, 0.5 s, GET /users, 200) and then
    t2 (FAILED, 1.5 s, GET /users, 500, one validation error) into an empty
    aggregator gives the snapshot total=2, passed=1, failed=1, error=0,
    success_rate=50.0, average_response_times["GET /users"]=1.0 and
    status_code_distribution={200: 1, 500: 1}, whatever the fields the
    scenario leaves open. *)
Theorem snapshot_of_t1_t2
    (class1 class2 : string) (ts1 ts2 : datetime) (msg1 msg2 : option string)
    (req1 resp1 req2 resp2 : option (list (string * string)))
    (errs1 : option (list string)) :
  let t1 := {| test_name := "t1"; test_class := class1; status := "SUCCESS";
               execution_time := 0.5%float; timestamp := ts1;
               endpoint := "/users"; method := "GET"; response_code := Some 200;
               error_message := msg1; request_headers := req1;
               response_headers := resp1; validation_errors := errs1 |} in
  let t2 := {| test_name := "t2"; test_class := class2; status := "FAILED";
               execution_time := 1.5%float; timestamp := ts2;
               endpoint := "/users"; method := "GET"; response_code := Some 500;
               error_message := msg2; request_headers := req2;
               response_headers := resp2;
               validation_errors := Some ["bad field"] |} in
  exists m,
    get_metrics (MetricsCollector.add_result t2 (MetricsCollector.add_result t1 init)) = Ok m
    /\ m_total_tests m = 2
    /\ m_passed_tests m = 1
    /\ m_failed_tests m = 1
    /\ m_error_tests m = 0
    /\ m_success_rate m = PyFloat 50%float
    /\ m_average_response_times m !! "GET /users" = Some (PyFloat 1%float)
    /\ m_average_response_times m = {[ "GET /users" := PyFloat 1%float ]}
    /\ m_status_code_distribution m = {[ 200 := 1; 500 := 1 ]}.
Proof.
  intros t1 t2. eexists. split; [vm_compute; reflexivity|].
  repeat split; vm_compute; reflexivity.
Qed.

(** C8.  On every aggregator state in which no sample list is empty and
    the passed count lies between 0 and the total, as in every state that
    ingesting reaches ([handle_all_samples_nonempty],
    [handle_all_passed_bound]), [get_metrics] returns, without dividing by
    zero; the snapshot's success_rate is the int 0 when total is 0, and
    otherwise a float within 0.005 of the exact percentage
    100 * passed / total: [passed / total] rounds the exact quotient once,
    the product by 100 rounds once more, and the two errors together stay
    below [2^-44]. *)
Theorem success_rate_of_snapshot (mc : MetricsCollector) :
  samples_nonempty mc ->
  0 <= passed_tests mc <= total_tests mc ->
  exists m,
    get_metrics mc = Ok m
    /\ (total_tests mc = 0 -> m_success_rate m = PyInt 0)
    /\ (0 < total_tests mc ->
        exists rate,
          m_success_rate m = PyFloat rate
          /\ within_two_decimals rate (passed_tests mc) (total_tests mc) = true).
Proof.
  intros Hmc Hb.
  destruct (get_metrics_returns mc Hmc Hb) as (rate & avgs & Hrate & _ & ->).
  destruct (success_rate_returns mc Hb) as (rate' & Hrate' & Hzero & Hpos).
  assert (rate' = rate) as -> by congruence.
  eexists. split; [done|]. cbn [m_success_rate]. done.
Qed.

Lemma success_rate_of_snapshot_witness :
  let t := {| test_name := "t1"; test_class := "TestExampleAPI"; status := "SUCCESS";
              execution_time := 0.5%float;
              timestamp := {| year := 2024; month := 5; day := 17; hour := 9;
                              minute := 30; second := 0; microsecond := 0 |};
              endpoint := "/users"; method := "GET"; response_code := Some 200;
              error_message := None; request_headers := None;
              response_headers := None; validation_errors := None |} in
  let mc := MetricsCollector.add_result t init in
  samples_nonempty mc /\
  0 <= passed_tests mc <= total_tests mc /\
  exists m,
    get_metrics mc = Ok m
    /\ (total_tests mc = 0 -> m_success_rate m = PyInt 0)
    /\ (0 < total_tests mc ->
        exists rate,
          m_success_rate m = PyFloat rate
          /\ within_two_decimals rate (passed_tests mc) (total_tests mc) = true).
Proof.
  intros t mc.
  assert (H : samples_nonempty mc)
    by apply add_result_samples_nonempty, init_samples_nonempty.
  assert (Hb : 0 <= passed_tests mc <= total_tests mc) by (simpl; lia).
  split; [exact H|]. split; [exact Hb|]. exact (success_rate_of_snapshot mc H Hb).
Defined.

(** For every total up to 200 and every passed count up to the total, the
    success_rate of the snapshot is within 0.005 of the exact percentage. *)
Example success_rate_two_decimals :
  forallb (fun total =>
     forallb (fun passed =>
        match m_success_rate <$> result_to_option (get_metrics (with_counts passed total)) with
        | Some (PyFloat rate) => within_two_decimals rate passed total
        | _ => false
        end) (seqZ 0 (total + 1)))
    (seqZ 1 200) = true.
Proof. vm_compute. reflexivity. Qed.

(** C9.  Each ingest adds one to total and one to exactly the counter its
    status selects; so for every schedule that submits N outcomes, once the
    stop has let the consumer drain and return, the snapshot has total = N
    and passed + failed + error = N. *)
Theorem drained_snapshot_counts :
  (forall r mc,
      total_tests (MetricsCollector.add_result r mc) = total_tests mc + 1 /\
      ( (status r = "SUCCESS"
         /\ passed_tests (MetricsCollector.add_result r mc) = passed_tests mc + 1
         /\ failed_tests (MetricsCollector.add_result r mc) = failed_tests mc
         /\ error_tests (MetricsCollector.add_result r mc) = error_tests mc)
      \/ (status r = "FAILED"
         /\ passed_tests (MetricsCollector.add_result r mc) = passed_tests mc
         /\ failed_tests (MetricsCollector.add_result r mc) = failed_tests mc + 1
         /\ error_tests (MetricsCollector.add_result r mc) = error_tests mc)
      \/ (status r <> "SUCCESS" /\ status r <> "FAILED"
         /\ passed_tests (MetricsCollector.add_result r mc) = passed_tests mc
         /\ failed_tests (MetricsCollector.add_result r mc) = failed_tests mc
         /\ error_tests (MetricsCollector.add_result r mc) = error_tests mc + 1) ))
  /\
  (forall (dir : string) (schedule : list (@action TestResult.t)),
      let N := length (puts schedule) in
      exists w m,
        shutdown consume (2 * N + 2) (run consume schedule (thread (new dir))) = Some w
        /\ get_metrics (metrics (data w)) = Ok m
        /\ m_total_tests m = Z.of_nat N
        /\ m_passed_tests m + m_failed_tests m + m_error_tests m = Z.of_nat N).
Proof.
  split; [apply add_result_counters|].
  intros dir schedule N. subst N. unfold new. cbn [thread].
  rewrite shutdown_handles_puts. eexists.
  assert (Hdata : forall rs h,
             metrics (handle_all consume rs h)
             = handle_all MetricsCollector.add_result rs (metrics h)).
  { induction rs as [|r rs IH]; intros h; simpl; [done|]. by rewrite IH. }
  destruct (get_metrics_returns
              (handle_all MetricsCollector.add_result (puts schedule) init))
    as (rate & avgs & _ & _ & Hget).
  { apply handle_all_samples_nonempty, init_samples_nonempty. }
  { apply handle_all_passed_bound, init_passed_bound. }
  eexists. split; [done|]. simpl data. rewrite Hdata. simpl metrics.
  split; [exact Hget|]. simpl.
  destruct (handle_all_counters (puts schedule) init) as [-> ->]. simpl. lia.
Qed.

End metrics_claims.

(** ** The tabular export *)

Section export_facts.
Import TestResult ReportGenerator.
Context `{PyRuntime}.

Lemma writeheader_row : csv.writeheader csv_writer = Ok header_row.
Proof. reflexivity. Qed.

(** The row dict of an outcome always holds the three keys that are not
    field names, set or [None], and [writerow] rejects it. *)
Lemma writerow_rejects_outcome (r : TestResult.t) :
  csv.writerow csv_writer
    (csv.setitem (asdict r) "timestamp" (csv.VStr (isoformat (timestamp r))))
  = Raise (ValueError
             ("dict contains fields not in fieldnames: "
              +:+ str_join ", " (map str_repr
                    ["request_headers"; "response_headers"; "validation_errors"]))).
Proof. reflexivity. Qed.

Lemma write_rows_stops_at_first (r : TestResult.t) (rs : list TestResult.t) (written : string) :
  exists msg, write_rows csv_writer (r :: rs) written = (written, Raise (ValueError msg)).
Proof.
  eexists. cbn [write_rows]. by rewrite writerow_rejects_outcome.
Qed.

(** With an outcome in the history [export_csv] does not return a path,
    whatever the directory, the file name and the file system. *)
Lemma export_csv_raises_on_any_outcome
    (dir filename : string) (w : worker TestResult.t history) (s : os.fs)
    (r : TestResult.t) (rs : list TestResult.t) (mc : MetricsCollector.MetricsCollector) :
  exists e,
    snd (export_csv
           {| output_dir := dir;
              thread := {| queue := queue w; stop_event := stop_event w; at_pc := at_pc w;
                           data := {| results := r :: rs; metrics := mc |} |} |}
           filename s)
    = Raise e.
Proof.
  unfold export_csv. cbn [output_dir thread data results].
  destruct (os.makedirs dir true s) as [s1 [[]|e]]; [|by eexists].
  destruct (os.open_check (os.join dir filename) s1) as [[]|e]; [|by eexists].
  rewrite writeheader_row.
  destruct (write_rows_stops_at_first r rs header_row) as [msg ->]. by eexists.
Qed.

(** On an empty history the export writes the header row alone and
    returns the path. *)
Lemma export_csv_empty_history
    (dir filename : string) (w : worker TestResult.t history) (s s1 : os.fs)
    (mc : MetricsCollector.MetricsCollector) :
  os.makedirs dir true s = (s1, Ok tt) ->
  os.open_check (os.join dir filename) s1 = Ok tt ->
  export_csv
    {| output_dir := dir;
       thread := {| queue := queue w; stop_event := stop_event w; at_pc := at_pc w;
                    data := {| results := []; metrics := mc |} |} |}
    filename s
  = (os.write_file (os.join dir filename) os.W header_row s1, Ok (os.join dir filename)).
Proof.
  intros Hmk Hopen. unfold export_csv. cbn [output_dir thread data results].
  by rewrite Hmk, Hopen.
Qed.

End export_facts.

(** C1 (the code fails the claim).  [writerow] raises [ValueError] on the
    first outcome, because [asdict] always yields the keys request_headers,
    response_headers and validation_errors, which are not field names: with
    an outcome in the history [export_csv] never returns the path.  At the
    history of the single outcome t1, on an empty file system, the file is
    left with the header row alone. *)
Theorem export_csv_fails_on_outcomes :
  (forall (R : PyRuntime) (dir filename : string)
          (w : worker TestResult.t ReportGenerator.history) (s : os.fs)
          (r : TestResult.t) (rs : list TestResult.t)
          (mc : MetricsCollector.MetricsCollector),
      exists e,
        snd (ReportGenerator.export_csv
               {| ReportGenerator.output_dir := dir;
                  ReportGenerator.thread :=
                    {| queue := queue w; stop_event := stop_event w; at_pc := at_pc w;
                       data := {| ReportGenerator.results := r :: rs;
                                  ReportGenerator.metrics := mc |} |} |}
               filename s)
        = Raise e)
  /\
  (let t1 := {| TestResult.test_name := "t1";
                TestResult.test_class := "TestExampleAPI";
                TestResult.status := "SUCCESS";
                TestResult.execution_time := 0.5%float;
                TestResult.timestamp :=
                  {| year := 2024; month := 5; day := 17; hour := 9;
                     minute := 30; second := 0; microsecond := 0 |};
                TestResult.endpoint := "/users";
                TestResult.method := "GET";
                TestResult.response_code := Some 200;
                TestResult.error_message := None;
                TestResult.request_headers := None;
                TestResult.response_headers := None;
                TestResult.validation_errors := None |} in
   let self := {| ReportGenerator.output_dir := "reports";
                  ReportGenerator.thread :=
                    {| queue := []; stop_event := false; at_pc := AtTest;
                       data := {| ReportGenerator.results := [t1];
                                  ReportGenerator.metrics :=
                                    MetricsCollector.add_result t1 MetricsCollector.init |} |} |} in
   let out := @ReportGenerator.export_csv example_runtime self "test_report.csv"
                {| os.dirs := ∅; os.files := ∅ |} in
   snd out
   = Raise (ValueError "dict contains fields not in fieldnames: 'request_headers', 'response_headers', 'validation_errors'")
   /\ os.files (fst out) !! "reports/test_report.csv" = Some ReportGenerator.header_row).
Proof.
  split.
  - intros. apply export_csv_raises_on_any_outcome.
  - vm_compute. done.
Qed.

(** ** The log writer *)

Section log_writer_facts.
Import APILogger.

Lemma makedirs_empty_path (exist_ok : bool) (s : os.fs) :
  os.makedirs "" exist_ok s = (s, Raise (FileNotFoundError "")).
Proof.
  unfold os.makedirs. simpl. unfold os.isdir. simpl.
  by rewrite orb_true_r.
Qed.

(** A log file named without a directory: [os.makedirs('')] raises, the
    error is printed and nothing is written. *)
Lemma write_to_file_bare_name (log_file content : string) (s : os.fs) :
  os.dirname log_file = "" ->
  _write_to_file log_file content s
  = (s, Some "Error writing to log file: [Errno 2] No such file or directory: ''").
Proof.
  intros Hd. unfold _write_to_file. rewrite Hd, makedirs_empty_path. done.
Qed.

(** The writer on such a log file never changes the file system. *)
Lemma log_writer_bare_name_writes_nothing (log_file : string) (entries : list string) (o : output) :
  os.dirname log_file = "" ->
  disk (handle_all (write_entry log_file) entries o) = disk o.
Proof.
  intros Hd. revert o. induction entries as [|e entries IH]; intros o; simpl; [done|].
  rewrite IH. unfold write_entry. by rewrite write_to_file_bare_name.
Qed.

(** When the directory of the log file is there or can be made, and the
    file can be opened, the entry and a newline are appended. *)
Lemma write_to_file_appends (log_file content : string) (s s1 : os.fs) :
  os.makedirs (os.dirname log_file) true s = (s1, Ok tt) ->
  os.open_check log_file s1 = Ok tt ->
  _write_to_file log_file content s
  = (os.write_file log_file os.A (content +:+ NL) s1, None)
  /\ os.files (fst (_write_to_file log_file content s)) !! log_file
     = Some (default "" (os.files s1 !! log_file) +:+ content +:+ NL).
Proof.
  intros Hmk Hopen. unfold _write_to_file. rewrite Hmk, Hopen. simpl.
  split; [done|]. by rewrite lookup_insert_eq.
Qed.

End log_writer_facts.

(** C2 (the code fails the claim).  With the default log file
    "api_logs.txt", whose directory part is empty, [_write_to_file] appends
    nothing: [os.makedirs('')] raises [FileNotFoundError], which is caught
    and printed, for every entry and on every file system. *)
Theorem write_to_file_default_log_file (content : string) (s : os.fs) :
  APILogger._write_to_file "api_logs.txt" content s
  = (s, Some "Error writing to log file: [Errno 2] No such file or directory: ''").
Proof. by apply write_to_file_bare_name. Qed.

(** On a log file named without a directory the writer prints one error
    for each entry it handles. *)
Lemma log_writer_bare_name_prints (log_file : string) (entries : list string)
    (o : APILogger.output) :
  os.dirname log_file = "" ->
  length (APILogger.printed (handle_all (APILogger.write_entry log_file) entries o))
  = (length (APILogger.printed o) + length entries)%nat.
Proof.
  intros Hd. revert o. induction entries as [|entry entries IH]; intros o; simpl; [lia|].
  rewrite IH. unfold APILogger.write_entry.
  rewrite (write_to_file_bare_name _ _ _ Hd). simpl. rewrite length_app. simpl. lia.
Qed.

(** C5 (the code fails the claim for the log writer).  For every K items
    put on the queue of a started worker, in any interleaving with the
    worker's own actions, setting the stop event and joining the thread
    returns with the queue empty and each item handled once, in the order of
    the puts.  For the report generator the history is then exactly the K
    outcomes, as the claim says.  For the log writer on a log file named
    without a directory, as the default "api_logs.txt" is, the output holds
    none of the K entries: the file system is as it was before, and K errors
    have been printed. *)
Theorem stop_drains_queue :
  (forall (dir : string) (schedule : list (@action TestResult.t)),
      exists w,
        shutdown ReportGenerator.consume (2 * length (puts schedule) + 2)
                 (run ReportGenerator.consume schedule
                      (ReportGenerator.thread (ReportGenerator.new dir))) = Some w
        /\ at_pc w = Returned
        /\ queue w = []
        /\ ReportGenerator.results (data w) = puts schedule)
  /\
  (forall (log_file : string) (s : os.fs) (schedule : list (@action string)),
      os.dirname log_file = "" ->
      exists w,
        shutdown (APILogger.write_entry log_file) (2 * length (puts schedule) + 2)
                 (run (APILogger.write_entry log_file) schedule
                      (APILogger.thread (APILogger.new log_file s))) = Some w
        /\ at_pc w = Returned
        /\ queue w = []
        /\ APILogger.disk (data w) = s
        /\ length (APILogger.printed (data w)) = length (puts schedule))
  /\ os.dirname "api_logs.txt" = "".
Proof.
  split; [|split; [|reflexivity]].
  - intros. unfold ReportGenerator.new. cbn [ReportGenerator.thread].
    rewrite shutdown_handles_puts.
    eexists. split; [done|]. split; [done|]. split; [done|]. simpl.
    assert (Hresults : forall rs h,
               ReportGenerator.results (handle_all ReportGenerator.consume rs h)
               = ReportGenerator.results h ++ rs).
    { induction rs as [|r rs IH]; intros h; simpl; [by rewrite app_nil_r|].
      rewrite IH. simpl. by rewrite <- app_assoc. }
    by rewrite Hresults.
  - intros log_file s schedule Hd. unfold APILogger.new. cbn [APILogger.thread].
    rewrite shutdown_handles_puts.
    eexists. split; [done|]. split; [done|]. split; [done|]. cbn [data].
    split.
    + by rewrite log_writer_bare_name_writes_nothing.
    + by rewrite log_writer_bare_name_prints.
Qed.

(** A log file one directory down: three entries put while the writer
    runs, then the shutdown; the file holds the three lines in order. *)
Example log_writer_in_directory :
  let self := APILogger.new "logs/api.txt" {| os.dirs := ∅; os.files := ∅ |} in
  let schedule := [Put "first"; Step; Step; Put "second"; Step; Put "third"] in
  let body := APILogger.write_entry "logs/api.txt" in
  exists w,
    shutdown body (2 * length (puts schedule) + 2)
             (run body schedule (APILogger.thread self)) = Some w
    /\ queue w = []
    /\ os.files (APILogger.disk (data w)) !! "logs/api.txt"
       = Some ("first" +:+ APILogger.NL +:+ "second" +:+ APILogger.NL
               +:+ "third" +:+ APILogger.NL)
    /\ APILogger.printed (data w) = [].
Proof. eexists. vm_compute. done. Qed.

(** The same run with the default log file: nothing is written and the
    three errors are printed. *)
Example log_writer_default_log_file :
  let self := APILogger.new "api_logs.txt" {| os.dirs := ∅; os.files := ∅ |} in
  let schedule := [Put "first"; Step; Step; Put "second"; Step; Put "third"] in
  let body := APILogger.write_entry "api_logs.txt" in
  exists w,
    shutdown body (2 * length (puts schedule) + 2)
             (run body schedule (APILogger.thread self)) = Some w
    /\ queue w = []
    /\ os.files (APILogger.disk (data w)) = ∅
    /\ length (APILogger.printed (data w)) = 3%nat.
Proof. eexists. vm_compute. done. Qed.

(** A log file one directory down is written as the claim says. *)
Example write_to_file_in_directory :
  let s := {| os.dirs := ∅; os.files := ∅ |} in
  let s1 := fst (APILogger._write_to_file "logs/api.txt" "first" s) in
  let s2 := fst (APILogger._write_to_file "logs/api.txt" "second" s1) in
  os.files s1 !! "logs/api.txt" = Some ("first" +:+ APILogger.NL)
  /\ os.files s2 !! "logs/api.txt"
     = Some ("first" +:+ APILogger.NL +:+ "second" +:+ APILogger.NL).
Proof. vm_compute. done. Qed.

(** ** The validation pipeline of [api_test] *)

Section validation_facts.
Context `{PyRuntime} `{JsonSchema}.

(** C6.  A test configured with the status check for 200 and a schema check
    (no header check, no content check), whose request returns a response
    with status 404 and a body the validator rejects: both checks run, and
    the Assertions.outcome handed to the reporter has status FAILED and exactly two
    validation errors, the status mismatch and then the schema mismatch;
    the Assertions.wrapper raises the [AssertionError] of both. *)
Theorem failed_checks_accumulate
    (endpoint method func_name class_name : string)
    (property : string * json) (schema : list (string * json))
    (client : Assertions.Client) (request_params : option Assertions.Params) (clock : Assertions.Clock)
    (response : Assertions.Response) (body : json) (message : string)
    (reporter : ReportGenerator.ReportGenerator) :
  let t := {| Assertions.endpoint := endpoint; Assertions.method := method;
              Assertions.expected_status := 200;
              Assertions.expected_schema := Some (property :: schema);
              Assertions.expected_headers := None; Assertions.expected_content := None |} in
  client (lower method) endpoint (Assertions.or_empty request_params) = Ok response ->
  Assertions.status_code response = 404 ->
  Assertions.json response = Ok body ->
  jsonschema_validate body (property :: schema) = Raise (ValidationError message) ->
  let errors := ["Expected status code 200, got 404";
                 "JSON schema validation failed: " +:+ message] in
  exists test_result,
    Assertions.outcome t func_name class_name (Some client) (Ok request_params) clock
    = (Some test_result, Raise (AssertionError (str_join APILogger.NL errors)))
    /\ TestResult.status test_result = "FAILED"
    /\ TestResult.validation_errors test_result = Some errors
    /\ TestResult.response_code test_result = Some 404
    /\ fst (Assertions.wrapper t func_name class_name (Some client) (Ok request_params) clock reporter)
       = ReportGenerator.add_result test_result reporter.
Proof.
  intros t Hclient Hstatus Hjson Hvalid errors.
  assert (Hv : Assertions.perform_validations t response = Ok errors).
  { unfold Assertions.perform_validations, Assertions.validate_status_code, Assertions.validate_json_schema. simpl.
    rewrite Hstatus, Hjson, Hvalid. reflexivity. }
  unfold Assertions.wrapper, Assertions.outcome. cbn [Assertions.method Assertions.endpoint t].
  rewrite Hclient, Hv. simpl.
  eexists. split; [reflexivity|]. simpl. by rewrite Hstatus.
Qed.

End validation_facts.

Lemma failed_checks_accumulate_witness :
  let schema_rest :=
    [ ("properties", JDict [ ("id", JDict [("type", JStr "integer")]);
                             ("username", JDict [("type", JStr "string")]) ]);
      ("required", JList [JStr "id"; JStr "username"]) ] in
  let schema := ("type", JStr "object") :: schema_rest in
  let body := JDict [("detail", JStr "Not found")] in
  let response := {| Assertions.status_code := 404;
                     Assertions.headers := [("Content-Type", "application/json")];
                     Assertions.json := Ok body;
                     Assertions.request_headers := [("Accept", "*/*")] |} in
  let client : Assertions.Client := fun _ _ _ => Ok response in
  let clock := {| Assertions.utcnow :=
                    {| year := 2024; month := 5; day := 17; hour := 9;
                       minute := 30; second := 0; microsecond := 0 |};
                  Assertions.start_time := 10%float;
                  Assertions.end_time := 10.5%float |} in
  let t := {| Assertions.endpoint := "/users/7"; Assertions.method := "GET";
              Assertions.expected_status := 200;
              Assertions.expected_schema := Some schema;
              Assertions.expected_headers := None;
              Assertions.expected_content := None |} in
  let errors := ["Expected status code 200, got 404";
                 "JSON schema validation failed: " +:+ "'id' is a required property"] in
  (client (lower "GET") "/users/7" (Assertions.or_empty None) = Ok response
   /\ Assertions.status_code response = 404
   /\ Assertions.json response = Ok body
   /\ @jsonschema_validate example_validator body schema
      = Raise (ValidationError "'id' is a required property"))
  /\
  exists test_result,
    @Assertions.outcome example_runtime example_validator t "test_get_user"
      "TestExampleAPI" (Some client) (Ok None) clock
    = (Some test_result, Raise (AssertionError (str_join APILogger.NL errors)))
    /\ TestResult.status test_result = "FAILED"
    /\ TestResult.validation_errors test_result = Some errors
    /\ TestResult.response_code test_result = Some 404
    /\ fst (@Assertions.wrapper example_runtime example_validator t "test_get_user"
              "TestExampleAPI" (Some client) (Ok None) clock (ReportGenerator.new "reports"))
       = ReportGenerator.add_result test_result (ReportGenerator.new "reports").
Proof.
  intros schema_rest schema body response client clock t errors.
  split; [by repeat split|].
  exact (@failed_checks_accumulate example_runtime example_validator
           "/users/7" "GET" "test_get_user" "TestExampleAPI"
           ("type", JStr "object") schema_rest client None clock response body
           "'id' is a required property" (ReportGenerator.new "reports")
           eq_refl eq_refl eq_refl eq_refl).
Defined.

(** ** Occurrences of a string in a string *)

#[local] Arguments String.append !_ _ / : simpl nomatch.

Lemma string_app_assoc (a b c : string) : (a +:+ b) +:+ c = a +:+ (b +:+ c).
Proof. induction a as [|x a IH]; simpl; [done|]. by rewrite <- IH. Qed.

Lemma string_app_nil_r (a : string) : a +:+ "" = a.
Proof. induction a as [|x a IH]; simpl; [done|]. by rewrite IH. Qed.




















(** ** Masking of the sensitive headers *)

Section header_masking_facts.
Import APILogger.


(** The line of a sensitive header is its name and the marker. *)
Lemma format_header_sensitive (key value : string) :
  is_sensitive key = true -> format_header (key, value) = key +:+ ": *****".
Proof. intros Hk. unfold format_header. by rewrite Hk. Qed.

Lemma format_header_redact (kv : string * string) :
  format_header (fst kv, if is_sensitive (fst kv) then MASK else snd kv) = format_header kv.
Proof. destruct kv as [k v]. unfold format_header. simpl. by destruct (is_sensitive k). Qed.

(** The formatted headers are those of the redacted map: they do not
    depend on the value of a sensitive header. *)
Lemma format_headers_redact (headers : list (string * string)) :
  _format_headers (redact headers) = _format_headers headers.
Proof.
  unfold _format_headers, redact. rewrite map_map. f_equal.
  apply map_ext. intros kv. apply format_header_redact.
Qed.




End header_masking_facts.

Section entry_masking_facts.
Import APILogger.
Context `{PyRuntime}.

Lemma headers_part_redact (headers : list (string * string)) :
  headers_part (Some (redact headers)) = headers_part (Some headers).
Proof.
  destruct headers as [|h hs]; [done|].
  change (redact (h :: hs)) with (redact [h] ++ redact hs).
  cbn [redact map app headers_part].
  change ((fst h, if is_sensitive (fst h) then MASK else snd h) :: redact hs)
    with (redact (h :: hs)).
  by rewrite format_headers_redact.
Qed.




End entry_masking_facts.




(** ** Masking of the body fields *)

Section body_masking_facts.
Import APILogger.

Lemma set_if_absent (key : string) (v : json) (items : list (string * json)) :
  key ∉ map fst items -> map (set_if key v) items = items.
Proof.
  induction items as [|[k old] items IH]; intros Hk; simpl in *; [done|].
  rewrite not_elem_of_cons in Hk. destruct Hk as [Hne Hk].
  rewrite (IH Hk). unfold set_if. simpl.
  destruct (String.eqb_spec k key); [congruence|done].
Qed.

Lemma contains_key_false (key : string) (items : list (string * json)) :
  Json.contains_key items key = false -> key ∉ map fst items.
Proof.
  induction items as [|[k old] items IH]; simpl; [intros _; apply not_elem_of_nil|].
  intros [Hk Hrest]%orb_false_iff. apply not_elem_of_cons. split; [|by apply IH].
  destruct (String.eqb_spec k key); [done|congruence].
Qed.

(** On a dict, whose keys are distinct, the assignment [body[key] = v]
    guarded by [key in body] rewrites the one field of that name. *)
Lemma mask_step (key : string) (v : json) (items : list (string * json)) :
  NoDup (map fst items) ->
  (if Json.contains_key items key then Json.setitem items key v else items)
  = map (set_if key v) items.
Proof.
  intros Hnd. destruct (Json.contains_key items key) eqn:Hin.
  - induction items as [|[k old] items IH]; simpl in *; [done|].
    apply NoDup_cons in Hnd as [Hk Hnd]. unfold set_if at 1. simpl.
    destruct (String.eqb_spec k key) as [->|Hne].
    + by rewrite set_if_absent.
    + simpl in Hin. by rewrite IH.
  - symmetry. by apply set_if_absent, contains_key_false.
Qed.

Lemma set_if_keys (key : string) (v : json) (items : list (string * json)) :
  map fst (map (set_if key v) items) = map fst items.
Proof. rewrite map_map. by apply map_ext. Qed.

Lemma mask_field_set_if (kv : string * json) :
  set_if "api_key" (JStr MASK) (set_if "token" (JStr MASK) (set_if "password" (JStr MASK) kv))
  = mask_field kv.
Proof.
  destruct kv as [k v]. unfold set_if, mask_field, csv.mem, sensitive_fields. simpl.
  destruct (String.eqb k "password"), (String.eqb k "token"), (String.eqb k "api_key"); done.
Qed.

(** The loop over the three names masks exactly the top-level fields of
    these names and keeps every other field and the order. *)
Lemma mask_fields_map (items : list (string * json)) :
  NoDup (map fst items) -> mask_fields items = map mask_field items.
Proof.
  intros Hnd. unfold mask_fields, sensitive_fields. simpl.
  rewrite (mask_step "password") by done.
  rewrite (mask_step "token") by (by rewrite set_if_keys).
  rewrite (mask_step "api_key") by (by rewrite !set_if_keys).
  rewrite !map_map. apply map_ext. intros kv. apply mask_field_set_if.
Qed.

Lemma mask_field_idemp (kv : string * json) : mask_field (mask_field kv) = mask_field kv.
Proof.
  destruct kv as [k v]. unfold mask_field. cbn [fst snd].
  by destruct (csv.mem k sensitive_fields).
Qed.

Lemma mask_field_keys (items : list (string * json)) :
  map fst (map mask_field items) = map fst items.
Proof. rewrite map_map. by apply map_ext. Qed.

Context `{PyRuntime}.

Lemma format_body_dict (items : list (string * json)) :
  NoDup (map fst items) ->
  _format_body (JDict items)
  = match items with
    | [] => ""
    | _ => Json.dumps (JDict (map mask_field items))
    end.
Proof.
  intros Hnd. unfold _format_body. destruct items as [|kv items]; [done|].
  cbn [Json.truthy empty negb]. by rewrite mask_fields_map.
Qed.

Lemma body_part_masked (items : list (string * json)) :
  NoDup (map fst items) ->
  body_part (JDict (map mask_field items)) = body_part (JDict items).
Proof.
  intros Hnd. unfold body_part.
  rewrite !format_body_dict by (by rewrite ?mask_field_keys).
  assert (Hidemp : map mask_field (map mask_field items) = map mask_field items).
  { rewrite map_map. apply map_ext. intros ?. apply mask_field_idemp. }
  rewrite Hidemp. by destruct items.
Qed.

End body_masking_facts.

(** C4 (amended).  For every dict body passed to [log_request] or
    [log_response], each top-level field named password, token or api_key
    has its value replaced by the marker before the body is serialized, the
    other fields and the order being kept; the enqueued entry is the one of
    the masked body, so it does not depend on the original value of such a
    field.  A list body is serialized as it is. *)
Theorem top_level_fields_are_masked `{PyRuntime}
    (utcnow request_timestamp : datetime) (method url : string) (status_code : Z)
    (headers : option (list (string * string))) (items : list (string * json))
    (self : APILogger.APILogger) :
  NoDup (map fst items) ->
  APILogger._format_body (JDict items)
  = match items with
    | [] => ""
    | _ => Json.dumps (JDict (map APILogger.mask_field items))
    end
  /\ queue (APILogger.thread
              (fst (APILogger.log_request utcnow method url headers (JDict items) self)))
     = queue (APILogger.thread self)
       ++ [APILogger.request_entry utcnow method url headers
             (JDict (map APILogger.mask_field items))]
  /\ APILogger.log_response utcnow status_code headers (JDict items) request_timestamp self
     = APILogger.log_response utcnow status_code headers
         (JDict (map APILogger.mask_field items)) request_timestamp self
  /\ (forall elements : list json,
         APILogger._format_body (JList elements)
         = match elements with
           | [] => ""
           | _ => Json.dumps (JList elements)
           end).
Proof.
  intros Hnd. split; [by apply format_body_dict|]. split; [|split].
  - unfold APILogger.log_request, APILogger.request_entry. cbn [fst APILogger.thread put queue].
    by rewrite body_part_masked.
  - unfold APILogger.log_response, APILogger.response_entry.
    by rewrite body_part_masked.
  - by intros [|x xs].
Qed.

Lemma top_level_fields_are_masked_witness :
  let utcnow := {| year := 2024; month := 5; day := 17; hour := 9;
                   minute := 30; second := 1; microsecond := 250000 |} in
  let request_timestamp := {| year := 2024; month := 5; day := 17; hour := 9;
                              minute := 30; second := 0; microsecond := 0 |} in
  let items := [("username", JStr "testuser"); ("password", JStr "secretpass123");
                ("token", JStr "abc"); ("profile", JDict [("token", JStr "kept")])] in
  let self := APILogger.new "logs/api.txt" {| os.dirs := ∅; os.files := ∅ |} in
  NoDup (map fst items)
  /\
  (@APILogger._format_body example_runtime (JDict items)
   = match items with
     | [] => ""
     | _ => @Json.dumps example_runtime (JDict (map APILogger.mask_field items))
     end
   /\ queue (APILogger.thread
               (fst (@APILogger.log_request example_runtime utcnow "POST" "/auth/login"
                       None (JDict items) self)))
      = queue (APILogger.thread self)
        ++ [@APILogger.request_entry example_runtime utcnow "POST" "/auth/login" None
              (JDict (map APILogger.mask_field items))]
   /\ @APILogger.log_response example_runtime utcnow 200 None (JDict items)
        request_timestamp self
      = @APILogger.log_response example_runtime utcnow 200 None
          (JDict (map APILogger.mask_field items)) request_timestamp self
   /\ (forall elements : list json,
          @APILogger._format_body example_runtime (JList elements)
          = match elements with
            | [] => ""
            | _ => @Json.dumps example_runtime (JList elements)
            end)).
Proof.
  intros utcnow request_timestamp items self.
  assert (Hnd : NoDup (map fst items)).
  { apply (bool_decide_unpack _). vm_compute. exact I. }
  split; [exact Hnd|].
  exact (@top_level_fields_are_masked example_runtime utcnow request_timestamp
           "POST" "/auth/login" 200 None items self Hnd).
Defined.

(** C4 as stated fails: a password field inside a list body, or inside a
    dict nested in the body, keeps its value, and the entry holds it. *)
Lemma nested_password_is_logged :
  let utcnow := {| year := 2024; month := 5; day := 17; hour := 9;
                   minute := 30; second := 0; microsecond := 0 |} in
  let in_list := JList [JDict [("password", JStr "hunter2")]] in
  let in_dict := JDict [("user", JDict [("password", JStr "hunter2")])] in
  containsb "hunter2"
    (@APILogger.request_entry example_runtime utcnow "POST" "/users" None in_list) = true
  /\ containsb "*****"
       (@APILogger.request_entry example_runtime utcnow "POST" "/users" None in_list) = false
  /\ containsb "hunter2"
       (@APILogger.request_entry example_runtime utcnow "POST" "/users" None in_dict) = true
  /\ containsb "*****"
       (@APILogger.request_entry example_runtime utcnow "POST" "/users" None in_dict) = false.
Proof. vm_compute. done. Qed.

(** ** The caller's objects *)

Section heap_facts.
Import Heap.

Lemma mask_key_other (copy l : loc) (h : heap) (key : string) :
  l <> copy -> mask_key copy h key !! l = h !! l.
Proof.
  intros Hne. unfold mask_key.
  destruct (h !! copy) as [[items|items]|]; [|done..].
  destruct (Json.contains_key items key); [|done].
  by rewrite lookup_insert_ne.
Qed.

Lemma mask_keys_other (copy l : loc) (keys : list string) (h : heap) :
  l <> copy -> fold_left (mask_key copy) keys h !! l = h !! l.
Proof.
  intros Hne. revert h. induction keys as [|key keys IH]; intros h; simpl; [done|].
  by rewrite IH, mask_key_other.
Qed.

Lemma fresh_not_allocated (h : heap) (l : loc) (o : obj) :
  h !! l = Some o -> l <> fresh (dom h).
Proof.
  intros Hl ->. apply (is_fresh (dom h)). apply elem_of_dom. by eexists.
Qed.

Context `{PyRuntime}.

(** [_format_body] writes to the copy it allocates and to nothing else. *)
Lemma format_body_frame (body : val) (h : heap) (l : loc) (o : obj) :
  h !! l = Some o -> fst (_format_body body h) !! l = Some o.
Proof.
  intros Hl. unfold _format_body.
  destruct (truthy h body); [|done]. cbn [negb].
  destruct body as [| | | | |b]; try done.
  destruct (h !! b) as [[items|items]|]; [|done..]. cbn [fst].
  rewrite mask_keys_other by (by eapply fresh_not_allocated).
  rewrite lookup_insert_ne; [done|].
  intros Heq. by eapply fresh_not_allocated.
Qed.

Lemma headers_part_frame (headers : val) (h : heap) :
  fst (headers_part headers h) = h.
Proof.
  unfold headers_part, _format_headers.
  destruct headers; try done.
  destruct (truthy h (VRef l)); [|done].
  by destruct (read_headers h (VRef l)) as [[hs|]|].
Qed.

Lemma body_part_frame (body : val) (h : heap) (l : loc) (o : obj) :
  h !! l = Some o -> fst (body_part body h) !! l = Some o.
Proof.
  intros Hl. unfold body_part. destruct (truthy h body); [|done].
  pose proof (format_body_frame body h l o Hl) as Hf.
  by destruct (_format_body body h) as [h1 [text|e]].
Qed.

End heap_facts.

(** C10.  [log_request] and [log_response] leave every object of the heap
    as it was: the caller's header dict, the caller's body and whatever
    they refer to.  The masking writes to the copy that [body.copy()]
    allocates, and the headers are only read. *)
Theorem caller_objects_unchanged `{PyRuntime}
    (utcnow request_timestamp : datetime) (method url : string) (status_code : Z)
    (headers body : Heap.val) (h : gmap Heap.loc Heap.obj)
    (l : Heap.loc) (o : Heap.obj) :
  h !! l = Some o ->
  fst (Heap.log_request utcnow method url headers body h) !! l = Some o
  /\ fst (Heap.log_response utcnow status_code headers body request_timestamp h) !! l
     = Some o.
Proof.
  intros Hl. split.
  - unfold Heap.log_request.
    pose proof (headers_part_frame headers h) as Hh.
    destruct (Heap.headers_part headers h) as [h1 [hp|]]; simpl in Hh; subst h1; [|done].
    pose proof (body_part_frame body h l o Hl) as Hb.
    by destruct (Heap.body_part body h) as [h2 [bp|e]].
  - unfold Heap.log_response.
    destruct (APILogger.duration_ms utcnow request_timestamp) as [ms|e]; [|done].
    pose proof (headers_part_frame headers h) as Hh.
    destruct (Heap.headers_part headers h) as [h1 [hp|]]; simpl in Hh; subst h1; [|done].
    pose proof (body_part_frame body h l o Hl) as Hb.
    by destruct (Heap.body_part body h) as [h2 [bp|e]].
Qed.

Lemma caller_objects_unchanged_witness :
  let utcnow := {| year := 2024; month := 5; day := 17; hour := 9;
                   minute := 30; second := 1; microsecond := 250000 |} in
  let request_timestamp := {| year := 2024; month := 5; day := 17; hour := 9;
                              minute := 30; second := 0; microsecond := 0 |} in
  let body := Heap.ODict [("username", Heap.VStr "testuser");
                          ("password", Heap.VStr "secretpass123");
                          ("profile", Heap.VRef 3%positive)] in
  let h : gmap Heap.loc Heap.obj :=
    {[ 1%positive := Heap.ODict [("Authorization", Heap.VStr "Bearer abc")];
       2%positive := body;
       3%positive := Heap.ODict [("token", Heap.VStr "inner")] ]} in
  h !! 2%positive = Some body
  /\
  (fst (@Heap.log_request example_runtime utcnow "POST" "/auth/login"
          (Heap.VRef 1%positive) (Heap.VRef 2%positive) h) !! 2%positive = Some body
   /\ fst (@Heap.log_response example_runtime utcnow 200
             (Heap.VRef 1%positive) (Heap.VRef 2%positive) request_timestamp h)
      !! 2%positive = Some body).
Proof.
  intros utcnow request_timestamp body h.
  assert (Hl : h !! 2%positive = Some body) by (vm_compute; reflexivity).
  split; [exact Hl|].
  exact (@caller_objects_unchanged example_runtime utcnow request_timestamp
           "POST" "/auth/login" 200 (Heap.VRef 1%positive) (Heap.VRef 2%positive)
           h 2%positive body Hl).
Defined.

(** The run of the witness: the entry masks the password of the copy, the
    copy is the one new object, and the caller's dict still holds the
    password. *)
Example log_request_on_heap :
  let utcnow := {| year := 2024; month := 5; day := 17; hour := 9;
                   minute := 30; second := 0; microsecond := 0 |} in
  let body := Heap.ODict [("username", Heap.VStr "testuser");
                          ("password", Heap.VStr "secretpass123");
                          ("profile", Heap.VRef 3%positive)] in
  let h : gmap Heap.loc Heap.obj :=
    {[ 1%positive := Heap.ODict [("Authorization", Heap.VStr "Bearer abc")];
       2%positive := body;
       3%positive := Heap.ODict [("token", Heap.VStr "inner")] ]} in
  let out := @Heap.log_request example_runtime utcnow "POST" "/auth/login"
               (Heap.VRef 1%positive) (Heap.VRef 2%positive) h in
  snd out
  = Some (Ok (@APILogger.request_entry example_runtime utcnow "POST" "/auth/login"
                (Some [("Authorization", "Bearer abc")])
                (JDict [("username", JStr "testuser");
                        ("password", JStr "secretpass123");
                        ("profile", JDict [("token", JStr "inner")])])))
  /\ fst out !! 2%positive = Some body
  /\ fst out
     = <[ fresh (dom h) :=
            Heap.ODict [("username", Heap.VStr "testuser");
                        ("password", Heap.VStr "*****");
                        ("profile", Heap.VRef 3%positive)] ]> h.
Proof. vm_compute. done. Qed.

(** ** The logger on the heap computes the entry of the logger on values *)

Section heap_agreement.
Import Heap.

(** Reading a value succeeds again with more fuel and in a larger heap. *)
Lemma read_mono (n : nat) :
  forall (m : nat) (h h' : heap) (v : val) (j : json),
    read n h v = Some j -> (n <= m)%nat -> h ⊆ h' -> read m h' v = Some j.
Proof.
  induction n as [|n IH]; intros m h h' v j Hread Hnm Hsub.
  - destruct v; simpl in Hread; try done; by destruct m.
  - destruct v as [| | | | |l]; simpl in Hread; try (by destruct m).
    destruct m as [|m]; [lia|]. simpl.
    destruct (h !! l) as [o|] eqn:Hl; [|done].
    rewrite (lookup_weaken h h' l o Hl Hsub).
    destruct o as [items|items].
    + destruct (mapM _ items) as [js|] eqn:Hitems; [|done].
      apply mapM_Some in Hitems.
      erewrite (proj2 (mapM_Some _ items js)); [done|].
      eapply Forall2_impl; [exact Hitems|]. intros kv kv' Hkv. simpl in *.
      destruct (read n h kv.2) as [j'|] eqn:Hj; [|done].
      by rewrite (IH m h h' _ j' Hj) by (done || lia).
    + destruct (mapM _ items) as [js|] eqn:Hitems; [|done].
      apply mapM_Some in Hitems.
      erewrite (proj2 (mapM_Some _ items js)); [done|].
      eapply Forall2_impl; [exact Hitems|]. intros x y Hx.
      apply (IH m h h'); done || lia.
Qed.

Lemma reads_as_keys (n : nat) (h : heap) items js :
  Forall2 (reads_as n h) items js -> map fst items = map fst js.
Proof.
  induction 1 as [|[k v] [k' j] items js Hkv _ IH]; simpl; [done|].
  unfold reads_as in Hkv. simpl in Hkv.
  destruct (read n h v); [|done]. injection Hkv as -> _. by rewrite IH.
Qed.

Lemma reads_as_contains_key (n : nat) (h : heap) items js (key : string) :
  Forall2 (reads_as n h) items js ->
  Json.contains_key items key = Json.contains_key js key.
Proof.
  induction 1 as [|[k v] [k' j] items js Hkv _ IH]; simpl; [done|].
  unfold reads_as in Hkv. simpl in Hkv.
  destruct (read n h v); [|done]. injection Hkv as -> _. by rewrite IH.
Qed.

Lemma reads_as_setitem (n : nat) (h : heap) items js (key : string) :
  Forall2 (reads_as n h) items js ->
  Forall2 (reads_as n h)
    (Json.setitem items key (VStr APILogger.MASK))
    (Json.setitem js key (JStr APILogger.MASK)).
Proof.
  induction 1 as [|[k v] [k' j] items js Hkv Hrest IH]; simpl.
  - constructor; [|constructor]. unfold reads_as. simpl. by destruct n.
  - assert (k' = k) as ->.
    { unfold reads_as in Hkv. simpl in Hkv. destruct (read n h v); [|done].
      by injection Hkv as -> _. }
    destruct (String.eqb k key).
    + constructor; [|done]. unfold reads_as. simpl. by destruct n.
    + by constructor.
Qed.

Lemma mask_keys_insert (copy : loc) (keys : list string) (h : heap) items :
  fold_left (mask_key copy) keys (<[copy := ODict items]> h)
  = <[copy := ODict (fold_left mask_item_step keys items)]> h.
Proof.
  revert items. induction keys as [|key keys IH]; intros items; simpl; [done|].
  unfold mask_key at 2. rewrite lookup_insert_eq. unfold mask_item_step at 2.
  destruct (Json.contains_key items key); [|apply IH].
  rewrite insert_insert_eq. apply IH.
Qed.

Lemma reads_as_mask_fields (n : nat) (h : heap) items js :
  Forall2 (reads_as n h) items js ->
  Forall2 (reads_as n h)
    (fold_left mask_item_step APILogger.sensitive_fields items)
    (APILogger.mask_fields js).
Proof.
  unfold APILogger.mask_fields.
  generalize APILogger.sensitive_fields as keys. intros keys. revert items js.
  induction keys as [|key keys IH]; intros items js Hrel; simpl; [done|].
  apply IH. unfold mask_item_step.
  rewrite (reads_as_contains_key n h items js key Hrel).
  destruct (Json.contains_key js key); [|done].
  by apply reads_as_setitem.
Qed.

Lemma read_ref (n : nat) (h : heap) (l : loc) :
  read (S n) h (VRef l)
  = match h !! l with
    | Some (ODict items) =>
        JDict <$> mapM (fun kv => pair (fst kv) <$> read n h (snd kv)) items
    | Some (OList items) => JList <$> mapM (read n h) items
    | None => None
    end.
Proof. reflexivity. Qed.

Lemma read_dict (n : nat) (h : heap) (l : loc) items (j : json) :
  h !! l = Some (ODict items) ->
  read (S n) h (VRef l) = Some j ->
  exists js, j = JDict js /\ Forall2 (reads_as n h) items js.
Proof.
  intros Hl Hread. simpl in Hread. rewrite Hl in Hread.
  destruct (mapM _ items) as [js|] eqn:Hitems; [|done].
  injection Hread as <-. exists js. split; [done|].
  by apply mapM_Some in Hitems.
Qed.

Lemma read_truthy (n : nat) (h : heap) (v : val) (j : json) :
  read (S n) h v = Some j -> truthy h v = Json.truthy j.
Proof.
  destruct v as [| | | | |l]; simpl; try (by intros [= <-]).
  destruct (h !! l) as [[items|items]|]; [| |done].
  - destruct (mapM _ items) as [js|] eqn:Hitems; [|done]. intros [= <-]. simpl.
    apply mapM_Some, Forall2_length in Hitems. by destruct items, js.
  - destruct (mapM _ items) as [js|] eqn:Hitems; [|done]. intros [= <-]. simpl.
    apply mapM_Some, Forall2_length in Hitems. by destruct items, js.
Qed.

Context `{PyRuntime}.

(** [_format_body] on the heap returns the text of [_format_body] on the
    value the body denotes. *)
Lemma heap_format_body (body : val) (h : heap) (j : json) :
  read (S (size h)) h body = Some j ->
  snd (_format_body body h) = Ok (APILogger._format_body j).
Proof.
  intros Hread. unfold _format_body, APILogger._format_body.
  rewrite (read_truthy _ _ _ _ Hread).
  destruct (Json.truthy j) eqn:Htruthy; [|done]. cbn [negb].
  destruct body as [| | | | |l]; try (by injection Hread as <-).
  destruct (h !! l) as [[items|items]|] eqn:Hl.
  - destruct (read_dict _ _ _ _ _ Hl Hread) as (js & -> & Hitems).
    rewrite mask_keys_insert. cbn [snd]. unfold dumps.
    assert (Hfresh : h !! fresh (dom h) = None).
    { apply not_elem_of_dom, is_fresh. }
    rewrite map_size_insert_None by done.
    rewrite read_ref, lookup_insert_eq.
    erewrite (proj2 (mapM_Some _ _ (APILogger.mask_fields js))); [done|].
    eapply Forall2_impl; [apply (reads_as_mask_fields _ _ _ _ Hitems)|].
    intros kv kv' Hkv. unfold reads_as in Hkv. simpl in Hkv.
    destruct (read (size h) h kv.2) as [j'|] eqn:Hj; [|done].
    rewrite (read_mono _ (S (size h)) h _ _ j' Hj); [done|lia|].
    by apply insert_subseteq.
  - cbn [snd]. unfold dumps. rewrite Hread.
    simpl in Hread. rewrite Hl in Hread.
    destruct (mapM _ items); [|done]. by injection Hread as <-.
  - simpl in Hread. by rewrite Hl in Hread.
Qed.

Lemma heap_headers_part (headers : val) (h : heap) (hs : option (list (string * string))) :
  read_headers h headers = Some hs ->
  headers_part headers h = (h, Some (APILogger.headers_part hs)).
Proof.
  unfold read_headers, headers_part, _format_headers.
  destruct headers as [| | | | |l]; try done; [by intros [= <-]|].
  unfold truthy, read_headers.
  destruct (h !! l) as [[items|items]|]; [|done..].
  destruct (str_items items) as [hs'|] eqn:Hitems; [|done].
  intros [= <-]. simpl.
  destruct items as [|[k v] items]; simpl in *.
  - by injection Hitems as <-.
  - destruct v; try done. destruct (str_items items); [|done].
    by injection Hitems as <-.
Qed.

Lemma heap_body_part (body : val) (h : heap) (j : json) :
  read (S (size h)) h body = Some j ->
  snd (body_part body h) = Ok (APILogger.body_part j).
Proof.
  intros Hread. unfold body_part, APILogger.body_part.
  rewrite (read_truthy _ _ _ _ Hread).
  pose proof (heap_format_body body h j Hread) as Hf.
  destruct (Json.truthy j); [|done].
  destruct (_format_body body h) as [h1 [text|e]]; simpl in Hf; [|done].
  by injection Hf as ->.
Qed.

(** The entry [log_request] enqueues, computed on the caller's objects, is
    the entry computed on the values they denote. *)
Lemma heap_log_request (utcnow : datetime) (method url : string) (headers body : val)
    (h : heap) (hs : option (list (string * string))) (j : json) :
  read_headers h headers = Some hs ->
  read (S (size h)) h body = Some j ->
  snd (log_request utcnow method url headers body h)
  = Some (Ok (APILogger.request_entry utcnow method url hs j)).
Proof.
  intros Hhs Hbody. unfold log_request.
  rewrite (heap_headers_part _ _ _ Hhs).
  pose proof (heap_body_part body h j Hbody) as Hb.
  destruct (body_part body h) as [h2 [bp|e]]; simpl in Hb; [|done].
  by injection Hb as ->.
Qed.

Lemma heap_log_response (utcnow : datetime) (status_code : Z) (headers body : val)
    (request_timestamp : datetime) (h : heap)
    (hs : option (list (string * string))) (j : json) :
  read_headers h headers = Some hs ->
  read (S (size h)) h body = Some j ->
  snd (log_response utcnow status_code headers body request_timestamp h)
  = Some (APILogger.response_entry utcnow status_code hs j request_timestamp).
Proof.
  intros Hhs Hbody. unfold log_response, APILogger.response_entry.
  destruct (APILogger.duration_ms utcnow request_timestamp) as [ms|e]; [|done].
  rewrite (heap_headers_part _ _ _ Hhs).
  pose proof (heap_body_part body h j Hbody) as Hb.
  destruct (body_part body h) as [h2 [bp|e]]; simpl in Hb; [|done].
  by injection Hb as ->.
Qed.

End heap_agreement.


(** * Further properties of the code *)

(** ** The aggregator after a history *)

Section history_facts.
Import TestResult MetricsCollector History.

Lemma status_codes_handle_all (c : Z) (rs : list TestResult.t) (mc : MetricsCollector) :
  default 0 (status_codes (handle_all add_result rs mc) !! c)
  = default 0 (status_codes mc !! c) + Z.of_nat (length (with_code c rs))
  /\ (is_Some (status_codes (handle_all add_result rs mc) !! c)
      <-> is_Some (status_codes mc !! c) \/ with_code c rs <> []).
Proof.
  revert mc. induction rs as [|r rs IH]; intros mc.
  - simpl. split; [lia|]. split; [by left|]. by intros [?|?].
  - change (handle_all add_result (r :: rs) mc)
      with (handle_all add_result rs (add_result r mc)).
    destruct (IH (add_result r mc)) as [Hv Hd]. clear IH.
    rewrite Hv, Hd. clear Hv Hd.
    unfold with_code. cbn [List.filter add_result status_codes].
    destruct (response_code r) as [c'|]; [|split; [lia|done]].
    destruct (Z.eqb_spec c' 0) as [->|Hc']; cbn [negb andb]; [split; [lia|done]|].
    destruct (decide (c' = c)) as [->|Hne].
    + rewrite lookup_insert_eq, Z.eqb_refl. cbn [negb andb length default id]. split; [lia|].
      split; intros _; [by right|]. left. by eexists.
    + rewrite lookup_insert_ne by done.
      destruct (Z.eqb_spec c' c); [done|]. split; [lia|done].
Qed.

(** X1.  After a history is ingested into an empty aggregator, the bucket of
    a status code holds the number of outcomes with that code, and a code no
    outcome has is not a key.  An outcome without a code, or with the code
    0, fills no bucket. *)
Theorem status_code_histogram (rs : list TestResult.t) (c : Z) :
  status_codes (handle_all add_result rs init) !! c
  = match with_code c rs with
    | [] => None
    | hits => Some (Z.of_nat (length hits))
    end.
Proof.
  destruct (status_codes_handle_all c rs init) as [Hval Hdom].
  simpl in Hval, Hdom. rewrite lookup_empty in Hval, Hdom. simpl in Hval.
  destruct (with_code c rs) as [|hit hits] eqn:Hhits.
  - destruct (status_codes _ !! c) as [n|] eqn:Hl; [|done].
    destruct (proj1 Hdom) as [[? ?]|?]; by eauto.
  - destruct (status_codes _ !! c) as [n|] eqn:Hl.
    + simpl in Hval. by rewrite Hval.
    + destruct (proj2 Hdom) as [? ?]; [by right|done].
Qed.


Lemma response_times_handle_all (key : string) (rs : list TestResult.t) (mc : MetricsCollector) :
  response_times (handle_all add_result rs mc) !! key
  = match response_times mc !! key, samples key rs with
    | None, [] => None
    | old, ts => Some (default [] old ++ ts)
    end.
Proof.
  revert mc. induction rs as [|r rs IH]; intros mc.
  - simpl. destruct (response_times mc !! key); simpl; [by rewrite app_nil_r|done].
  - change (handle_all add_result (r :: rs) mc)
      with (handle_all add_result rs (add_result r mc)).
    rewrite IH. clear IH. unfold samples. cbn [List.filter add_result response_times].
    destruct (String.eqb_spec (endpoint_key r) key) as [<-|Hne].
    + rewrite lookup_insert_eq. simpl.
      destruct (response_times mc !! endpoint_key r); simpl.
      * by rewrite <- app_assoc.
      * done.
    + by rewrite lookup_insert_ne.
Qed.

(** X2.  After a history is ingested into an empty aggregator, the samples
    kept under an endpoint key are the execution times of the outcomes made
    on that method and endpoint, in the order of the history; a key no
    outcome has is absent. *)
Theorem endpoint_samples (rs : list TestResult.t) (key : string) :
  response_times (handle_all add_result rs init) !! key
  = match samples key rs with
    | [] => None
    | ts => Some ts
    end.
Proof.
  rewrite response_times_handle_all. simpl. rewrite lookup_empty.
  by destruct (samples key rs).
Qed.

Lemma counters_handle_all (rs : list TestResult.t) (mc : MetricsCollector) :
  total_tests (handle_all add_result rs mc) = total_tests mc + Z.of_nat (length rs)
  /\ passed_tests (handle_all add_result rs mc)
     = passed_tests mc + Z.of_nat (length (with_status "SUCCESS" rs))
  /\ failed_tests (handle_all add_result rs mc)
     = failed_tests mc + Z.of_nat (length (with_status "FAILED" rs))
  /\ error_tests (handle_all add_result rs mc)
     = error_tests mc + Z.of_nat (length (with_other_status rs)).
Proof.
  revert mc. induction rs as [|r rs IH]; intros mc.
  - simpl. lia.
  - change (handle_all add_result (r :: rs) mc)
      with (handle_all add_result rs (add_result r mc)).
    destruct (IH (add_result r mc)) as (-> & -> & -> & ->). clear IH.
    unfold with_status, with_other_status.
    cbn [List.filter add_result total_tests passed_tests failed_tests error_tests].
    destruct (String.eqb_spec (status r) "SUCCESS") as [E|E].
    + rewrite E. cbn [String.eqb Ascii.eqb Bool.eqb negb andb length]. simpl. lia.
    + destruct (String.eqb_spec (status r) "FAILED"); cbn [negb andb length]; lia.
Qed.

(** X3.  After a history is ingested into an empty aggregator, passed is the
    number of its outcomes with status SUCCESS, failed the number with status
    FAILED, error the number with any other status, and total its length. *)
Theorem counters_count_statuses (rs : list TestResult.t) :
  let mc := handle_all add_result rs init in
  total_tests mc = Z.of_nat (length rs)
  /\ passed_tests mc = Z.of_nat (length (with_status "SUCCESS" rs))
  /\ failed_tests mc = Z.of_nat (length (with_status "FAILED" rs))
  /\ error_tests mc = Z.of_nat (length (with_other_status rs)).
Proof.
  intros mc. subst mc.
  destruct (counters_handle_all rs init) as (-> & -> & -> & ->). simpl. lia.
Qed.

Lemma averages_are_means (items : list (string * list float)) :
  Forall (fun kv : string * list float => kv.2 <> []) items ->
  averages items = Ok (prod_map id mean <$> items).
Proof.
  induction 1 as [|[k times] items Hk _ IH]; simpl; [done|].
  by rewrite (average_nonempty times Hk), IH.
Qed.

(** X4.  The snapshot of an aggregator that has ingested a history returns,
    and its average_response_times holds, for each endpoint key of the
    history, the mean of the samples of that key (their sum from the left,
    divided by their number), and no other key. *)
Theorem snapshot_averages (rs : list TestResult.t) :
  exists m,
    get_metrics (handle_all add_result rs init) = Ok m
    /\ forall key,
         m_average_response_times m !! key
         = match samples key rs with
           | [] => None
           | ts => Some (mean ts)
           end.
Proof.
  set (mc := handle_all add_result rs init).
  assert (Hmc : samples_nonempty mc)
    by apply handle_all_samples_nonempty, init_samples_nonempty.
  destruct (get_metrics_returns mc Hmc) as (rate & avgs & _ & Havgs & ->).
  { apply handle_all_passed_bound, init_passed_bound. }
  eexists. split; [done|]. intros key. cbn [m_average_response_times].
  rewrite averages_are_means in Havgs.
  2:{ apply Forall_forall. intros [k times] Hin. simpl.
      apply (Hmc k). by apply elem_of_map_to_list. }
  injection Havgs as <-.
  rewrite list_to_map_fmap, list_to_map_to_list, lookup_fmap.
  unfold mc. rewrite endpoint_samples. by destruct (samples key rs).
Qed.

End history_facts.

(** ** The report worker at any time *)

Section report_worker_facts.
Import TestResult MetricsCollector ReportGenerator.

Lemma consume_invariant (events : list (@event TestResult.t))
    (w : worker TestResult.t history) :
  metrics (data w) = handle_all MetricsCollector.add_result (results (data w)) init ->
  results (data (run_events consume events w)) ++ queue (run_events consume events w)
  = (results (data w) ++ queue w) ++ submitted events
  /\ metrics (data (run_events consume events w))
     = handle_all MetricsCollector.add_result
         (results (data (run_events consume events w))) init.
Proof.
  revert w. induction events as [|e events IH]; intros w Hw.
  - simpl. by rewrite app_nil_r.
  - destruct e as [[item|]|].
    + change (run_events consume (Do (Put item) :: events) w)
        with (run_events consume events (put item w)).
      destruct (IH (put item w)) as [Hq Hm]; [done|].
      rewrite Hq. split; [|done]. simpl. by rewrite <- !app_assoc.
    + change (run_events consume (Do Step :: events) w)
        with (run_events consume events (worker_step consume w)).
      assert (Hstep :
        results (data (worker_step consume w)) ++ queue (worker_step consume w)
        = results (data w) ++ queue w
        /\ metrics (data (worker_step consume w))
           = handle_all MetricsCollector.add_result
               (results (data (worker_step consume w))) init).
      { unfold worker_step. destruct (at_pc w); simpl; [done| |done].
        destruct (queue w) as [|item q]; simpl; [done|].
        split; [by rewrite <- app_assoc|].
        rewrite (handle_all_app MetricsCollector.add_result). simpl. by rewrite Hw. }
      destruct Hstep as [Hq Hm].
      destruct (IH (worker_step consume w) Hm) as [Hq' Hm'].
      rewrite Hq'. split; [|done]. by rewrite Hq.
    + change (run_events consume (SetStop :: events) w)
        with (run_events consume events (set_stop w)).
      destruct (IH (set_stop w)) as [Hq Hm]; [done|]. by rewrite Hq.
Qed.

(** One event keeps the invariant of the statement-level worker. *)
Lemma process_queue_invariant (events : list (@event TestResult.t))
    (w : ProcessQueue.state) (before : list TestResult.t) :
  match ProcessQueue.at_pc w with
  | ProcessQueue.Got r =>
      ProcessQueue.results w ++ r :: ProcessQueue._queue w = before
      /\ ProcessQueue.metrics w
         = handle_all MetricsCollector.add_result (ProcessQueue.results w) init
  | ProcessQueue.Appended r =>
      exists counted,
        ProcessQueue.results w = counted ++ [r]
        /\ ProcessQueue.results w ++ ProcessQueue._queue w = before
        /\ ProcessQueue.metrics w = handle_all MetricsCollector.add_result counted init
  | _ =>
      ProcessQueue.results w ++ ProcessQueue._queue w = before
      /\ ProcessQueue.metrics w
         = handle_all MetricsCollector.add_result (ProcessQueue.results w) init
  end ->
  let w' := ProcessQueue.run_events events w in
  match ProcessQueue.at_pc w' with
  | ProcessQueue.Got r =>
      ProcessQueue.results w' ++ r :: ProcessQueue._queue w' = before ++ submitted events
      /\ ProcessQueue.metrics w'
         = handle_all MetricsCollector.add_result (ProcessQueue.results w') init
  | ProcessQueue.Appended r =>
      exists counted,
        ProcessQueue.results w' = counted ++ [r]
        /\ ProcessQueue.results w' ++ ProcessQueue._queue w' = before ++ submitted events
        /\ ProcessQueue.metrics w' = handle_all MetricsCollector.add_result counted init
  | _ =>
      ProcessQueue.results w' ++ ProcessQueue._queue w' = before ++ submitted events
      /\ ProcessQueue.metrics w'
         = handle_all MetricsCollector.add_result (ProcessQueue.results w') init
  end.
Proof.
  revert w before. induction events as [|e events IH]; intros w before Hw.
  - cbn [ProcessQueue.run_events fold_left submitted]. rewrite app_nil_r. exact Hw.
  - change (ProcessQueue.run_events (e :: events) w)
      with (ProcessQueue.run_events events (ProcessQueue.occur w e)).
    destruct e as [[item|]|].
    + change (submitted (Do (Put item) :: events)) with (item :: submitted events).
      replace (before ++ item :: submitted events)
        with ((before ++ [item]) ++ submitted events) by (by rewrite <- app_assoc).
      apply IH. cbn [ProcessQueue.occur ProcessQueue.add_result ProcessQueue.at_pc
                     ProcessQueue.results ProcessQueue._queue ProcessQueue.metrics].
      destruct (ProcessQueue.at_pc w).
      1,2,5: destruct Hw as [<- Hm]; split; [by rewrite app_assoc|done].
      * destruct Hw as [<- Hm]. split; [|done].
        by rewrite <- !app_assoc.
      * destruct Hw as (counted & Hr & <- & Hm). exists counted.
        split; [done|]. split; [by rewrite app_assoc|done].
    + change (submitted (Do Step :: events)) with (submitted events).
      apply IH. unfold ProcessQueue.occur, ProcessQueue.step.
      destruct (ProcessQueue.at_pc w) eqn:Hpc.
      * cbn [ProcessQueue.at_pc ProcessQueue.results ProcessQueue._queue
             ProcessQueue.metrics].
        by destruct (negb (ProcessQueue._stop_event w)
                     || negb (empty (ProcessQueue._queue w))).
      * destruct (ProcessQueue._queue w) as [|item q] eqn:Hq;
          cbn [ProcessQueue.at_pc ProcessQueue.results ProcessQueue._queue
               ProcessQueue.metrics]; done.
      * cbn [ProcessQueue.at_pc ProcessQueue.results ProcessQueue._queue
             ProcessQueue.metrics].
        destruct Hw as [<- Hm]. exists (ProcessQueue.results w).
        split; [done|]. split; [by rewrite <- app_assoc|done].
      * cbn [ProcessQueue.at_pc ProcessQueue.results ProcessQueue._queue
             ProcessQueue.metrics].
        destruct Hw as (counted & Hr & <- & Hm). split; [done|].
        rewrite Hr, (handle_all_app MetricsCollector.add_result), Hm. done.
      * by rewrite Hpc.
    + change (submitted (SetStop :: events)) with (submitted events).
      apply IH. cbn [ProcessQueue.occur ProcessQueue.set_stop ProcessQueue.at_pc
                     ProcessQueue.results ProcessQueue._queue ProcessQueue.metrics].
      exact Hw.
Qed.

(** X5.  At every point of a report generator's life between two statements
    of its worker, under any interleaving of submissions, worker statements
    and the stop event: the outcome history, the outcome the worker has
    taken off the queue and not yet appended (if any) and the queue are
    together the sequence of the submitted outcomes, so nothing is lost,
    duplicated or reordered; and the aggregator is the one of the history,
    or of the history without its last outcome while the worker is between
    appending that outcome and ingesting it. *)
Theorem report_history_in_step (events : list (@event TestResult.t)) :
  let w := ProcessQueue.run_events events ProcessQueue.new in
  match ProcessQueue.at_pc w with
  | ProcessQueue.Got r =>
      ProcessQueue.results w ++ r :: ProcessQueue._queue w = submitted events
      /\ ProcessQueue.metrics w
         = handle_all MetricsCollector.add_result (ProcessQueue.results w) init
  | ProcessQueue.Appended r =>
      exists counted,
        ProcessQueue.results w = counted ++ [r]
        /\ ProcessQueue.results w ++ ProcessQueue._queue w = submitted events
        /\ ProcessQueue.metrics w = handle_all MetricsCollector.add_result counted init
  | _ =>
      ProcessQueue.results w ++ ProcessQueue._queue w = submitted events
      /\ ProcessQueue.metrics w
         = handle_all MetricsCollector.add_result (ProcessQueue.results w) init
  end.
Proof.
  exact (process_queue_invariant events ProcessQueue.new [] (conj eq_refl eq_refl)).
Qed.

End report_worker_facts.

(** X6.  Without the stop event neither loop returns: joining the thread of
    a worker whose stop event is not set does not come back, however long
    the worker runs and even on an empty queue. *)
Theorem join_without_stop_blocks {Item Data : Type} (body : Item -> Data -> Data)
    (fuel : nat) (w : worker Item Data) :
  stop_event w = false -> at_pc w <> Returned ->
  join_thread body fuel w = None.
Proof.
  revert w. induction fuel as [|fuel IH]; intros w Hs Hp.
  - simpl. by destruct (at_pc w).
  - simpl. destruct (at_pc w) eqn:Hpc; [| |done].
    + apply IH; unfold worker_step; rewrite Hpc; simpl; [done|]. by rewrite Hs.
    + apply IH; unfold worker_step; rewrite Hpc; by destruct (queue w).
Qed.

Lemma join_without_stop_blocks_witness :
  let w := ReportGenerator.thread (ReportGenerator.new "reports") in
  (stop_event w = false /\ at_pc w <> Returned)
  /\ join_thread ReportGenerator.consume 1000 w = None.
Proof.
  intros w. split; [by split|].
  exact (join_without_stop_blocks ReportGenerator.consume 1000 w eq_refl
           ltac:(discriminate)).
Defined.

(** ** The file system under the exports and the log writer *)

Lemma mkdir_frame (p : string) (s s' : os.fs) :
  os.mkdir p s = Ok s' ->
  os.files s' = os.files s /\ os.dirs s' = {[p]} ∪ os.dirs s.
Proof.
  unfold os.mkdir. destruct (os.is_empty p); [done|].
  destruct (os.exists_ s p); [done|].
  destruct (os.parent_check s p); [|done]. by intros [= <-].
Qed.

(** [os.makedirs] adds directories and nothing else: no file changes and
    no directory goes away, whether it returns or raises. *)
Lemma makedirs_rec_frame (fuel : nat) :
  forall (name : string) (exist_ok : bool) (s : os.fs),
    os.files (fst (os.makedirs_rec fuel name exist_ok s)) = os.files s
    /\ os.dirs s ⊆ os.dirs (fst (os.makedirs_rec fuel name exist_ok s)).
Proof.
  induction fuel as [|fuel IH]; intros name exist_ok s; [done|].
  assert (Hmk : forall s1 : os.fs,
             os.files s1 = os.files s -> os.dirs s ⊆ os.dirs s1 ->
             let out := match os.mkdir name s1 with
                        | Ok s2 => (s2, Ok tt)
                        | Raise e =>
                            if is_IOError e
                               && negb (negb exist_ok || negb (os.isdir s1 name))
                            then (s1, Ok tt) else (s1, Raise e)
                        end in
             os.files (fst out) = os.files s /\ os.dirs s ⊆ os.dirs (fst out)).
  { intros s1 Hf Hd. destruct (os.mkdir name s1) as [s2|e] eqn:Hm; simpl.
    - apply mkdir_frame in Hm as [-> ->]. split; [done|set_solver].
    - by destruct (is_IOError e && _). }
  cbn [os.makedirs_rec].
  destruct (os.split name) as [head tail].
  destruct (if os.is_empty tail then os.split head else (head, tail)) as [head' tail'].
  destruct (negb (os.is_empty head') && negb (os.is_empty tail')
            && negb (os.exists_ s head')); [|by apply Hmk].
  destruct (IH head' exist_ok s) as [Hf Hd].
  destruct (os.makedirs_rec fuel head' exist_ok s) as [s1 r]. simpl in Hf, Hd.
  destruct r as [[]|e].
  - destruct (String.eqb tail' "."); [done|by apply Hmk].
  - destruct e; try done.
    destruct (String.eqb tail' "."); [done|by apply Hmk].
Qed.

Lemma makedirs_frame (name : string) (exist_ok : bool) (s : os.fs) :
  os.files (fst (os.makedirs name exist_ok s)) = os.files s
  /\ os.dirs s ⊆ os.dirs (fst (os.makedirs name exist_ok s)).
Proof. apply makedirs_rec_frame. Qed.

Lemma split_at_last_sep_bare (p : string) :
  has_char "/" p = false -> os.split_at_last_sep p = ("", p).
Proof.
  induction p as [|c p IH]; simpl; [done|].
  intros [Hc Hp]%orb_false_iff. rewrite (IH Hp). unfold os.sep. by rewrite Hc.
Qed.

Lemma split_bare (p : string) : has_char "/" p = false -> os.split p = ("", p).
Proof. intros Hp. unfold os.split. by rewrite split_at_last_sep_bare. Qed.

Lemma dirname_bare (p : string) : has_char "/" p = false -> os.dirname p = "".
Proof. intros Hp. unfold os.dirname. by rewrite split_bare. Qed.


Section writer_facts.
Import APILogger.

(** One call of [_write_to_file]: directories are only added, and the
    files are as before or the log file has grown by the line. *)
Lemma write_to_file_effect (log_file content : string) (s : os.fs) :
  os.dirs s ⊆ os.dirs (fst (_write_to_file log_file content s))
  /\ (os.files (fst (_write_to_file log_file content s)) = os.files s
      \/ os.files (fst (_write_to_file log_file content s))
         = <[log_file := default "" (os.files s !! log_file) +:+ content +:+ NL]>
             (os.files s)).
Proof.
  unfold _write_to_file.
  destruct (makedirs_frame (os.dirname log_file) true s) as [Hf Hd].
  destruct (os.makedirs (os.dirname log_file) true s) as [s1 [[]|e]]; simpl in Hf, Hd.
  - destruct (os.open_check log_file s1) as [[]|e].
    + simpl. split; [done|]. right. by rewrite Hf.
    + destruct (is_IOError e); simpl; split; by eauto.
  - destruct (is_IOError e); simpl; split; by eauto.
Qed.

(** The log writer on the file system as written: whatever entries it
    handles, every other path keeps its content, the old content of the log
    file is a prefix of the new one, and no directory goes away. *)
Lemma handled_entries_effect (log_file : string) (entries : list string) (o : output) :
  let o' := handle_all (write_entry log_file) entries o in
  (forall p, p <> log_file -> os.files (disk o') !! p = os.files (disk o) !! p)
  /\ (exists suffix,
         default "" (os.files (disk o') !! log_file)
         = default "" (os.files (disk o) !! log_file) +:+ suffix)
  /\ os.dirs (disk o) ⊆ os.dirs (disk o').
Proof.
  revert o. induction entries as [|entry entries IH]; intros o; simpl.
  - split; [done|]. split; [|done]. exists "". by rewrite string_app_nil_r.
  - destruct (IH (write_entry log_file entry o)) as (Hother & [suffix Hlog] & Hdirs).
    assert (Hstep : disk (write_entry log_file entry o)
                    = fst (_write_to_file log_file entry (disk o))).
    { unfold write_entry. by destruct (_write_to_file log_file entry (disk o)). }
    destruct (write_to_file_effect log_file entry (disk o)) as [Hd [Hf|Hf]].
    + split; [|split].
      * intros p Hp. by rewrite Hother, Hstep, Hf.
      * exists suffix. by rewrite Hlog, Hstep, Hf.
      * etrans; [|exact Hdirs]. by rewrite Hstep.
    + split; [|split].
      * intros p Hp. by rewrite Hother, Hstep, Hf, lookup_insert_ne.
      * exists (entry +:+ NL +:+ suffix).
        rewrite Hlog, Hstep, Hf, lookup_insert_eq. simpl.
        by rewrite !string_app_assoc.
      * etrans; [|exact Hdirs]. by rewrite Hstep.
Qed.

(** X7.  The log writer only appends: whatever entries it handles, on
    whatever file system, every other file keeps its content, the old
    content of the log file is a prefix of the new one, and no directory
    goes away.  The other files are those of another normalized path than
    the normalized path of the log file. *)
Theorem log_writer_only_appends (log_file : string) (entries : list string) (o : output) :
  let o' := handle_all (write_entry log_file) entries o in
  (forall p,
      posixpath.normalized log_file = true -> posixpath.normalized p = true ->
      p <> log_file ->
      os.files (disk o') !! p = os.files (disk o) !! p)
  /\ (exists suffix,
         default "" (os.files (disk o') !! log_file)
         = default "" (os.files (disk o) !! log_file) +:+ suffix)
  /\ os.dirs (disk o) ⊆ os.dirs (disk o').
Proof.
  intros o'. destruct (handled_entries_effect log_file entries o) as (Hother & Hlog & Hdirs).
  split; [|by split]. intros p _ _ Hp. by apply Hother.
Qed.

(** X8.  A log file named without any directory part is never written:
    the writer leaves the file system as it is, whatever entries it
    handles, and prints one error for each of them. *)
Theorem log_writer_bare_name (log_file : string) (entries : list string) (o : output) :
  has_char "/" log_file = false ->
  disk (handle_all (write_entry log_file) entries o) = disk o
  /\ length (printed (handle_all (write_entry log_file) entries o))
     = (length (printed o) + length entries)%nat.
Proof.
  intros Hbare. apply dirname_bare in Hbare.
  split; [by apply log_writer_bare_name_writes_nothing|].
  revert o. induction entries as [|entry entries IH]; intros o; simpl; [lia|].
  rewrite IH. unfold write_entry. rewrite (write_to_file_bare_name _ _ _ Hbare).
  simpl. rewrite length_app. simpl. lia.
Qed.

Lemma log_writer_bare_name_witness :
  let o := {| disk := {| os.dirs := ∅; os.files := {[ "notes.txt" := "kept" ]} |};
              printed := [] |} in
  has_char "/" "app.log" = false
  /\ disk (handle_all (write_entry "app.log") ["one"; "two"] o) = disk o
  /\ length (printed (handle_all (write_entry "app.log") ["one"; "two"] o))
     = (length (printed o) + length ["one"; "two"])%nat.
Proof.
  intros o. split; [done|].
  exact (log_writer_bare_name "app.log" ["one"; "two"] o eq_refl).
Defined.





End writer_facts.

(** ** The tabular export and the file system *)

Section export_effect_facts.
Import TestResult ReportGenerator.
Context `{PyRuntime}.

Lemma write_rows_result (rs : list TestResult.t) (written : string) :
  write_rows csv_writer rs written
  = (written,
     match rs with
     | [] => Ok tt
     | _ => Raise (ValueError
                     ("dict contains fields not in fieldnames: "
                      +:+ str_join ", " (map str_repr
                            ["request_headers"; "response_headers"; "validation_errors"])))
     end).
Proof.
  destruct rs as [|r rs]; [done|]. cbn [write_rows]. by rewrite writerow_rejects_outcome.
Qed.

(** [export_csv] on the file system as written: no path but the joined one
    changes and no directory goes away. *)
Lemma export_csv_effect (self : ReportGenerator) (filename : string) (s : os.fs) :
  let path := os.join (output_dir self) filename in
  let s' := fst (export_csv self filename s) in
  (forall p, p <> path -> os.files s' !! p = os.files s !! p)
  /\ os.dirs s ⊆ os.dirs s'
  /\ (os.files s' !! path = os.files s !! path
      \/ os.files s' !! path = Some header_row).
Proof.
  intros path s'. subst path s'. unfold export_csv.
  destruct (makedirs_frame (output_dir self) true s) as [Hf Hd].
  destruct (os.makedirs (output_dir self) true s) as [s1 [[]|e]]; simpl in Hf, Hd.
  - destruct (os.open_check (os.join (output_dir self) filename) s1) as [[]|e].
    + rewrite writeheader_row, write_rows_result. unfold os.write_file. simpl.
      rewrite Hf. split; [|split; [done|]].
      * intros p Hp. by rewrite lookup_insert_ne.
      * right. by rewrite lookup_insert_eq.
    + simpl. rewrite Hf. by eauto.
  - simpl. rewrite Hf. by eauto.
Qed.

(** X10.  Whatever the history and the file system, [export_csv] on a
    normalized output directory and joined path changes no file of another
    normalized path and removes no directory; and when it got as far as
    opening the file, that file holds the header row and nothing else,
    whatever it held before. *)
Theorem export_csv_touches_one_file (self : ReportGenerator) (filename : string) (s : os.fs) :
  let path := os.join (output_dir self) filename in
  let s' := fst (export_csv self filename s) in
  (forall p,
      posixpath.normalized (output_dir self) = true ->
      posixpath.normalized path = true -> posixpath.normalized p = true ->
      p <> path ->
      os.files s' !! p = os.files s !! p)
  /\ os.dirs s ⊆ os.dirs s'
  /\ (os.files s' !! path = os.files s !! path
      \/ os.files s' !! path = Some header_row).
Proof.
  intros path s'. destruct (export_csv_effect self filename s) as (Hother & Hdirs & Hpath).
  split; [|by split]. intros p _ _ _ Hp. by apply Hother.
Qed.

(** [export_csv] on the file system as written, when the directory is
    there or can be made and the file can be opened. *)
Lemma export_csv_result (self : ReportGenerator) (filename : string) (s s1 : os.fs) :
  os.makedirs (output_dir self) true s = (s1, Ok tt) ->
  os.open_check (os.join (output_dir self) filename) s1 = Ok tt ->
  let path := os.join (output_dir self) filename in
  let out := export_csv self filename s in
  os.files (fst out) = <[path := header_row]> (os.files s)
  /\ os.dirs (fst out) = os.dirs s1
  /\ (snd out = Ok path <-> results (data (thread self)) = [])
  /\ (results (data (thread self)) <> [] -> exists msg, snd out = Raise (ValueError msg)).
Proof.
  intros Hmk Hopen path out. subst path out. unfold export_csv.
  destruct (makedirs_frame (output_dir self) true s) as [Hf _].
  rewrite Hmk in Hf |- *. rewrite Hopen, writeheader_row, write_rows_result.
  simpl in Hf. unfold os.write_file. simpl. rewrite Hf.
  split; [done|]. split; [done|].
  destruct (results (data (thread self))) as [|r rs]; simpl.
  - split; [done|]. by intros [].
  - split; [split; done|]. intros _. by eexists.
Qed.

(** X11.  When the output directory and the joined path are normalized, the
    directory is there or can be made and the file can be opened,
    [export_csv] returns the joined path exactly on an empty history; on any
    other history it raises [ValueError], and in both cases the file is left
    with the header row alone and the files of the other normalized paths as
    they were. *)
Theorem export_csv_outcome (self : ReportGenerator) (filename : string) (s s1 : os.fs) :
  posixpath.normalized (output_dir self) = true ->
  posixpath.normalized (os.join (output_dir self) filename) = true ->
  os.makedirs (output_dir self) true s = (s1, Ok tt) ->
  os.open_check (os.join (output_dir self) filename) s1 = Ok tt ->
  let path := os.join (output_dir self) filename in
  let out := export_csv self filename s in
  os.files (fst out) !! path = Some header_row
  /\ (forall p, posixpath.normalized p = true -> p <> path ->
                os.files (fst out) !! p = os.files s !! p)
  /\ os.dirs (fst out) = os.dirs s1
  /\ (snd out = Ok path <-> results (data (thread self)) = [])
  /\ (results (data (thread self)) <> [] -> exists msg, snd out = Raise (ValueError msg)).
Proof.
  intros _ _ Hmk Hopen path out.
  destruct (export_csv_result self filename s s1 Hmk Hopen)
    as (Hfiles & Hdirs & Hret & Hraise).
  fold path out in Hfiles, Hdirs, Hret, Hraise.
  split; [by rewrite Hfiles, lookup_insert_eq|].
  split; [intros p _ Hp; by rewrite Hfiles, lookup_insert_ne|].
  by split.
Qed.

End export_effect_facts.

Lemma export_csv_outcome_witness :
  let self := ReportGenerator.new "reports" in
  let s := {| os.dirs := ∅; os.files := {[ "reports/test_report.csv" := "stale" ]} |} in
  let s1 := {| os.dirs := {[ "reports" ]};
               os.files := {[ "reports/test_report.csv" := "stale" ]} |} in
  let path := os.join (ReportGenerator.output_dir self) "test_report.csv" in
  let out := @ReportGenerator.export_csv example_runtime self "test_report.csv" s in
  (posixpath.normalized (ReportGenerator.output_dir self) = true
   /\ posixpath.normalized path = true
   /\ os.makedirs (ReportGenerator.output_dir self) true s = (s1, Ok tt)
   /\ os.open_check path s1 = Ok tt)
  /\
  (os.files (fst out) !! path = Some ReportGenerator.header_row
   /\ (forall p, posixpath.normalized p = true -> p <> path ->
                 os.files (fst out) !! p = os.files s !! p)
   /\ os.dirs (fst out) = os.dirs s1
   /\ (snd out = Ok path
       <-> ReportGenerator.results (data (ReportGenerator.thread self)) = [])
   /\ (ReportGenerator.results (data (ReportGenerator.thread self)) <> [] ->
       exists msg, snd out = Raise (ValueError msg))).
Proof.
  intros self s s1 path out.
  assert (Hmk : os.makedirs (ReportGenerator.output_dir self) true s = (s1, Ok tt))
    by (vm_compute; reflexivity).
  assert (Hopen : os.open_check path s1 = Ok tt) by (vm_compute; reflexivity).
  split; [by repeat split|].
  exact (@export_csv_outcome example_runtime self "test_report.csv" s s1
           eq_refl eq_refl Hmk Hopen).
Defined.

(** ** The validators and the wrapper of [api_test] *)

Section wrapper_facts.
Context `{PyRuntime} `{JsonSchema}.

(** X12.  [validate_headers] passes exactly when every expected header is in
    the response, under a name equal up to case, with exactly the expected
    value; otherwise it raises an [AssertionError] and nothing else. *)
Theorem validate_headers_passes_iff (response : Assertions.Response)
    (expected : list (string * string)) :
  (Assertions.validate_headers response expected = Ok tt
   <-> forall header value,
         In (header, value) expected ->
         Assertions.header_get (Assertions.headers response) header = Some value)
  /\ (forall e, Assertions.validate_headers response expected = Raise e ->
                is_AssertionError e = true).
Proof.
  induction expected as [|[header value] expected [IHok IHerr]]; simpl.
  - split; [|done]. split; [by intros _ ? ? []|done].
  - destruct (Assertions.header_get (Assertions.headers response) header)
      as [actual|] eqn:Hget.
    + destruct (String.eqb_spec actual value) as [->|Hne].
      * split; [|done]. rewrite IHok. split.
        -- intros Hrest h v [[= <- <-]|Hin]; [done|by apply Hrest].
        -- intros Hall h v Hin. apply Hall. by right.
      * split; [|by intros e [= <-]]. split; [done|].
        intros Hall. specialize (Hall header value (or_introl eq_refl)). congruence.
    + split; [|by intros e [= <-]]. split; [done|].
      intros Hall. specialize (Hall header value (or_introl eq_refl)). congruence.
Qed.

Lemma collect_cases (check : result unit) (errors : list string) :
  match Assertions.collect check errors with
  | Ok errors' =>
      (check = Ok tt /\ errors' = errors)
      \/ (exists msg, check = Raise (AssertionError msg) /\ errors' = errors ++ [msg])
  | Raise e => check = Raise e /\ is_AssertionError e = false
  end.
Proof. destruct check as [[]|[]]; simpl; by eauto. Qed.

Lemma collect_length (check : result unit) (errors errors' : list string) :
  Assertions.collect check errors = Ok errors' ->
  (length errors <= length errors' <= S (length errors))%nat.
Proof.
  intros Hc. pose proof (collect_cases check errors) as Hcases. rewrite Hc in Hcases.
  destruct Hcases as [[_ ->]|(msg & _ & ->)]; [lia|]. rewrite length_app. simpl. lia.
Qed.

(** The validations raise only what is not an [AssertionError]. *)
Lemma perform_validations_raises (t : Assertions.ApiTest) (response : Assertions.Response)
    (e : exn) :
  Assertions.perform_validations t response = Raise e -> is_AssertionError e = false.
Proof.
  unfold Assertions.perform_validations.
  assert (Hc : forall check errors e',
             Assertions.collect check errors = Raise e' -> is_AssertionError e' = false).
  { intros check errors e' Hr. pose proof (collect_cases check errors) as Hcases.
    rewrite Hr in Hcases. by destruct Hcases. }
  destruct (Assertions.collect _ []) as [errs1|e1] eqn:H1;
    [|intros [= <-]; by eapply Hc].
  destruct (Assertions.expected_schema t) as [[|s schema]|].
  1,3: destruct (Assertions.expected_headers t) as [[|h hs]|].
  1,3,4,6: destruct (Assertions.expected_content t) as [content|];
    [destruct (Json.truthy content)|]; try done; by apply Hc.
  1,2: destruct (Assertions.collect _ errs1) as [errs3|e3] eqn:H3;
    [|intros [= <-]; by eapply Hc];
    (destruct (Assertions.expected_content t) as [content|];
     [destruct (Json.truthy content)|]; try done; by apply Hc).
  destruct (Assertions.collect _ errs1) as [errs2|e2] eqn:H2;
    [|intros [= <-]; by eapply Hc].
  destruct (Assertions.expected_headers t) as [[|h hs]|].
  1,3: destruct (Assertions.expected_content t) as [content|];
    [destruct (Json.truthy content)|]; try done; by apply Hc.
  destruct (Assertions.collect _ errs2) as [errs3|e3] eqn:H3;
    [|intros [= <-]; by eapply Hc].
  destruct (Assertions.expected_content t) as [content|];
    [destruct (Json.truthy content)|]; try done; by apply Hc.
Qed.

(** What the validations return: the status message first when the status
    differs, and at most one message for each check that is configured. *)
Lemma perform_validations_errors (t : Assertions.ApiTest) (response : Assertions.Response)
    (errors : list string) :
  Assertions.perform_validations t response = Ok errors ->
  (length errors <= Checks.configured t)%nat
  /\ (Assertions.status_code response <> Assertions.expected_status t ->
      exists rest,
        errors = ("Expected status code " +:+ pretty (Assertions.expected_status t)
                  +:+ ", got " +:+ pretty (Assertions.status_code response)) :: rest)
  /\ (Assertions.status_code response = Assertions.expected_status t ->
      (length errors < Checks.configured t)%nat).
Proof.
  unfold Assertions.perform_validations, Checks.configured.
  set (n2 := match Assertions.expected_schema t with Some (_ :: _) => 1%nat | _ => 0%nat end).
  set (n3 := match Assertions.expected_headers t with Some (_ :: _) => 1%nat | _ => 0%nat end).
  set (n4 := match Assertions.expected_content t with
             | Some content => if Json.truthy content then 1%nat else 0%nat
             | None => 0%nat
             end).
  set (msg := "Expected status code " +:+ pretty (Assertions.expected_status t)
              +:+ ", got " +:+ pretty (Assertions.status_code response)).
  assert (H1 : exists errs1,
             Assertions.collect
               (Assertions.validate_status_code response (Assertions.expected_status t)) []
             = Ok errs1
             /\ ((Assertions.status_code response = Assertions.expected_status t
                  /\ errs1 = [])
                 \/ (Assertions.status_code response <> Assertions.expected_status t
                     /\ errs1 = [msg]))).
  { unfold Assertions.validate_status_code.
    destruct (Z.eqb_spec (Assertions.status_code response) (Assertions.expected_status t));
      simpl; eexists; (split; [reflexivity|]); [by left|by right]. }
  destruct H1 as (errs1 & -> & H1).
  destruct (match Assertions.expected_schema t with
            | Some (s :: schema) =>
                Assertions.collect (Assertions.validate_json_schema response (s :: schema)) errs1
            | _ => Ok errs1
            end) as [errs2|] eqn:H2; [|done].
  assert (G2 : exists r2, errs2 = errs1 ++ r2 /\ (length r2 <= n2)%nat).
  { subst n2. destruct (Assertions.expected_schema t) as [[|s schema]|].
    1,3: injection H2 as <-; exists []; by rewrite app_nil_r.
    pose proof (collect_cases (Assertions.validate_json_schema response (s :: schema)) errs1)
      as Hc. rewrite H2 in Hc.
    destruct Hc as [[_ ->]|(m & _ & ->)];
      [exists []; rewrite app_nil_r; split; [done|simpl; lia]|by exists [m]]. }
  destruct (match Assertions.expected_headers t with
            | Some (h :: hs) =>
                Assertions.collect (Assertions.validate_headers response (h :: hs)) errs2
            | _ => Ok errs2
            end) as [errs3|] eqn:H3; [|done].
  assert (G3 : exists r3, errs3 = errs2 ++ r3 /\ (length r3 <= n3)%nat).
  { subst n3. destruct (Assertions.expected_headers t) as [[|h hs]|].
    1,3: injection H3 as <-; exists []; by rewrite app_nil_r.
    pose proof (collect_cases (Assertions.validate_headers response (h :: hs)) errs2)
      as Hc. rewrite H3 in Hc.
    destruct Hc as [[_ ->]|(m & _ & ->)];
      [exists []; rewrite app_nil_r; split; [done|simpl; lia]|by exists [m]]. }
  intros H4.
  assert (G4 : exists r4, errors = errs3 ++ r4 /\ (length r4 <= n4)%nat).
  { subst n4. destruct (Assertions.expected_content t) as [content|];
      [destruct (Json.truthy content)|].
    2,3: injection H4 as <-; exists []; by rewrite app_nil_r.
    pose proof (collect_cases (Assertions.validate_json_content response content) errs3)
      as Hc. rewrite H4 in Hc.
    destruct Hc as [[_ ->]|(m & _ & ->)];
      [exists []; rewrite app_nil_r; split; [done|simpl; lia]|by exists [m]]. }
  destruct G2 as (r2 & -> & L2), G3 as (r3 & -> & L3), G4 as (r4 & -> & L4).
  rewrite !length_app.
  destruct H1 as [[Heq ->]|[Hne ->]]; simpl.
  - split; [lia|]. split; [done|]. intros _. lia.
  - split; [lia|]. split; [|done]. intros _. by eexists.
Qed.

(** X13.  The validations never raise an [AssertionError]: each failed
    check becomes one message.  There is at most one message for each check
    that is configured (the status check, and the schema, header and content
    checks whose argument is not empty), fewer when the status is the
    expected one, and a status mismatch is the first message. *)
Theorem validation_errors_bounded (t : Assertions.ApiTest) (response : Assertions.Response) :
  match Assertions.perform_validations t response with
  | Ok errors =>
      (length errors <= Checks.configured t)%nat
      /\ (Assertions.status_code response <> Assertions.expected_status t ->
          exists rest,
            errors = ("Expected status code " +:+ pretty (Assertions.expected_status t)
                      +:+ ", got " +:+ pretty (Assertions.status_code response)) :: rest)
      /\ (Assertions.status_code response = Assertions.expected_status t ->
          (length errors < Checks.configured t)%nat)
  | Raise e => is_AssertionError e = false
  end.
Proof.
  destruct (Assertions.perform_validations t response) as [errors|e] eqn:Hv.
  - by apply perform_validations_errors.
  - by eapply perform_validations_raises.
Qed.

(** The ways out of the wrapper of a test class that has a client: it
    returns the response, raises the failed checks, raises another
    exception, or raises an [AssertionError] of the test function or of the
    client. *)
Lemma outcome_way_out (t : Assertions.ApiTest) (func_name class_name : string)
    (client : Assertions.Client) (func : result (option Assertions.Params))
    (clock : Assertions.Clock) :
  exists r ret,
    Assertions.outcome t func_name class_name (Some client) func clock = (Some r, ret)
    /\ TestResult.execution_time r
       = PrimFloat.sub (Assertions.end_time clock) (Assertions.start_time clock)
    /\ TestResult.test_name r = func_name
    /\ TestResult.test_class r = class_name
    /\ TestResult.endpoint r = Assertions.endpoint t
    /\ TestResult.method r = Assertions.method t
    /\ TestResult.timestamp r = Assertions.utcnow clock
    /\ ((exists request_params response,
           ret = Ok response
           /\ func = Ok request_params
           /\ client (lower (Assertions.method t)) (Assertions.endpoint t)
                     (Assertions.or_empty request_params) = Ok response
           /\ Assertions.perform_validations t response = Ok []
           /\ TestResult.status r = "SUCCESS"
           /\ TestResult.error_message r = None
           /\ TestResult.validation_errors r = None
           /\ TestResult.response_code r = Some (Assertions.status_code response))
        \/ (exists request_params response e errors,
              ret = Raise (AssertionError (str_join APILogger.NL (e :: errors)))
              /\ func = Ok request_params
              /\ client (lower (Assertions.method t)) (Assertions.endpoint t)
                        (Assertions.or_empty request_params) = Ok response
              /\ Assertions.perform_validations t response = Ok (e :: errors)
              /\ TestResult.status r = "FAILED"
              /\ TestResult.error_message r = Some (str_join APILogger.NL (e :: errors))
              /\ TestResult.validation_errors r = Some (e :: errors)
              /\ TestResult.response_code r = Some (Assertions.status_code response))
        \/ (exists e,
              ret = Raise e
              /\ is_AssertionError e = false
              /\ TestResult.status r = "ERROR"
              /\ TestResult.error_message r = Some (exn_str e)
              /\ TestResult.validation_errors r = None)
        \/ (exists msg,
              ret = Raise (AssertionError msg)
              /\ (func = Raise (AssertionError msg)
                  \/ exists request_params,
                       func = Ok request_params
                       /\ client (lower (Assertions.method t)) (Assertions.endpoint t)
                                 (Assertions.or_empty request_params)
                          = Raise (AssertionError msg))
              /\ TestResult.status r = "SUCCESS"
              /\ TestResult.error_message r = None
              /\ TestResult.validation_errors r = None
              /\ TestResult.response_code r = None)).
Proof.
  unfold Assertions.outcome.
  destruct func as [request_params|e].
  - destruct (client _ _ _) as [response|e] eqn:Hclient.
    + destruct (Assertions.perform_validations t response) as [[|m errors]|e] eqn:Hv.
      * do 2 eexists. split; [reflexivity|]. do 6 (split; [done|]).
        left. by do 2 eexists.
      * do 2 eexists. split; [reflexivity|]. do 6 (split; [done|]).
        right; left. by do 4 eexists.
      * pose proof (perform_validations_raises _ _ _ Hv) as He. rewrite He.
        do 2 eexists. split; [reflexivity|]. do 6 (split; [done|]).
        right; right; left. by eexists.
    + destruct (is_AssertionError e) eqn:He.
      * destruct e; try done.
        do 2 eexists. split; [reflexivity|]. do 6 (split; [done|]).
        right; right; right. eexists. split; [done|]. split; [|done]. right. by eexists.
      * do 2 eexists. split; [reflexivity|]. do 6 (split; [done|]).
        right; right; left. by eexists.
  - destruct (is_AssertionError e) eqn:He.
    + destruct e; try done.
      do 2 eexists. split; [reflexivity|]. do 6 (split; [done|]).
      right; right; right. eexists. split; [done|]. split; [|done]. by left.
    + do 2 eexists. split; [reflexivity|]. do 6 (split; [done|]).
      right; right; left. by eexists.
Qed.

(** The validations return no message exactly when the status is the
    expected one and every configured check passes. *)
Lemma perform_validations_pass (t : Assertions.ApiTest) (response : Assertions.Response) :
  Assertions.perform_validations t response = Ok []
  <-> Assertions.status_code response = Assertions.expected_status t
      /\ (forall s schema,
            Assertions.expected_schema t = Some (s :: schema) ->
            Assertions.validate_json_schema response (s :: schema) = Ok tt)
      /\ (forall h hs,
            Assertions.expected_headers t = Some (h :: hs) ->
            Assertions.validate_headers response (h :: hs) = Ok tt)
      /\ (forall content,
            Assertions.expected_content t = Some content ->
            Json.truthy content = true ->
            Assertions.validate_json_content response content = Ok tt).
Proof.
  assert (Hc : forall check errors,
             Assertions.collect check errors = Ok [] <-> check = Ok tt /\ errors = []).
  { intros check errors. split.
    - intros Hcol. pose proof (collect_cases check errors) as Hcases.
      rewrite Hcol in Hcases. destruct Hcases as [[-> <-]|(m & _ & Happ)]; [done|].
      by destruct errors.
    - by intros [-> ->]. }
  assert (Hmono : forall check errors errors',
             Assertions.collect check errors = Ok errors' -> errors' = [] -> errors = []).
  { intros check errors errors' Hcol ->. by apply Hc in Hcol as [_ ->]. }
  unfold Assertions.perform_validations.
  split.
  - intros Hv.
    destruct (Assertions.collect _ []) as [errs1|] eqn:H1; [|done].
    destruct (match Assertions.expected_schema t with
              | Some (s :: schema) =>
                  Assertions.collect (Assertions.validate_json_schema response (s :: schema))
                                     errs1
              | _ => Ok errs1
              end) as [errs2|] eqn:H2; [|done].
    destruct (match Assertions.expected_headers t with
              | Some (h :: hs) =>
                  Assertions.collect (Assertions.validate_headers response (h :: hs)) errs2
              | _ => Ok errs2
              end) as [errs3|] eqn:H3; [|done].
    assert (E3 : errs3 = []).
    { destruct (Assertions.expected_content t) as [content|];
        [destruct (Json.truthy content)|]; [by eapply Hmono|congruence|congruence]. }
    assert (E2 : errs2 = []).
    { destruct (Assertions.expected_headers t) as [[|h hs]|];
        [congruence|by eapply Hmono|congruence]. }
    assert (E1 : errs1 = []).
    { destruct (Assertions.expected_schema t) as [[|s schema]|];
        [congruence|by eapply Hmono|congruence]. }
    subst errs1 errs2 errs3.
    split.
    { apply Hc in H1 as [H1 _]. unfold Assertions.validate_status_code in H1.
      by destruct (Z.eqb_spec (Assertions.status_code response)
                              (Assertions.expected_status t)). }
    split; [intros s schema Hs; rewrite Hs in H2; by apply Hc in H2 as [? _]|].
    split; [intros h hs Hs; rewrite Hs in H3; by apply Hc in H3 as [? _]|].
    intros content Hs Ht. rewrite Hs, Ht in Hv. by apply Hc in Hv as [? _].
  - intros (Hstatus & Hschema & Hheaders & Hcontent).
    unfold Assertions.validate_status_code.
    rewrite Hstatus, Z.eqb_refl.
    change (Assertions.collect (Ok tt) []) with (@Ok (list string) []). cbv beta iota.
    assert (E2 : match Assertions.expected_schema t with
                 | Some (s :: schema) =>
                     Assertions.collect
                       (Assertions.validate_json_schema response (s :: schema)) []
                 | _ => Ok []
                 end = Ok []).
    { destruct (Assertions.expected_schema t) as [[|s schema]|] eqn:Es; try done.
      by rewrite (Hschema s schema). }
    rewrite E2.
    assert (E3 : match Assertions.expected_headers t with
                 | Some (h :: hs) =>
                     Assertions.collect (Assertions.validate_headers response (h :: hs)) []
                 | _ => Ok []
                 end = Ok []).
    { destruct (Assertions.expected_headers t) as [[|h hs]|] eqn:Es; try done.
      by rewrite (Hheaders h hs). }
    rewrite E3.
    destruct (Assertions.expected_content t) as [content|] eqn:Ec; [|done].
    destruct (Json.truthy content) eqn:Ht; [|done].
    by rewrite (Hcontent content).
Qed.

(** X14.  The outcome reported for a call has the status FAILED exactly when
    it carries validation errors; these are then at least one and at most
    one for each configured check, the error message is their join by
    newlines, and the wrapper raises the [AssertionError] of that message. *)
Theorem failed_iff_validation_errors (t : Assertions.ApiTest) (func_name class_name : string)
    (client : Assertions.Client) (func : result (option Assertions.Params))
    (clock : Assertions.Clock) :
  exists r ret,
    Assertions.outcome t func_name class_name (Some client) func clock = (Some r, ret)
    /\ (TestResult.status r = "FAILED"
        <-> exists errors, TestResult.validation_errors r = Some errors)
    /\ (forall errors,
          TestResult.validation_errors r = Some errors ->
          errors <> []
          /\ (length errors <= Checks.configured t)%nat
          /\ TestResult.error_message r = Some (str_join APILogger.NL errors)
          /\ ret = Raise (AssertionError (str_join APILogger.NL errors))).
Proof.
  destruct (outcome_way_out t func_name class_name client func clock)
    as (r & ret & Hout & _ & _ & _ & _ & _ & _ & Hway).
  exists r, ret. split; [done|].
  destruct Hway as [(ps & response & -> & _ & _ & _ & Hs & _ & Hv & _)
                   |[(ps & response & e & errors & -> & _ & _ & Hval & Hs & Hm & Hv & _)
                   |[(e & -> & _ & Hs & _ & Hv)
                   |(msg & -> & _ & Hs & _ & Hv & _)]]];
    rewrite Hs, Hv.
  1,3,4: split; [split; [done|by intros [? ?]]|done].
  split; [split; [by eexists|done]|].
  intros ? [= <-]. split; [done|]. split; [|done].
  by apply perform_validations_errors in Hval as [? _].
Qed.

(** X15.  The outcome reported for a call has the status ERROR exactly when
    the wrapper raises an [Exception] that is not an [AssertionError]; the
    error message is then the text of that exception and there are no
    validation errors.  An exception of the test function or of the client
    that is no [Exception] passes the wrapper, and the outcome reported for
    it is a SUCCESS without error message, response code or validation
    errors. *)
Theorem error_iff_other_exception (t : Assertions.ApiTest) (func_name class_name : string)
    (client : Passing.Client) (func : Passing.ending (option Assertions.Params))
    (clock : Assertions.Clock) :
  exists r ret,
    Passing.outcome t func_name class_name (Some client) func clock = (Some r, ret)
    /\ (TestResult.status r = "ERROR"
        <-> exists e, ret = Passing.Ends (Raise e) /\ is_AssertionError e = false)
    /\ (forall e,
          ret = Passing.Ends (Raise e) -> is_AssertionError e = false ->
          TestResult.error_message r = Some (exn_str e)
          /\ TestResult.validation_errors r = None)
    /\ (forall base_exception,
          ret = Passing.Passes base_exception ->
          TestResult.status r = "SUCCESS"
          /\ TestResult.error_message r = None
          /\ TestResult.response_code r = None
          /\ TestResult.validation_errors r = None).
Proof.
  assert (Hraise : forall (r0 : TestResult.t) (e : exn),
             TestResult.status r0 <> "ERROR" ->
             TestResult.validation_errors r0 = None
             \/ is_AssertionError e = true ->
             let r := if is_AssertionError e then r0 else Assertions.set_error r0 e in
             (TestResult.status r = "ERROR"
              <-> exists e', Passing.Ends (A := Assertions.Response) (Raise e)
                             = Passing.Ends (Raise e')
                             /\ is_AssertionError e' = false)
             /\ (forall e',
                   Passing.Ends (A := Assertions.Response) (Raise e)
                   = Passing.Ends (Raise e') ->
                   is_AssertionError e' = false ->
                   TestResult.error_message r = Some (exn_str e')
                   /\ TestResult.validation_errors r = None)
             /\ (forall base_exception,
                   Passing.Ends (A := Assertions.Response) (Raise e)
                   = Passing.Passes base_exception ->
                   TestResult.status r = "SUCCESS"
                   /\ TestResult.error_message r = None
                   /\ TestResult.response_code r = None
                   /\ TestResult.validation_errors r = None)).
  { intros r0 e Hs Hv r. subst r. destruct (is_AssertionError e) eqn:He.
    - split; [|split; [|done]].
      + split; [done|]. intros (e' & [= <-] & He'). congruence.
      + intros e' [= <-] He'. congruence.
    - destruct Hv as [Hv|]; [|done]. split; [|split; [|done]].
      + split; [by eexists|done].
      + by intros e' [= <-] _. }
  unfold Passing.outcome.
  destruct func as [[request_params|e]|base_exception].
  - destruct (client _ _ _) as [[response|e]|base_exception].
    + destruct (Assertions.perform_validations t response) as [[|m errors]|e] eqn:Hv.
      * do 2 eexists. split; [reflexivity|]. cbn.
        split; [split; [done|by intros (? & ? & ?)]|]. split; done.
      * do 2 eexists. split; [reflexivity|]. cbn.
        split; [split; [done|]|split; [|done]].
        -- intros (e' & [= <-] & He'). done.
        -- by intros e' [= <-] He'.
      * do 2 eexists. split; [reflexivity|].
        apply (Hraise _ e); [done|by left].
    + do 2 eexists. split; [reflexivity|]. apply (Hraise _ e); [done|by left].
    + do 2 eexists. split; [reflexivity|]. cbn.
      split; [split; [done|by intros (? & ? & ?)]|]. split; done.
  - do 2 eexists. split; [reflexivity|]. apply (Hraise _ e); [done|by left].
  - do 2 eexists. split; [reflexivity|]. cbn.
    split; [split; [done|by intros (? & ? & ?)]|]. split; done.
Qed.

(** X16.  The wrapper returns a response exactly when the test function
    returned, the client returned that response, its status is the expected
    one and each configured check passes on it (a check whose argument is
    empty is not run); the outcome reported is then a SUCCESS with the
    response's status code and no error message. *)
Theorem returns_iff_checks_pass (t : Assertions.ApiTest) (func_name class_name : string)
    (client : Assertions.Client) (func : result (option Assertions.Params))
    (clock : Assertions.Clock) (response : Assertions.Response) :
  exists r ret,
    Assertions.outcome t func_name class_name (Some client) func clock = (Some r, ret)
    /\ (ret = Ok response
        <-> (exists request_params,
               func = Ok request_params
               /\ client (lower (Assertions.method t)) (Assertions.endpoint t)
                         (Assertions.or_empty request_params) = Ok response)
            /\ Assertions.status_code response = Assertions.expected_status t
            /\ (forall s schema,
                  Assertions.expected_schema t = Some (s :: schema) ->
                  Assertions.validate_json_schema response (s :: schema) = Ok tt)
            /\ (forall h hs,
                  Assertions.expected_headers t = Some (h :: hs) ->
                  Assertions.validate_headers response (h :: hs) = Ok tt)
            /\ (forall content,
                  Assertions.expected_content t = Some content ->
                  Json.truthy content = true ->
                  Assertions.validate_json_content response content = Ok tt))
    /\ (ret = Ok response ->
        TestResult.status r = "SUCCESS"
        /\ TestResult.response_code r = Some (Assertions.status_code response)
        /\ TestResult.error_message r = None
        /\ TestResult.validation_errors r = None).
Proof.
  destruct (outcome_way_out t func_name class_name client func clock)
    as (r & ret & Hout & _ & _ & _ & _ & _ & _ & Hway).
  exists r, ret. split; [done|].
  rewrite <- perform_validations_pass.
  destruct Hway as [(ps & response' & -> & Hf & Hc & Hval & Hs & Hm & Hv & Hcode)
                   |[(ps & response' & e & errors & -> & Hf & Hc & Hval & _)
                   |[(e & -> & He & Hs & Hm & Hv)
                   |(msg & -> & Hwhy & _)]]].
  - split; [|by intros [= <-]]. split.
    + intros [= <-]. split; [by eexists|done].
    + intros [(ps' & Hf' & Hc') _]. congruence.
  - split; [|done]. split; [done|].
    intros [(ps' & Hf' & Hc') Hval']. congruence.
  - split; [|done]. split; [done|].
    intros [(ps' & Hf' & Hc') Hval'].
    unfold Assertions.outcome in Hout. rewrite Hf', Hc', Hval' in Hout. done.
  - split; [|done]. split; [done|].
    intros [(ps' & Hf' & Hc') _].
    destruct Hwhy as [Hf|(ps & Hf & Hc)]; congruence.
Qed.

(** X17.  An [AssertionError] raised by the decorated test function itself,
    or by the client, is raised again by the wrapper, and the outcome
    reported keeps the status SUCCESS, without error message, response code
    or validation errors: the aggregator counts the call as passed. *)
Theorem assertion_outside_checks_is_success (t : Assertions.ApiTest)
    (func_name class_name : string) (client : Assertions.Client)
    (func : result (option Assertions.Params)) (clock : Assertions.Clock)
    (msg : string) (mc : MetricsCollector.MetricsCollector) :
  func = Raise (AssertionError msg)
  \/ (exists request_params,
        func = Ok request_params
        /\ client (lower (Assertions.method t)) (Assertions.endpoint t)
                  (Assertions.or_empty request_params) = Raise (AssertionError msg)) ->
  exists r,
    Assertions.outcome t func_name class_name (Some client) func clock
    = (Some r, Raise (AssertionError msg))
    /\ TestResult.status r = "SUCCESS"
    /\ TestResult.error_message r = None
    /\ TestResult.response_code r = None
    /\ TestResult.validation_errors r = None
    /\ MetricsCollector.passed_tests (MetricsCollector.add_result r mc)
       = MetricsCollector.passed_tests mc + 1
    /\ MetricsCollector.failed_tests (MetricsCollector.add_result r mc)
       = MetricsCollector.failed_tests mc
    /\ MetricsCollector.error_tests (MetricsCollector.add_result r mc)
       = MetricsCollector.error_tests mc.
Proof.
  intros Hwhy. unfold Assertions.outcome.
  destruct Hwhy as [->|(ps & -> & ->)]; eexists; (split; [reflexivity|]); done.
Qed.

(** X18.  A call of the wrapper on a test class with a client hands exactly
    one outcome to the reporter, whatever the way out: it is put at the end
    of the queue, carries the names, the endpoint and the method of the test
    and the time between the two clock reads, and the history and the
    metrics are not touched.  Without a client the wrapper raises the
    [ValueError] and the reporter is left as it was. *)
Theorem wrapper_reports_once (t : Assertions.ApiTest) (func_name class_name : string)
    (client : option Assertions.Client) (func : result (option Assertions.Params))
    (clock : Assertions.Clock) (reporter : ReportGenerator.ReportGenerator) :
  let out := Assertions.wrapper t func_name class_name client func clock reporter in
  match client with
  | Some _ =>
      exists r,
        queue (ReportGenerator.thread (fst out))
        = queue (ReportGenerator.thread reporter) ++ [r]
        /\ TestResult.test_name r = func_name
        /\ TestResult.test_class r = class_name
        /\ TestResult.endpoint r = Assertions.endpoint t
        /\ TestResult.method r = Assertions.method t
        /\ TestResult.timestamp r = Assertions.utcnow clock
        /\ TestResult.execution_time r
           = PrimFloat.sub (Assertions.end_time clock) (Assertions.start_time clock)
        /\ data (ReportGenerator.thread (fst out)) = data (ReportGenerator.thread reporter)
        /\ stop_event (ReportGenerator.thread (fst out))
           = stop_event (ReportGenerator.thread reporter)
        /\ ReportGenerator.output_dir (fst out) = ReportGenerator.output_dir reporter
  | None =>
      out = (reporter, Raise (ValueError "Test class must have 'client' attribute"))
  end.
Proof.
  intros out. subst out. unfold Assertions.wrapper.
  destruct client as [client|]; [|done].
  destruct (outcome_way_out t func_name class_name client func clock)
    as (r & ret & -> & Htime & Hname & Hclass & Hep & Hm & Hts & _).
  exists r. by repeat split.
Qed.

End wrapper_facts.

Lemma assertion_outside_checks_is_success_witness :
  let t := {| Assertions.endpoint := "/users/7"; Assertions.method := "GET";
              Assertions.expected_status := 200;
              Assertions.expected_schema := None;
              Assertions.expected_headers := None;
              Assertions.expected_content := None |} in
  let response := {| Assertions.status_code := 200;
                     Assertions.headers := [("Content-Type", "application/json")];
                     Assertions.json := Ok (JDict [("id", JInt 7)]);
                     Assertions.request_headers := [("Accept", "*/*")] |} in
  let client : Assertions.Client := fun _ _ _ => Ok response in
  let clock := {| Assertions.utcnow :=
                    {| year := 2024; month := 5; day := 17; hour := 9;
                       minute := 30; second := 0; microsecond := 0 |};
                  Assertions.start_time := 10%float;
                  Assertions.end_time := 10.5%float |} in
  let func : result (option Assertions.Params) := Raise (AssertionError "no user id") in
  exists r,
    @Assertions.outcome example_runtime example_validator t "test_get_user"
      "TestExampleAPI" (Some client) func clock
    = (Some r, Raise (AssertionError "no user id"))
    /\ TestResult.status r = "SUCCESS"
    /\ TestResult.error_message r = None
    /\ TestResult.response_code r = None
    /\ TestResult.validation_errors r = None
    /\ MetricsCollector.passed_tests (MetricsCollector.add_result r MetricsCollector.init)
       = MetricsCollector.passed_tests MetricsCollector.init + 1
    /\ MetricsCollector.failed_tests (MetricsCollector.add_result r MetricsCollector.init)
       = MetricsCollector.failed_tests MetricsCollector.init
    /\ MetricsCollector.error_tests (MetricsCollector.add_result r MetricsCollector.init)
       = MetricsCollector.error_tests MetricsCollector.init.
Proof.
  intros t response client clock func.
  exact (@assertion_outside_checks_is_success example_runtime example_validator
           t "test_get_user" "TestExampleAPI" client func clock "no user id"
           MetricsCollector.init (or_introl eq_refl)).
Defined.

(** ** The client *)

Section client_facts.
Context `{PyRuntime} `{JsonSchema}.
Variable config : list (string * json).
Variable session_headers : list (string * string).
Variable utcnow : nat -> datetime.
Variable session_request : nat -> APIClient.Request -> result APIClient.Response.
Variable is_RequestException : exn -> bool.
Variable sleep : json -> result unit.

Local Abbreviation _make_request :=
  (APIClient._make_request config session_headers utcnow session_request
                           is_RequestException sleep).
Local Abbreviation call__make_request :=
  (APIClient.call__make_request config session_headers utcnow session_request
                                is_RequestException sleep).
Local Abbreviation request :=
  (APIClient.request config session_headers utcnow session_request
                     is_RequestException sleep).
Local Abbreviation call :=
  (APIClient.call config session_headers utcnow session_request
                  is_RequestException sleep).

(** A function that only has [**kwargs] leaves every keyword to it. *)
Lemma bind_var_keyword (function : string) (given : list string)
    (kw bound kwargs : list (string * json)) :
  APIClient.bind function given [] true kw = inr (bound, kwargs) ->
  bound = [] /\ kwargs = kw.
Proof.
  revert bound kwargs. induction kw as [|[k v] kw IH]; intros bound kwargs; simpl.
  - by intros [= <- <-].
  - destruct (csv.mem k given); [done|].
    destruct (APIClient.bind function given [] true kw) as [e|[b ks]]; [done|].
    intros [= <- <-]. destruct (IH b ks eq_refl) as [-> ->]. done.
Qed.

(** [request] called with the keyword [json] never reaches the body of
    [_make_request]. *)
Lemma request_with_json (depth : nat) (method endpoint : string) (value : json)
    (explicit kwargs : list (string * json)) (w : APIClient.World) :
  exists e,
    request depth method endpoint (("json", value) :: explicit) kwargs w
    = Some (w, inl (APIClient.Type_Error e)).
Proof.
  unfold APIClient.request.
  destruct (APIClient.keywords _ _ _) as [e|kw] eqn:Hkw; [by eexists|].
  destruct (APIClient.bind "request" _ _ _ kw) as [e|[b ks]] eqn:Hb; [by eexists|].
  apply bind_var_keyword in Hb as [-> ->].
  unfold APIClient.keywords in Hkw.
  destruct (List.find _ kwargs) as [[k v]|]; [done|]. injection Hkw as <-.
  unfold APIClient.call__make_request. simpl. by eexists.
Qed.

Lemma call_with_json (name : string) (depth : nat) (endpoint : string)
    (request_params : list (string * json)) (w : APIClient.World) :
  In name ["post"; "put"; "patch"] ->
  exists e,
    call name depth endpoint request_params w = Some (w, inl (APIClient.Type_Error e)).
Proof.
  unfold APIClient.call.
  intros [<-|[<-|[<-|[]]]]; cbn [String.eqb Ascii.eqb Bool.eqb];
    unfold APIClient.post, APIClient.put, APIClient.patch;
    (destruct (APIClient.bind _ _ _ _ request_params) as [e|[b ks]]; [by eexists|]);
    apply request_with_json.
Qed.

(** X19.  [post], [put] and [patch] never send anything: whatever the
    arguments, the call ends in a [TypeError] before the body of
    [_make_request] runs (they pass the body as the keyword [json], which
    [_make_request] does not take), so nothing is logged, sent or slept. *)
Theorem post_put_patch_raise (depth : nat) (endpoint : string)
    (request_params : list (string * json)) (w : APIClient.World) :
  (exists e,
     APIClient.post config session_headers utcnow session_request is_RequestException
                    sleep depth endpoint request_params w
     = Some (w, inl (APIClient.Type_Error e)))
  /\ (exists e,
        APIClient.put config session_headers utcnow session_request is_RequestException
                      sleep depth endpoint request_params w
        = Some (w, inl (APIClient.Type_Error e)))
  /\ (exists e,
        APIClient.patch config session_headers utcnow session_request is_RequestException
                        sleep depth endpoint request_params w
        = Some (w, inl (APIClient.Type_Error e))).
Proof.
  split; [|split].
  - apply (call_with_json "post"). by left.
  - apply (call_with_json "put"). right. by left.
  - apply (call_with_json "patch"). right. right. by left.
Qed.

(** X21.  A test decorated with the method POST, PUT or PATCH (in any case
    of the letters) and run on this client never passes or fails: whatever
    the test function returns, the wrapper raises the [TypeError] of the
    call and the outcome reported has the status ERROR, with the text of
    that error and no response code. *)
Theorem wrapper_with_body_method_is_error (describe : APIClient.TypeError -> string)
    (depth : nat) (w : APIClient.World) (client : Assertions.Client)
    (t : Assertions.ApiTest) (func_name class_name : string)
    (request_params : option Assertions.Params) (clock : Assertions.Clock) :
  APIClient.is_client config session_headers utcnow session_request is_RequestException
                      sleep describe depth w client ->
  In (lower (Assertions.method t)) ["post"; "put"; "patch"] ->
  exists r e,
    Assertions.outcome t func_name class_name (Some client) (Ok request_params) clock
    = (Some r, Raise (OtherError (describe e)))
    /\ TestResult.status r = "ERROR"
    /\ TestResult.error_message r = Some (describe e)
    /\ TestResult.response_code r = None
    /\ TestResult.validation_errors r = None.
Proof.
  intros Hclient Hmethod.
  destruct (call_with_json _ depth (Assertions.endpoint t)
              (Assertions.or_empty request_params) w Hmethod) as [e Hcall].
  apply Hclient in Hcall. cbn [APIClient.seen] in Hcall.
  unfold Assertions.outcome. rewrite Hcall. cbn [is_AssertionError].
  by do 2 eexists.
Qed.

(** What [bind] returns when it does not raise. *)
Lemma bind_inr (function : string) (given optional : list string) (var_keyword : bool)
    (kw bound kwargs : list (string * json)) :
  APIClient.bind function given optional var_keyword kw = inr (bound, kwargs) ->
  bound = List.filter (fun kv => csv.mem (fst kv) optional) kw
  /\ kwargs = List.filter (fun kv => negb (csv.mem (fst kv) optional)) kw
  /\ forallb (fun kv => negb (csv.mem (fst kv) given)) kw = true
  /\ (var_keyword = false -> forallb (fun kv => csv.mem (fst kv) optional) kw = true).
Proof.
  revert bound kwargs. induction kw as [|[k v] kw IH]; intros bound kwargs; simpl.
  - by intros [= <- <-].
  - destruct (csv.mem k given); [done|].
    destruct (csv.mem k optional); simpl.
    + destruct (APIClient.bind _ _ _ _ kw) as [e|[b ks]]; [done|].
      intros [= <- <-]. destruct (IH b ks eq_refl) as (-> & -> & Hg & Ho). done.
    + destruct var_keyword; [|done].
      destruct (APIClient.bind _ _ _ _ kw) as [e|[b ks]]; [done|].
      intros [= <- <-]. destruct (IH b ks eq_refl) as (-> & -> & Hg & Ho). done.
Qed.

(** [bind] does not raise when no keyword names a parameter that has its
    argument and every keyword has a place. *)
Lemma bind_accepts (function : string) (given optional : list string) (var_keyword : bool)
    (kw : list (string * json)) :
  forallb (fun kv => negb (csv.mem (fst kv) given)) kw = true ->
  (var_keyword = true \/ forallb (fun kv => csv.mem (fst kv) optional) kw = true) ->
  APIClient.bind function given optional var_keyword kw
  = inr (List.filter (fun kv => csv.mem (fst kv) optional) kw,
         List.filter (fun kv => negb (csv.mem (fst kv) optional)) kw).
Proof.
  induction kw as [|[k v] kw IH]; simpl; [done|].
  intros [Hk Hg]%andb_true_iff Hplace.
  apply negb_true_iff in Hk. rewrite Hk.
  destruct (csv.mem k optional) eqn:Ho; simpl.
  - rewrite IH; [done|done|]. destruct Hplace as [?|Hall]; [by left|by right].
  - destruct Hplace as [->|Hall]; [|done]. rewrite IH; [done|done|by left].
Qed.

Lemma getitem_filter (keep : string -> bool) (kw : list (string * json)) (key : string) :
  Json.getitem (List.filter (fun kv => keep (fst kv)) kw) key
  = if keep key then Json.getitem kw key else None.
Proof.
  induction kw as [|[k v] kw IH]; simpl; [by destruct (keep key)|].
  destruct (String.eqb_spec k key) as [->|Hne].
  - destruct (keep key) eqn:Hk; simpl; [by rewrite String.eqb_refl|rewrite IH; by rewrite ?Hk].
  - destruct (keep k); simpl; [|done].
    by destruct (String.eqb_spec k key).
Qed.

Lemma find_nothing {A} (f : A -> bool) (l : list A) :
  (forall x, In x l -> f x = false) -> List.find f l = None.
Proof.
  induction l as [|a l IH]; simpl; [done|].
  intros Hall. rewrite (Hall a) by (by left). apply IH. intros x Hin. apply Hall. by right.
Qed.

Lemma filter_all (keep : string * json -> bool) (kw : list (string * json)) :
  forallb keep kw = true -> List.filter keep kw = kw.
Proof.
  induction kw as [|kv kw IH]; simpl; [done|].
  intros [-> Hall]%andb_true_iff. by rewrite IH.
Qed.

(** The call that [get] and [delete] come down to when every keyword is a
    parameter of [_make_request]: the keywords become its arguments. *)
Lemma request_accepted (depth : nat) (method endpoint : string)
    (kw : list (string * json)) (w : APIClient.World) :
  forallb (fun kv => csv.mem (fst kv)
                       ["headers"; "params"; "json_data"; "data"; "retry_count"]) kw
  = true ->
  match APIClient.bind "request" ["self"; "method"; "endpoint"] [] true kw with
  | inl e => Some (w, inl (APIClient.Type_Error e))
  | inr (_, kwargs) => call__make_request depth method endpoint kwargs w
  end
  = match APIClient.headers_argument (APIClient.argument kw "headers" JNull),
          APIClient.int_argument (APIClient.argument kw "retry_count" (JInt 0)) with
    | Some headers, Some retry_count =>
        _make_request depth method endpoint headers
          (APIClient.argument kw "params" JNull) (APIClient.argument kw "json_data" JNull)
          (APIClient.argument kw "data" JNull) retry_count w
    | _, _ => None
    end.
Proof.
  intros Hall.
  assert (Hgiven : forall given,
             (forall k, csv.mem k given = true ->
                        csv.mem k ["headers"; "params"; "json_data"; "data"; "retry_count"]
                        = false) ->
             forallb (fun kv : string * json => negb (csv.mem (fst kv) given)) kw = true).
  { intros given Hdisjoint. apply forallb_forall. intros kv Hin.
    apply negb_true_iff. destruct (csv.mem (fst kv) given) eqn:Hm; [|done].
    apply Hdisjoint in Hm.
    rewrite forallb_forall in Hall. specialize (Hall kv Hin). congruence. }
  assert (Hdisjoint : forall k,
             csv.mem k ["self"; "method"; "endpoint"] = true ->
             csv.mem k ["headers"; "params"; "json_data"; "data"; "retry_count"] = false).
  { intros k. unfold csv.mem. simpl. rewrite !orb_false_r, !orb_true_iff.
    intros [Hk|[Hk|Hk]]; apply String.eqb_eq in Hk; by subst k. }
  rewrite bind_accepts; [|by apply Hgiven|by left].
  simpl. rewrite filter_all by (apply forallb_forall; intros; reflexivity).
  unfold APIClient.call__make_request.
  rewrite bind_accepts; [|by apply Hgiven|by right].
  by rewrite filter_all.
Qed.

(** A keyword that is no parameter of [_make_request] ends the call of
    [request] in a [TypeError]. *)
Lemma request_rejected (depth : nat) (method endpoint : string)
    (explicit kwargs : list (string * json)) (w : APIClient.World) :
  forallb (fun kv => csv.mem (fst kv)
                       ["headers"; "params"; "json_data"; "data"; "retry_count"]) kwargs
  = false ->
  exists e,
    request depth method endpoint explicit kwargs w
    = Some (w, inl (APIClient.Type_Error e)).
Proof.
  intros Hsome. unfold APIClient.request.
  destruct (APIClient.keywords _ _ _) as [e|kw] eqn:Hkw; [by eexists|].
  destruct (APIClient.bind "request" _ _ _ kw) as [e|[b ks]] eqn:Hb; [by eexists|].
  apply bind_var_keyword in Hb as [-> ->].
  unfold APIClient.keywords in Hkw.
  destruct (List.find _ kwargs) as [[k v]|]; [done|]. injection Hkw as <-.
  unfold APIClient.call__make_request.
  destruct (APIClient.bind "_make_request" _ _ _ _) as [e|[b ks]] eqn:Hb; [by eexists|].
  apply bind_inr in Hb as (_ & _ & _ & Hall). specialize (Hall eq_refl).
  rewrite forallb_app in Hall. apply andb_true_iff in Hall as [_ Hall]. congruence.
Qed.

(** X20.  [get] and [delete] take exactly the keywords [headers], [params],
    [json_data], [data] and [retry_count]: with any other keyword the call
    ends in a [TypeError] and nothing is logged or sent, and with these the
    call is the call of [_make_request] with the method, the endpoint and
    the keywords as its arguments, the others at their defaults. *)
Theorem get_delete_keywords (depth : nat) (endpoint : string)
    (request_params : list (string * json)) (w : APIClient.World) :
  let direct method :=
    match APIClient.headers_argument (APIClient.argument request_params "headers" JNull),
          APIClient.int_argument (APIClient.argument request_params "retry_count" (JInt 0))
    with
    | Some headers, Some retry_count =>
        _make_request depth method endpoint headers
          (APIClient.argument request_params "params" JNull)
          (APIClient.argument request_params "json_data" JNull)
          (APIClient.argument request_params "data" JNull) retry_count w
    | _, _ => None
    end in
  if forallb (fun kv => csv.mem (fst kv)
                          ["headers"; "params"; "json_data"; "data"; "retry_count"])
             request_params
  then call "get" depth endpoint request_params w = direct "GET"
       /\ call "delete" depth endpoint request_params w = direct "DELETE"
  else (exists e, call "get" depth endpoint request_params w
                  = Some (w, inl (APIClient.Type_Error e)))
       /\ (exists e, call "delete" depth endpoint request_params w
                     = Some (w, inl (APIClient.Type_Error e))).
Proof.
  intros direct. subst direct.
  change (call "get" depth endpoint request_params w)
    with (APIClient.get config session_headers utcnow session_request is_RequestException
                        sleep depth endpoint request_params w).
  change (call "delete" depth endpoint request_params w)
    with (APIClient.delete config session_headers utcnow session_request
                           is_RequestException sleep depth endpoint request_params w).
  unfold APIClient.get, APIClient.delete.
  destruct (forallb _ request_params) eqn:Hall.
  - assert (Hgiven : forallb (fun kv : string * json =>
                                negb (csv.mem (fst kv) ["self"; "endpoint"]))
                             request_params = true).
    { apply forallb_forall. intros [k v] Hin. rewrite forallb_forall in Hall.
      specialize (Hall _ Hin). revert Hall. unfold csv.mem. simpl.
      rewrite !orb_false_r, !orb_true_iff, negb_true_iff, orb_false_iff.
      intros Hk. split; apply String.eqb_neq; intros ->;
        repeat (destruct Hk as [Hk|Hk]; [done|]); done. }
    split.
    + rewrite bind_accepts; [|done|by left].
      set (bound := List.filter _ request_params).
      set (kwargs := List.filter _ request_params).
      unfold APIClient.request, APIClient.keywords.
      assert (Hfind : List.find
                        (fun kv : string * json =>
                           Json.contains_key
                             [("params", APIClient.argument bound "params" JNull)] (fst kv))
                        kwargs = None).
      { apply find_nothing. intros kv Hin. subst kwargs.
        apply filter_In in Hin as [_ Hk]. revert Hk. unfold csv.mem.
        cbn [Json.contains_key existsb fst].
        rewrite !orb_false_r, negb_true_iff. intros Hk.
        by rewrite String.eqb_sym. }
      rewrite Hfind. cbn [app].
      assert (Hkw : forallb (fun kv : string * json =>
                               csv.mem (fst kv)
                                 ["headers"; "params"; "json_data"; "data"; "retry_count"])
                            (("params", APIClient.argument bound "params" JNull) :: kwargs)
                    = true).
      { simpl. apply forallb_forall. intros kv Hin. subst kwargs.
        apply filter_In in Hin as [Hin _]. rewrite forallb_forall in Hall. by apply Hall. }
      rewrite (request_accepted depth "GET" endpoint _ w Hkw).
      unfold APIClient.argument. simpl. subst bound kwargs.
      rewrite !(getitem_filter (fun k => negb (csv.mem k ["params"]))).
      rewrite !(getitem_filter (fun k => csv.mem k ["params"])).
      done.
    + rewrite bind_accepts; [|done|by left].
      simpl. rewrite filter_all by (apply forallb_forall; intros; reflexivity).
      unfold APIClient.request, APIClient.keywords.
      assert (Hfind : List.find
                        (fun kv : string * json =>
                           Json.contains_key (@nil (string * json)) (fst kv))
                        request_params = None).
      { by apply find_nothing. }
      rewrite Hfind. cbn [app].
      by rewrite (request_accepted depth "DELETE" endpoint _ w Hall).
  - split.
    + destruct (APIClient.bind "get" _ _ _ _) as [e|[b ks]] eqn:Hb; [by eexists|].
      apply request_rejected.
      apply bind_inr in Hb as (_ & -> & _ & _).
      apply not_true_iff_false. intros Hks. apply not_true_iff_false in Hall.
      apply Hall. apply forallb_forall. intros kv Hin.
      destruct (csv.mem (fst kv) ["params"]) eqn:Hp.
      * revert Hp. unfold csv.mem. simpl. rewrite !orb_false_r.
        intros ->%String.eqb_eq. done.
      * rewrite forallb_forall in Hks. apply Hks. apply filter_In. by rewrite Hp.
    + destruct (APIClient.bind "delete" _ _ _ _) as [e|[b ks]] eqn:Hb; [by eexists|].
      apply request_rejected.
      apply bind_var_keyword in Hb as [_ ->]. done.
Qed.

(** *** The retries of [_make_request] *)

Section retry_facts.
Variable method endpoint : string.
Variable headers : option (list (string * string)).
Variable params json_data form_data : json.

Local Abbreviation the_request :=
  (APIClient.request_arguments config session_headers method endpoint headers params
                               json_data form_data).
Local Abbreviation entry :=
  (fun n : nat =>
     APILogger.request_entry (utcnow n) method (APIClient.request_url config endpoint)
       (Some (APIClient.request_headers session_headers headers))
       (APIClient.logged_body json_data form_data)).
Local Abbreviation delay := (Config.get config "retry_delay" (JInt 1)).
Local Abbreviation requested :=
  (APIClient.requested config session_headers utcnow method endpoint headers params
                       json_data form_data).
Local Abbreviation retried :=
  (APIClient.retried config session_headers utcnow method endpoint headers params
                     json_data form_data).
Local Abbreviation make_request depth :=
  (_make_request depth method endpoint headers params json_data form_data).
Local Abbreviation log_queue w := (queue (APILogger.thread (APIClient.logger w))).

(** An attempt whose exception is retried. *)
Lemma make_request_retry (depth : nat) (retry_count : Z) (w : APIClient.World) (e : exn) :
  session_request (length (APIClient.sent w)) the_request = Raise e ->
  is_RequestException e = true ->
  APIClient.int_lt retry_count (Config.get config "retry_attempts" (JInt 3)) = inr true ->
  sleep delay = Ok tt ->
  make_request (S depth) retry_count w = make_request depth (retry_count + 1) (retried w).
Proof.
  intros Hreply Hretry Hlt Hsleep.
  cbn [APIClient._make_request APILogger.log_request].
  unfold APIClient.attempt. cbn [APIClient.sent APIClient.logger APIClient.slept
                                 APIClient.ticks].
  rewrite Hreply. cbn [APIClient.sent APIClient.logger APIClient.slept APIClient.ticks].
  rewrite Hretry, Hlt, Hsleep. reflexivity.
Qed.

(** An attempt whose exception is raised. *)
Lemma make_request_raise (depth : nat) (retry_count : Z) (w : APIClient.World) (e : exn) :
  session_request (length (APIClient.sent w)) the_request = Raise e ->
  is_RequestException e = false
  \/ APIClient.int_lt retry_count (Config.get config "retry_attempts" (JInt 3))
     = inr false ->
  make_request (S depth) retry_count w = Some (requested w, inl (APIClient.Exception e)).
Proof.
  intros Hreply Hwhy.
  cbn [APIClient._make_request APILogger.log_request].
  unfold APIClient.attempt. cbn [APIClient.sent APIClient.logger APIClient.slept
                                 APIClient.ticks].
  rewrite Hreply. cbn [APIClient.sent APIClient.logger APIClient.slept APIClient.ticks].
  destruct (is_RequestException e); [|done].
  destruct Hwhy as [?| ->]; done.
Qed.

(** The world after [k] attempts that were retried. *)
Lemma retried_world (k : nat) (w : APIClient.World) :
  let w' := Nat.iter k retried w in
  log_queue w' = log_queue w ++ map entry (seq (APIClient.ticks w) k)
  /\ APIClient.sent w' = APIClient.sent w ++ replicate k the_request
  /\ APIClient.slept w' = APIClient.slept w ++ replicate k delay
  /\ APIClient.ticks w' = (APIClient.ticks w + k)%nat
  /\ APILogger.log_file (APIClient.logger w') = APILogger.log_file (APIClient.logger w)
  /\ data (APILogger.thread (APIClient.logger w'))
     = data (APILogger.thread (APIClient.logger w)).
Proof.
  induction k as [|k IH]; cbn zeta.
  - cbn [Nat.iter nat_rect seq map replicate]. rewrite !app_nil_r.
    repeat split; try done; lia.
  - cbn zeta in IH. destruct IH as (Hq & Hs & Hsl & Ht & Hf & Hd).
    rewrite Nat.iter_succ. set (wk := Nat.iter k retried w) in *.
    unfold APIClient.retried, APIClient.requested.
    cbn [APIClient.sent APIClient.logger APIClient.slept APIClient.ticks
         APILogger.log_request fst APILogger.thread APILogger.log_file put queue data].
    rewrite Hq, Hs, Hsl, Ht, Hf, Hd.
    rewrite seq_S, map_app, !replicate_S_end. cbn [map].
    rewrite <- !app_assoc. repeat split; try done; lia.
Qed.

(** [k] attempts whose exceptions are retried, one after the other. *)
Lemma make_request_retries (k depth : nat) (retry_count n : Z) (w : APIClient.World) :
  Config.get config "retry_attempts" (JInt 3) = JInt n ->
  ((0 < k)%nat -> sleep delay = Ok tt) ->
  ((0 < k)%nat -> retry_count + Z.of_nat k <= n) ->
  (forall i, (i < k)%nat ->
     exists e,
       session_request (length (APIClient.sent w) + i) the_request = Raise e
       /\ is_RequestException e = true) ->
  make_request (k + depth)%nat retry_count w
  = make_request depth (retry_count + Z.of_nat k) (Nat.iter k retried w).
Proof.
  intros Hn. revert retry_count w.
  induction k as [|k IH]; intros retry_count w Hsleep Hle Hfail.
  - cbn [Nat.iter nat_rect plus]. by rewrite Z.add_0_r.
  - replace (S k + depth)%nat with (S (k + depth)) by lia.
    destruct (Hfail 0%nat) as (e & Hreply & Hretry); [lia|].
    rewrite Nat.add_0_r in Hreply.
    assert (0 < S k)%nat as Hpos by lia.
    specialize (Hsleep Hpos). specialize (Hle Hpos).
    rewrite (make_request_retry _ _ _ e Hreply Hretry); [|rewrite Hn; cbn; f_equal; lia|done].
    rewrite IH.
    + rewrite Nat.iter_succ_r. f_equal. lia.
    + done.
    + lia.
    + intros i Hi. destruct (Hfail (S i)) as (e' & Hreply' & Hretry'); [lia|].
      exists e'. split; [|done]. rewrite <- Hreply'. f_equal.
      unfold APIClient.retried, APIClient.requested. cbn [APIClient.sent].
      rewrite length_app. cbn [length]. lia.
Qed.

(** An attempt that gets a response whose body can be logged. *)
Lemma make_request_return (depth : nat) (retry_count : Z) (w : APIClient.World)
    (response : APIClient.Response) (body : json) (response_entry : string) :
  session_request (length (APIClient.sent w)) the_request = Ok response ->
  (if os.is_empty (APIClient.content response) then Ok JNull
   else Assertions.json (APIClient.message response)) = Ok body ->
  APILogger.response_entry (utcnow (S (APIClient.ticks w)))
    (Assertions.status_code (APIClient.message response))
    (Some (Assertions.headers (APIClient.message response))) body
    (utcnow (APIClient.ticks w)) = Ok response_entry ->
  exists w',
    make_request (S depth) retry_count w = Some (w', inr response)
    /\ log_queue w' = log_queue w ++ [entry (APIClient.ticks w); response_entry]
    /\ APIClient.sent w' = APIClient.sent w ++ [the_request]
    /\ APIClient.slept w' = APIClient.slept w
    /\ APIClient.ticks w' = S (S (APIClient.ticks w)).
Proof.
  intros Hreply Hbody Hentry.
  cbn [APIClient._make_request APILogger.log_request].
  unfold APIClient.attempt. cbn [APIClient.sent APIClient.logger APIClient.slept
                                 APIClient.ticks].
  rewrite Hreply, Hbody. unfold APILogger.log_response. rewrite Hentry.
  eexists. split; [reflexivity|].
  cbn [APIClient.sent APIClient.logger APIClient.slept APIClient.ticks
       APILogger.thread put queue].
  by rewrite <- app_assoc.
Qed.

(** [k] attempts that are retried and then one whose exception is raised. *)
Lemma make_request_raises_after (k depth : nat) (retry_count n : Z) (w : APIClient.World)
    (e : exn) :
  Config.get config "retry_attempts" (JInt 3) = JInt n ->
  ((0 < k)%nat -> sleep delay = Ok tt) ->
  ((0 < k)%nat -> retry_count + Z.of_nat k <= n) ->
  (k < depth)%nat ->
  (forall i, (i < k)%nat ->
     exists e,
       session_request (length (APIClient.sent w) + i) the_request = Raise e
       /\ is_RequestException e = true) ->
  session_request (length (APIClient.sent w) + k) the_request = Raise e ->
  is_RequestException e = false \/ n <= retry_count + Z.of_nat k ->
  exists w',
    make_request depth retry_count w = Some (w', inl (APIClient.Exception e))
    /\ APIClient.sent w' = APIClient.sent w ++ replicate (S k) the_request
    /\ APIClient.slept w' = APIClient.slept w ++ replicate k delay
    /\ log_queue w' = log_queue w ++ map entry (seq (APIClient.ticks w) (S k))
    /\ APIClient.ticks w' = (APIClient.ticks w + S k)%nat.
Proof.
  intros Hn Hsleep Hle Hdepth Hfail Hreply Hwhy.
  replace depth with (k + S (depth - S k))%nat by lia.
  rewrite (make_request_retries k _ retry_count n w Hn Hsleep Hle Hfail).
  destruct (retried_world k w) as (Hq & Hs & Hsl & Ht & _ & _).
  set (wk := Nat.iter k retried w) in *.
  rewrite (make_request_raise _ _ wk e).
  - eexists. split; [reflexivity|].
    unfold APIClient.requested.
    cbn [APIClient.sent APIClient.logger APIClient.slept APIClient.ticks
         APILogger.log_request fst APILogger.thread put queue].
    rewrite Hq, Hs, Hsl, Ht, seq_S, map_app, replicate_S_end. cbn [map].
    rewrite <- !app_assoc. repeat split; try done; lia.
  - rewrite Hs, length_app, length_replicate. done.
  - destruct Hwhy as [?|Hge]; [by left|right].
    rewrite Hn. cbn [APIClient.int_lt]. f_equal. lia.
Qed.

(** X22.  When every attempt fails with a [RequestException],
    [_make_request] gives up after [retry_attempts - retry_count] retries
    (none when that is negative): it has then sent the same request once
    more than it retried, logged a request entry for each, slept the
    configured delay once per retry, and it raises the exception of the last
    attempt; no response entry is logged. *)
Theorem retries_exhausted (depth : nat) (retry_count n : Z) (w : APIClient.World) :
  let retries := Z.to_nat (n - retry_count) in
  Config.get config "retry_attempts" (JInt 3) = JInt n ->
  ((0 < retries)%nat -> sleep delay = Ok tt) ->
  (retries < depth)%nat ->
  (forall i, (i <= retries)%nat ->
     exists e,
       session_request (length (APIClient.sent w) + i) the_request = Raise e
       /\ is_RequestException e = true) ->
  exists w' e,
    make_request depth retry_count w = Some (w', inl (APIClient.Exception e))
    /\ session_request (length (APIClient.sent w) + retries) the_request = Raise e
    /\ APIClient.sent w' = APIClient.sent w ++ replicate (S retries) the_request
    /\ APIClient.slept w' = APIClient.slept w ++ replicate retries delay
    /\ log_queue w' = log_queue w ++ map entry (seq (APIClient.ticks w) (S retries))
    /\ APIClient.ticks w' = (APIClient.ticks w + S retries)%nat.
Proof.
  intros retries Hn Hsleep Hdepth Hfail.
  destruct (Hfail retries) as (e & Hreply & _); [lia|].
  destruct (make_request_raises_after retries depth retry_count n w e)
    as (w' & Hrun & Hrest); try done.
  - intros Hpos. subst retries. lia.
  - intros i Hi. apply Hfail. lia.
  - right. subst retries. lia.
  - by exists w', e.
Qed.

(** X23.  When the first [k] attempts fail with a [RequestException], [k]
    is within the retries left, and the next attempt gets a response whose
    content is empty or JSON, [_make_request] returns that response: it has
    sent the same request [k + 1] times and slept [k] times, and the log
    queue has got the [k + 1] request entries and then one response entry,
    timed against the last request entry. *)
Theorem returns_after_failures (k depth : nat) (retry_count n : Z) (w : APIClient.World)
    (response : APIClient.Response) (body : json) (response_entry : string) :
  Config.get config "retry_attempts" (JInt 3) = JInt n ->
  ((0 < k)%nat -> sleep delay = Ok tt) ->
  ((0 < k)%nat -> retry_count + Z.of_nat k <= n) ->
  (k < depth)%nat ->
  (forall i, (i < k)%nat ->
     exists e,
       session_request (length (APIClient.sent w) + i) the_request = Raise e
       /\ is_RequestException e = true) ->
  session_request (length (APIClient.sent w) + k) the_request = Ok response ->
  (if os.is_empty (APIClient.content response) then Ok JNull
   else Assertions.json (APIClient.message response)) = Ok body ->
  APILogger.response_entry (utcnow (S (APIClient.ticks w + k)))
    (Assertions.status_code (APIClient.message response))
    (Some (Assertions.headers (APIClient.message response))) body
    (utcnow (APIClient.ticks w + k)) = Ok response_entry ->
  exists w',
    make_request depth retry_count w = Some (w', inr response)
    /\ APIClient.sent w' = APIClient.sent w ++ replicate (S k) the_request
    /\ APIClient.slept w' = APIClient.slept w ++ replicate k delay
    /\ log_queue w'
       = log_queue w ++ map entry (seq (APIClient.ticks w) (S k)) ++ [response_entry]
    /\ APIClient.ticks w' = (APIClient.ticks w + k + 2)%nat.
Proof.
  intros Hn Hsleep Hle Hdepth Hfail Hreply Hbody Hentry.
  replace depth with (k + S (depth - S k))%nat by lia.
  rewrite (make_request_retries k _ retry_count n w Hn Hsleep Hle Hfail).
  destruct (retried_world k w) as (Hq & Hs & Hsl & Ht & _ & _).
  set (wk := Nat.iter k retried w) in *.
  destruct (make_request_return (depth - S k) (retry_count + Z.of_nat k) wk
              response body response_entry)
    as (w' & Hrun & Hq' & Hs' & Hsl' & Ht').
  - by rewrite Hs, length_app, length_replicate.
  - done.
  - by rewrite Ht.
  - exists w'. split; [done|].
    rewrite Hq', Hs', Hsl', Ht', Hq, Hs, Hsl, Ht, seq_S, map_app, replicate_S_end.
    cbn [map]. rewrite <- !app_assoc. repeat split; try done; lia.
Qed.

(** X24.  An exception of [Session.request] that is not a
    [RequestException] is never retried: after [k] attempts that were
    retried, the attempt that meets it raises it at once, whatever retries
    are left, without sleeping again. *)
Theorem other_exception_is_raised (k depth : nat) (retry_count n : Z) (w : APIClient.World)
    (e : exn) :
  Config.get config "retry_attempts" (JInt 3) = JInt n ->
  ((0 < k)%nat -> sleep delay = Ok tt) ->
  ((0 < k)%nat -> retry_count + Z.of_nat k <= n) ->
  (k < depth)%nat ->
  (forall i, (i < k)%nat ->
     exists e,
       session_request (length (APIClient.sent w) + i) the_request = Raise e
       /\ is_RequestException e = true) ->
  session_request (length (APIClient.sent w) + k) the_request = Raise e ->
  is_RequestException e = false ->
  exists w',
    make_request depth retry_count w = Some (w', inl (APIClient.Exception e))
    /\ APIClient.sent w' = APIClient.sent w ++ replicate (S k) the_request
    /\ APIClient.slept w' = APIClient.slept w ++ replicate k delay
    /\ log_queue w' = log_queue w ++ map entry (seq (APIClient.ticks w) (S k))
    /\ APIClient.ticks w' = (APIClient.ticks w + S k)%nat.
Proof.
  intros Hn Hsleep Hle Hdepth Hfail Hreply Hother.
  apply (make_request_raises_after k depth retry_count n w e); try done. by left.
Qed.

(** What one [try] block does to the world. *)
Lemma attempt_world (timestamp : datetime) (w : APIClient.World) :
  let out := APIClient.attempt utcnow session_request the_request timestamp w in
  APIClient.sent (fst out) = APIClient.sent w ++ [the_request]
  /\ APIClient.slept (fst out) = APIClient.slept w
  /\ match snd out with
     | Ok response =>
         session_request (length (APIClient.sent w)) the_request = Ok response
         /\ (os.is_empty (APIClient.content response) = true
             \/ exists body, Assertions.json (APIClient.message response) = Ok body)
         /\ length (log_queue (fst out)) = S (length (log_queue w))
     | Raise _ => log_queue (fst out) = log_queue w
     end.
Proof.
  unfold APIClient.attempt.
  destruct (session_request _ _) as [response|e]; [|done].
  cbn [APIClient.sent APIClient.logger APIClient.slept APIClient.ticks].
  assert (Hjson : os.is_empty (APIClient.content response) = true
                  \/ os.is_empty (APIClient.content response) = false) by
    (destruct (os.is_empty _); by eauto).
  destruct (if os.is_empty (APIClient.content response) then Ok JNull
            else Assertions.json (APIClient.message response)) as [body|e] eqn:Hbody;
    [|done].
  unfold APILogger.log_response.
  destruct (APILogger.response_entry _ _ _ _ _) as [response_entry|e]; [|done].
  cbn [fst snd APIClient.sent APIClient.logger APIClient.slept APIClient.ticks
       APILogger.thread put queue].
  repeat split; try done.
  - destruct Hjson as [Hempty|Hfull]; [by left|right].
    rewrite Hfull in Hbody. by exists body.
  - rewrite length_app. cbn [length]. lia.
Qed.

(** X25.  However a call of [_make_request] ends, it has sent the request
    at least once and at most once more than the retries left allow
    ([retry_attempts - retry_count], none when negative), each time the
    same request, and it has put one request entry per attempt on the log
    queue, plus one response entry exactly when it returns.  A response it
    returns is the answer to the last attempt, and its content is empty or
    JSON. *)
Theorem make_request_bounded (depth : nat) (retry_count n : Z) (w w' : APIClient.World)
    (r : APIClient.error + APIClient.Response) :
  Config.get config "retry_attempts" (JInt 3) = JInt n ->
  make_request depth retry_count w = Some (w', r) ->
  exists k : nat,
    Z.of_nat k <= Z.max 0 (n - retry_count)
    /\ APIClient.sent w' = APIClient.sent w ++ replicate (S k) the_request
    /\ length (log_queue w')
       = (length (log_queue w) + S k + match r with inl _ => 0 | inr _ => 1 end)%nat
    /\ match r with
       | inr response =>
           session_request (length (APIClient.sent w) + k) the_request = Ok response
           /\ (os.is_empty (APIClient.content response) = true
               \/ exists body, Assertions.json (APIClient.message response) = Ok body)
       | inl _ => True
       end.
Proof.
  intros Hn. revert retry_count w.
  induction depth as [|depth IH]; intros retry_count w; [done|].
  cbn [APIClient._make_request APILogger.log_request].
  set (wl := {| APIClient.logger := _; APIClient.sent := APIClient.sent w;
                APIClient.slept := APIClient.slept w;
                APIClient.ticks := S (APIClient.ticks w) |}).
  pose proof (attempt_world (utcnow (APIClient.ticks w)) wl) as Hworld.
  cbn zeta in Hworld.
  destruct (APIClient.attempt utcnow session_request the_request _ wl) as [w1 res].
  cbn [fst snd] in Hworld. destruct Hworld as (Hs & Hsl & Hres).
  assert (Hql : log_queue wl = log_queue w ++ [entry (APIClient.ticks w)]) by done.
  assert (Hsl0 : APIClient.sent wl = APIClient.sent w) by done.
  rewrite Hsl0 in Hs, Hres. clearbody wl.
  assert (Hone : forall wx err,
             APIClient.sent wx = APIClient.sent w1 ->
             log_queue wx = log_queue wl ->
             Some (wx, inl err) = Some (w', r) ->
             exists k : nat,
               Z.of_nat k <= Z.max 0 (n - retry_count)
               /\ APIClient.sent w' = APIClient.sent w ++ replicate (S k) the_request
               /\ length (log_queue w')
                  = (length (log_queue w) + S k + match r with inl _ => 0 | inr _ => 1 end)%nat
               /\ match r with
                  | inr response =>
                      session_request (length (APIClient.sent w) + k) the_request
                      = Ok response
                      /\ (os.is_empty (APIClient.content response) = true
                          \/ exists body,
                               Assertions.json (APIClient.message response) = Ok body)
                  | inl _ => True
                  end).
  { intros wx err Hsx Hq [= <- <-]. exists 0%nat.
    rewrite Hsx, Hs, Hq, Hql, length_app. cbn [length replicate].
    repeat split; try done; lia. }
  destruct res as [response|e].
  - intros [= <- <-]. exists 0%nat. destruct Hres as (Hreply & Hjson & Hq).
    rewrite Hs, Hq, Hql, length_app, Nat.add_0_r. cbn [length replicate].
    repeat split; try done; lia.
  - destruct (is_RequestException e); [|by apply Hone].
    rewrite Hn. cbn [APIClient.int_lt].
    destruct (Z.ltb_spec retry_count n) as [Hlt|Hge]; [|by apply Hone].
    destruct (sleep delay) as [[]|e'].
    2:{ intros Hout. eapply Hone; [| |exact Hout]; done. }
    intros Hrun. apply IH in Hrun as (k & Hk & Hsent & Hq & Hr).
    cbn [APIClient.sent APIClient.logger APIClient.slept APIClient.ticks] in *.
    exists (S k). rewrite Hsent, Hs, Hq, Hres, Hql, length_app. cbn [length].
    split; [lia|]. split; [by rewrite <- app_assoc|]. split; [lia|].
    destruct r as [err|response]; [done|].
    rewrite Hs, length_app in Hr. cbn [length] in Hr.
    replace (length (APIClient.sent w) + S k)%nat
      with (length (APIClient.sent w) + 1 + k)%nat by lia.
    done.
Qed.

End retry_facts.

End client_facts.

(** *** The token of the session in the log *)

Section token_facts.
Context `{PyRuntime}.

(** Two header maps that differ in the values of sensitive headers only
    stay so when the same header is set in both. *)
Lemma redact_ci_setitem (l1 l2 : list (string * string)) (key value : string) :
  APILogger.redact l1 = APILogger.redact l2 ->
  APILogger.redact (APIClient.ci_setitem l1 key value)
  = APILogger.redact (APIClient.ci_setitem l2 key value).
Proof.
  revert l2. induction l1 as [|[k1 v1] l1 IH]; intros [|[k2 v2] l2]; try done.
  unfold APILogger.redact. cbn [map fst snd]. intros [= <- Hv Hrest].
  cbn [APIClient.ci_setitem].
  destruct (String.eqb (lower k1) (lower key)).
  - unfold APILogger.redact. cbn [map fst snd]. by rewrite Hrest.
  - specialize (IH l2 Hrest). unfold APILogger.redact in *. cbn [map fst snd].
    by rewrite Hv, IH.
Qed.

Lemma redact_ci_update (other l1 l2 : list (string * string)) :
  APILogger.redact l1 = APILogger.redact l2 ->
  APILogger.redact (APIClient.ci_update l1 other)
  = APILogger.redact (APIClient.ci_update l2 other).
Proof.
  unfold APIClient.ci_update. revert l1 l2.
  induction other as [|[k v] other IH]; intros l1 l2 Heq; [done|].
  cbn [fold_left fst snd]. apply IH. by apply redact_ci_setitem.
Qed.

(** Setting a sensitive header to two values gives maps that differ in
    that value only. *)
Lemma redact_ci_setitem_sensitive (l : list (string * string)) (key v1 v2 : string) :
  APILogger.is_sensitive key = true ->
  APILogger.redact (APIClient.ci_setitem l key v1)
  = APILogger.redact (APIClient.ci_setitem l key v2).
Proof.
  intros Hkey. induction l as [|[k v] l IH]; cbn [APIClient.ci_setitem].
  - unfold APILogger.redact. cbn [map fst snd]. by rewrite Hkey.
  - destruct (String.eqb (lower k) (lower key)).
    + unfold APILogger.redact. cbn [map fst snd]. by rewrite Hkey.
    + unfold APILogger.redact in *. cbn [map fst snd]. by rewrite IH.
Qed.

(** X26.  With bearer authentication, [_setup_auth] puts the token in the
    [Authorization] header of the session, and the request entries that
    [_make_request] logs do not depend on it: for two configurations that
    differ in the token, whatever headers the caller adds, the entry of a
    request is the same text. *)
Theorem bearer_token_is_not_logged (config1 config2 auth1 auth2 : list (string * json))
    (session : APIClient.Session.t) (utcnow : datetime) (method url : string)
    (headers : option (list (string * string))) (body : json) :
  Config.get config1 "auth" (JDict []) = JDict auth1 ->
  Config.get config2 "auth" (JDict []) = JDict auth2 ->
  Config.get auth1 "type" JNull = JStr "bearer" ->
  Config.get auth2 "type" JNull = JStr "bearer" ->
  exists session1 session2,
    APIClient._setup_auth config1 session = Some session1
    /\ APIClient._setup_auth config2 session = Some session2
    /\ APIClient.Session.headers session1
       = APIClient.ci_setitem (APIClient.Session.headers session) "Authorization"
           ("Bearer " +:+ Json.str (Config.get auth1 "token" JNull))
    /\ APILogger.request_entry utcnow method url
         (Some (APIClient.request_headers (APIClient.Session.headers session1) headers))
         body
       = APILogger.request_entry utcnow method url
           (Some (APIClient.request_headers (APIClient.Session.headers session2) headers))
           body.
Proof.
  intros Hauth1 Hauth2 Htype1 Htype2.
  unfold APIClient._setup_auth. rewrite Hauth1, Hauth2, Htype1, Htype2.
  cbn [String.eqb Ascii.eqb Bool.eqb andb].
  do 2 eexists. split; [reflexivity|]. split; [reflexivity|]. split; [reflexivity|].
  cbn [APIClient.Session.headers].
  unfold APILogger.request_entry.
  rewrite <- (headers_part_redact (APIClient.request_headers _ headers)).
  rewrite <- (headers_part_redact
                (APIClient.request_headers
                   (APIClient.ci_setitem _ _ ("Bearer " +:+ Json.str (Config.get auth2 _ _)))
                   headers)).
  do 4 f_equal.
  assert (Hset : APILogger.redact
                   (APIClient.ci_setitem (APIClient.Session.headers session)
                      "Authorization"
                      ("Bearer " +:+ Json.str (Config.get auth1 "token" JNull)))
                 = APILogger.redact
                     (APIClient.ci_setitem (APIClient.Session.headers session)
                        "Authorization"
                        ("Bearer " +:+ Json.str (Config.get auth2 "token" JNull)))).
  { by apply redact_ci_setitem_sensitive. }
  unfold APIClient.request_headers.
  destruct headers as [[|h hs]|]; try (by rewrite Hset).
  by rewrite (redact_ci_update (h :: hs) _ _ Hset).
Qed.

End token_facts.

Lemma bearer_token_is_not_logged_witness :
  let config token :=
    Json.setitem Config.set_defaults "auth"
      (JDict [("type", JStr "bearer"); ("token", JStr token)]) in
  let session := {| APIClient.Session.headers := ExampleClient.session_headers;
                    APIClient.Session.auth := None |} in
  exists session1 session2,
    @APIClient._setup_auth example_runtime (config "s3cr3t") session = Some session1
    /\ @APIClient._setup_auth example_runtime (config "other") session = Some session2
    /\ APIClient.Session.headers session1
       = ExampleClient.session_headers ++ [("Authorization", "Bearer s3cr3t")]
    /\ @APILogger.request_entry example_runtime (ExampleClient.utcnow 0) "GET"
         "http://localhost:8000/users"
         (Some (APIClient.request_headers (APIClient.Session.headers session1)
                  (Some [("Accept", "application/json")])))
         JNull
       = @APILogger.request_entry example_runtime (ExampleClient.utcnow 0) "GET"
           "http://localhost:8000/users"
           (Some (APIClient.request_headers (APIClient.Session.headers session2)
                    (Some [("Accept", "application/json")])))
           JNull.
Proof.
  intros config session.
  exact (@bearer_token_is_not_logged example_runtime (config "s3cr3t") (config "other")
           [("type", JStr "bearer"); ("token", JStr "s3cr3t")]
           [("type", JStr "bearer"); ("token", JStr "other")]
           session (ExampleClient.utcnow 0) "GET" "http://localhost:8000/users"
           (Some [("Accept", "application/json")]) JNull
           eq_refl eq_refl eq_refl eq_refl).
Defined.

Lemma wrapper_with_body_method_is_error_witness :
  let t := {| Assertions.endpoint := "/users"; Assertions.method := "POST";
              Assertions.expected_status := 201;
              Assertions.expected_schema := None;
              Assertions.expected_headers := None;
              Assertions.expected_content := None |} in
  let clock := {| Assertions.utcnow := ExampleClient.utcnow 0;
                  Assertions.start_time := 10%float;
                  Assertions.end_time := 10.5%float |} in
  let request_params :=
    Some [("json", JDict [("username", JStr "testuser"); ("password", JStr "secretpass123")])]
  in
  exists r e,
    @Assertions.outcome example_runtime example_validator t "test_create_user"
      "TestExampleAPI" (Some (ExampleClient.client 0 5)) (Ok request_params) clock
    = (Some r, Raise (OtherError (ExampleClient.describe e)))
    /\ TestResult.status r = "ERROR"
    /\ TestResult.error_message r = Some (ExampleClient.describe e)
    /\ TestResult.response_code r = None
    /\ TestResult.validation_errors r = None.
Proof.
  intros t clock request_params.
  apply (@wrapper_with_body_method_is_error example_runtime example_validator
           Config.set_defaults ExampleClient.session_headers ExampleClient.utcnow
           (ExampleClient.session_request 0) ExampleClient.is_RequestException
           ExampleClient.sleep ExampleClient.describe 5%nat ExampleClient.world
           (ExampleClient.client 0 5) t "test_create_user" "TestExampleAPI"
           request_params clock).
  - intros name endpoint params w' r Hcall. unfold ExampleClient.client.
    rewrite Hcall. reflexivity.
  - left. reflexivity.
Defined.

Lemma retries_exhausted_witness :
  let request :=
    @APIClient.request_arguments example_runtime Config.set_defaults
      ExampleClient.session_headers "GET" "/users" None JNull JNull JNull in
  exists w' e,
    @APIClient._make_request example_runtime Config.set_defaults
      ExampleClient.session_headers ExampleClient.utcnow (ExampleClient.session_request 10)
      ExampleClient.is_RequestException ExampleClient.sleep
      5 "GET" "/users" None JNull JNull JNull 0 ExampleClient.world
    = Some (w', inl (APIClient.Exception e))
    /\ ExampleClient.session_request 10 3 request = Raise e
    /\ APIClient.sent w' = replicate 4 request
    /\ APIClient.slept w' = replicate 3 (JInt 1)
    /\ queue (APILogger.thread (APIClient.logger w'))
       = map (fun n : nat =>
                @APILogger.request_entry example_runtime (ExampleClient.utcnow n) "GET"
                  "http://localhost:8000/users" (Some ExampleClient.session_headers) JNull)
             (seq 0 4)
    /\ APIClient.ticks w' = 4%nat.
Proof.
  intros request.
  apply (@retries_exhausted example_runtime Config.set_defaults
           ExampleClient.session_headers ExampleClient.utcnow
           (ExampleClient.session_request 10) ExampleClient.is_RequestException
           ExampleClient.sleep "GET" "/users" None JNull JNull JNull 5%nat 0 3
           ExampleClient.world).
  - reflexivity.
  - reflexivity.
  - simpl. lia.
  - intros i Hi. exists ExampleClient.refused. split; [|reflexivity].
    unfold ExampleClient.session_request.
    destruct (Nat.ltb_spec (length (APIClient.sent ExampleClient.world) + i) 10)
      as [_|Hge]; [reflexivity|simpl in Hi, Hge; lia].
Defined.

Lemma returns_after_failures_witness :
  let request :=
    @APIClient.request_arguments example_runtime Config.set_defaults
      ExampleClient.session_headers "GET" "/users" None JNull JNull JNull in
  exists response_entry w',
    @APILogger.response_entry example_runtime (ExampleClient.utcnow 3) 204
      (Some [("Server", "nginx")]) JNull (ExampleClient.utcnow 2) = Ok response_entry
    /\ @APIClient._make_request example_runtime Config.set_defaults
         ExampleClient.session_headers ExampleClient.utcnow
         (ExampleClient.session_request 2)
         ExampleClient.is_RequestException ExampleClient.sleep
         5 "GET" "/users" None JNull JNull JNull 0 ExampleClient.world
       = Some (w', inr ExampleClient.no_content)
    /\ APIClient.sent w' = replicate 3 request
    /\ APIClient.slept w' = replicate 2 (JInt 1)
    /\ queue (APILogger.thread (APIClient.logger w'))
       = map (fun n : nat =>
                @APILogger.request_entry example_runtime (ExampleClient.utcnow n) "GET"
                  "http://localhost:8000/users" (Some ExampleClient.session_headers) JNull)
             (seq 0 3) ++ [response_entry]
    /\ APIClient.ticks w' = 4%nat.
Proof.
  intros request.
  destruct (@APILogger.response_entry example_runtime (ExampleClient.utcnow 3) 204
              (Some [("Server", "nginx")]) JNull (ExampleClient.utcnow 2))
    as [response_entry|e] eqn:Hentry; [|vm_compute in Hentry; discriminate].
  exists response_entry.
  destruct (@returns_after_failures example_runtime Config.set_defaults
              ExampleClient.session_headers ExampleClient.utcnow
              (ExampleClient.session_request 2) ExampleClient.is_RequestException
              ExampleClient.sleep "GET" "/users" None JNull JNull JNull 2%nat 5%nat 0 3
              ExampleClient.world ExampleClient.no_content JNull response_entry)
    as (w' & Hrun); try reflexivity; try lia.
  - intros i Hi. exists ExampleClient.refused. split; [|reflexivity].
    destruct i as [|[|i]]; [reflexivity|reflexivity|lia].
  - exact Hentry.
  - exists w'. split; [reflexivity|]. exact Hrun.
Defined.

Lemma other_exception_is_raised_witness :
  let request :=
    @APIClient.request_arguments example_runtime Config.set_defaults
      ExampleClient.session_headers "GET" "/users" None JNull JNull JNull in
  let session_request (n : nat) (request : APIClient.Request)
    : result APIClient.Response :=
    if (n <? 1)%nat then Raise ExampleClient.refused
    else Raise (ValueError "Invalid return value") in
  exists w',
    @APIClient._make_request example_runtime Config.set_defaults
      ExampleClient.session_headers ExampleClient.utcnow session_request
      ExampleClient.is_RequestException ExampleClient.sleep
      5 "GET" "/users" None JNull JNull JNull 0 ExampleClient.world
    = Some (w', inl (APIClient.Exception (ValueError "Invalid return value")))
    /\ APIClient.sent w' = replicate 2 request
    /\ APIClient.slept w' = replicate 1 (JInt 1)
    /\ queue (APILogger.thread (APIClient.logger w'))
       = map (fun n : nat =>
                @APILogger.request_entry example_runtime (ExampleClient.utcnow n) "GET"
                  "http://localhost:8000/users" (Some ExampleClient.session_headers) JNull)
             (seq 0 2)
    /\ APIClient.ticks w' = 2%nat.
Proof.
  intros request session_request.
  apply (@other_exception_is_raised example_runtime Config.set_defaults
           ExampleClient.session_headers ExampleClient.utcnow session_request
           ExampleClient.is_RequestException ExampleClient.sleep
           "GET" "/users" None JNull JNull JNull 1%nat 5%nat 0 3 ExampleClient.world
           (ValueError "Invalid return value")); try reflexivity; try lia.
  intros i Hi. exists ExampleClient.refused. split; [|reflexivity].
  destruct i as [|i]; [reflexivity|lia].
Defined.

Lemma make_request_bounded_witness :
  let request :=
    @APIClient.request_arguments example_runtime Config.set_defaults
      ExampleClient.session_headers "GET" "/users" None JNull JNull JNull in
  exists w' r,
    @APIClient._make_request example_runtime Config.set_defaults
      ExampleClient.session_headers ExampleClient.utcnow (ExampleClient.session_request 1)
      ExampleClient.is_RequestException ExampleClient.sleep
      5 "GET" "/users" None JNull JNull JNull 0 ExampleClient.world
    = Some (w', r)
    /\ exists k : nat,
         Z.of_nat k <= Z.max 0 (3 - 0)
         /\ APIClient.sent w' = replicate (S k) request
         /\ length (queue (APILogger.thread (APIClient.logger w')))
            = (0 + S k + match r with inl _ => 0 | inr _ => 1 end)%nat
         /\ match r with
            | inr response =>
                ExampleClient.session_request 1 (0 + k) request = Ok response
                /\ (os.is_empty (APIClient.content response) = true
                    \/ exists body,
                         Assertions.json (APIClient.message response) = Ok body)
            | inl _ => True
            end.
Proof.
  intros request.
  destruct (@APIClient._make_request example_runtime Config.set_defaults
              ExampleClient.session_headers ExampleClient.utcnow
              (ExampleClient.session_request 1)
              ExampleClient.is_RequestException ExampleClient.sleep
              5 "GET" "/users" None JNull JNull JNull 0 ExampleClient.world)
    as [[w' r]|] eqn:Hrun; [|vm_compute in Hrun; discriminate].
  exists w', r. split; [reflexivity|].
  exact (@make_request_bounded example_runtime Config.set_defaults
           ExampleClient.session_headers ExampleClient.utcnow
           (ExampleClient.session_request 1) ExampleClient.is_RequestException
           ExampleClient.sleep "GET" "/users" None JNull JNull JNull 5%nat 0 3
           ExampleClient.world w' r eq_refl Hrun).
Defined.
